(** * Agenda Cultural: spreadsheet ingestion, cache and scrape-merge pipeline

    A shallow embedding of [src/utils/googleSheets.ts] (the position-indexed
    sheet client), of the label-indexed variant of its row normalizer, of
    [src/utils/scraper.ts] and of the image expression of
    [src/pages/events/[...slug].astro], with the properties the
    specification states about them.

    Conventions of the embedding.
    - A JavaScript string is a [string]; every [ascii] stands for one UTF-16
      code unit below 256.
    - A JavaScript number is a [number]: NaN, the two infinities, or the
      rational a finite binary64 value is. The conversions from strings
      ([Number], [parseInt]) and the subtraction round to the nearest
      binary64 value, [binary64]. The calendar arithmetic of [Date] is done
      on integers, as it is for every time value (at most 8.64e15 in
      magnitude, below 2^53).
    - A thrown exception is the [Throw] case of [result].
    - What the host provides and the repository does not define (the clock,
      the network, [JSON.parse], [Date.parse], the time zone) is a field of a
      [host] record passed to the functions that use it. *)

From Stdlib Require Import ZArith QArith Ascii String List Lia Bool.
From stdpp Require Import base gmap strings list.

Local Open Scope Z_scope.
Local Open Scope list_scope.

(* ===================================================================== *)
(** * Part I: the JavaScript values the code manipulates *)
(* ===================================================================== *)

Module JS.

(** ** Exceptions *)

Inductive error : Type :=
| TypeError
| SyntaxError
| RangeError
| NetworkError.

Inductive result (A : Type) : Type :=
| Ok (a : A)
| Throw (e : error).
Arguments Ok {A} a.
Arguments Throw {A} e.

(** Sequencing: an exception skips the rest of the block. *)
#[global] Instance result_bind : MBind result := fun A B k r =>
  match r with
  | Ok a => k a
  | Throw e => Throw e
  end.

(** ** Numbers *)

Inductive number : Type :=
| NaN
| PInf
| NInf
| Fin (q : Q).

Definition of_Z (z : Z) : number := Fin (inject_Z z).

(** The global [isNaN] applied to a number. *)
Definition number_isNaN (n : number) : bool :=
  match n with NaN => true | _ => false end.

(** [m * 2^e] in lowest terms. *)
Definition scale2 (m e : Z) : Q :=
  if 0 <=? e then inject_Z (m * 2 ^ e)
  else Qred (Qmake m (Z.to_pos (2 ^ (- e)))).

(** The integer nearest to [n / d], for [0 <= n] and [0 < d]; a tie goes
    to the even one. *)
Definition round_half_even (n d : Z) : Z :=
  let q := n / d in
  let r := n mod d in
  if 2 * r <? d then q
  else if d <? 2 * r then q + 1
  else if Z.even q then q else q + 1.

(** The Number value for a rational (ECMA-262, 6.1.6.1): the binary64
    value nearest to it, a tie going to the even significand, and an
    infinity beyond the largest finite value. The significand has 53 bits
    and the exponent of its last bit lies between -1074 and 971. *)
Definition binary64 (q : Q) : number :=
  let n := Qnum q in
  let d := Z.pos (Qden q) in
  if n =? 0 then Fin (inject_Z 0)
  else
    let a := Z.abs n in
    let l0 := Z.log2 a - Z.log2 d in
    let l := if d * 2 ^ Z.max 0 l0 <=? a * 2 ^ Z.max 0 (- l0) then l0 else l0 - 1 in
    let e := Z.max (l - 52) (-1074) in
    let m := if 0 <=? e then round_half_even a (d * 2 ^ e)
             else round_half_even (a * 2 ^ (- e)) d in
    if (971 <? e) || ((e =? 971) && (2 ^ 53 <=? m))
    then (if 0 <? n then PInf else NInf)
    else Fin (scale2 (Z.sgn n * m) e).

(** [n - 1] *)
Definition minus_one (n : number) : number :=
  match n with
  | Fin q => binary64 (q - 1)
  | other => other
  end.

(** ToIntegerOrInfinity on a finite number: truncation towards zero.  [None]
    for NaN and the infinities, which every caller below tests first. *)
Definition finite_trunc (n : number) : option Z :=
  match n with
  | Fin q => Some (Z.quot (Qnum q) (Z.pos (Qden q)))
  | _ => None
  end.

Definition number_is_zero (n : number) : bool :=
  match n with
  | Fin q => Z.eqb (Qnum q) 0
  | _ => false
  end.

(** ** Values *)

(** The value of a cell or of a field of a normalized row: a JSON scalar,
    [undefined], or a [Date] object holding a time value ([None] is the
    Invalid Date). *)
Inductive value : Type :=
| Undefined
| Null
| Bool (b : bool)
| Num (n : number)
| Str (s : string)
| DateObj (tv : option Z).

(** ToBoolean *)
Definition truthy (v : value) : bool :=
  match v with
  | Undefined | Null => false
  | Bool b => b
  | Num NaN => false
  | Num n => negb (number_is_zero n)
  | Str s => negb (String.eqb s "")
  | DateObj _ => true
  end.

(** [a || b] *)
Definition or_else (a b : value) : value := if truthy a then a else b.

(** [v === s] for a string primitive [s]: strict equality holds only for a
    string primitive with the same code units. *)
Definition strict_eq_string (v : value) (s : string) : bool :=
  match v with
  | Str s' => String.eqb s' s
  | _ => false
  end.

(** ** Characters *)

Definition code (c : ascii) : Z := Z.of_N (N_of_ascii c).

Definition in_range (lo hi : Z) (c : ascii) : bool :=
  (lo <=? code c) && (code c <=? hi).

(** [\d] *)
Definition is_digit (c : ascii) : bool := in_range 48 57 c.

Definition digit_val (c : ascii) : Z := code c - 48.

(** [\w] *)
Definition is_word (c : ascii) : bool :=
  is_digit c || in_range 65 90 c || in_range 97 122 c || (code c =? 95).

(** WhiteSpace and LineTerminator code units below 256: TAB, LF, VT, FF, CR,
    SP and NBSP. This is also [\s]. *)
Definition is_space (c : ascii) : bool :=
  in_range 9 13 c || (code c =? 32) || (code c =? 160).

Definition char_of_digit (d : Z) : ascii := ascii_of_N (Z.to_N (48 + d)).

(** ** Strings *)

(** [s.startsWith(p)] *)
Definition startsWith (s p : string) : bool := String.prefix p s.

(** [s.split(sep)] for a one-character separator. *)
Fixpoint split (sep : ascii) (s : string) : list string :=
  match s with
  | EmptyString => [EmptyString]
  | String c s' =>
      if Ascii.eqb c sep then EmptyString :: split sep s'
      else match split sep s' with
           | h :: t => String c h :: t
           | [] => [String c EmptyString]
           end
  end.

Fixpoint trimStart (s : string) : string :=
  match s with
  | String c s' => if is_space c then trimStart s' else s
  | EmptyString => EmptyString
  end.

Fixpoint string_rev (acc s : string) : string :=
  match s with
  | EmptyString => acc
  | String c s' => string_rev (String c acc) s'
  end.

Definition trimEnd (s : string) : string :=
  string_rev EmptyString (trimStart (string_rev EmptyString s)).

(** [s.trim()] *)
Definition trim (s : string) : string := trimEnd (trimStart s).

Fixpoint drop_chars (n : nat) (s : string) : string :=
  match n, s with
  | O, _ => s
  | S n', String _ s' => drop_chars n' s'
  | S _, EmptyString => EmptyString
  end.

(** [s.substring(n)] *)
Definition substring_from (n : nat) (s : string) : string := drop_chars n s.

(** [s.slice(0, -n)] *)
Definition slice_drop_last (n : nat) (s : string) : string :=
  string_rev EmptyString (drop_chars n (string_rev EmptyString s)).

(** [s.padStart(2, '0')] *)
Definition padStart2 (s : string) : string :=
  match s with
  | EmptyString => "00"
  | String c EmptyString => String "0" (String c EmptyString)
  | _ => s
  end.

(** [l.join(sep)] on an array of strings. *)
Fixpoint join (sep : string) (l : list string) : string :=
  match l with
  | [] => EmptyString
  | [s] => s
  | s :: rest => s +:+ sep +:+ join sep rest
  end.

(** The longest prefix of characters satisfying [p], and the rest. *)
Fixpoint span (p : ascii -> bool) (s : string) : string * string :=
  match s with
  | String c s' =>
      if p c then let '(a, b) := span p s' in (String c a, b)
      else (EmptyString, s)
  | EmptyString => (EmptyString, EmptyString)
  end.

Fixpoint all_chars (p : ascii -> bool) (s : string) : bool :=
  match s with
  | EmptyString => true
  | String c s' => p c && all_chars p s'
  end.

(** ** Array methods *)

(** [l.some(p)], [l.filter(p)] and [l.map(f)] visit the elements by
    increasing index and leave the receiver as it is. *)
Fixpoint Array_some {A} (p : A -> bool) (l : list A) : bool :=
  match l with
  | [] => false
  | x :: l' => if p x then true else Array_some p l'
  end.

Fixpoint Array_filter {A} (p : A -> bool) (l : list A) : list A :=
  match l with
  | [] => []
  | x :: l' => if p x then x :: Array_filter p l' else Array_filter p l'
  end.

Fixpoint Array_map {A B} (f : A -> B) (l : list A) : list B :=
  match l with
  | [] => []
  | x :: l' => f x :: Array_map f l'
  end.

(** [l.map(f)] when the callback may throw: the first exception ends the
    traversal and no array is produced. *)
Fixpoint Array_map_throwing {A B} (f : A -> result B) (l : list A) : result (list B) :=
  match l with
  | [] => Ok []
  | x :: l' =>
      y ← f x;
      ys ← Array_map_throwing f l';
      Ok (y :: ys)
  end.

(** ** String to number *)

Definition is_hex (c : ascii) : bool :=
  is_digit c || in_range 65 70 c || in_range 97 102 c.

Definition hex_val (c : ascii) : Z :=
  if is_digit c then code c - 48
  else if in_range 65 70 c then code c - 55
  else code c - 87.

(** The value of a run of digits in the given base. *)
Fixpoint digits_value (base acc : Z) (s : string) : Z :=
  match s with
  | EmptyString => acc
  | String c s' => digits_value base (base * acc + hex_val c) s'
  end.

Definition nonempty (s : string) : bool := negb (String.eqb s "").

(** [mant * 10^k] *)
Definition scale10 (mant k : Z) : Q :=
  if 0 <=? k then inject_Z (mant * 10 ^ k)
  else Qred (Qmake mant (Z.to_pos (10 ^ (- k)))).

Definition is_char (x ch : ascii) : bool := Ascii.eqb x ch.

(** An optional sign: the factor and what follows. *)
Definition take_sign (s : string) : Z * string :=
  match s with
  | String ch r =>
      if is_char ch "-" then (-1, r)
      else if is_char ch "+" then (1, r)
      else (1, s)
  | EmptyString => (1, s)
  end.

(** ExponentPart, or nothing: [[eE][+-]?\d+] up to the end of the string. *)
Definition parse_exponent (s : string) : option Z :=
  match s with
  | EmptyString => Some 0
  | String ch r =>
      if is_char ch "e" || is_char ch "E" then
        let '(sign, ds) := take_sign r in
        if nonempty ds && all_chars is_digit ds
        then Some (sign * digits_value 10 0 ds) else None
      else None
  end.

(** StrUnsignedDecimalLiteral: the Number value for its mathematical
    value, correctly rounded whatever the number of digits. *)
Definition parse_unsigned_decimal (s : string) : number :=
  if String.eqb s "Infinity" then PInf
  else
    let '(ip, r1) := span is_digit s in
    match r1 with
    | EmptyString =>
        if nonempty ip then binary64 (inject_Z (digits_value 10 0 ip)) else NaN
    | String ch r2 =>
        if is_char ch "." then
          let '(fp, r3) := span is_digit r2 in
          if nonempty ip || nonempty fp then
            match parse_exponent r3 with
            | Some e =>
                binary64 (scale10 (digits_value 10 0 (ip +:+ fp))
                                  (e - Z.of_nat (String.length fp)))
            | None => NaN
            end
          else NaN
        else if nonempty ip then
          match parse_exponent r1 with
          | Some e => binary64 (scale10 (digits_value 10 0 ip) e)
          | None => NaN
          end
        else NaN
    end.

Definition negate (n : number) : number :=
  match n with
  | NaN => NaN
  | PInf => NInf
  | NInf => PInf
  | Fin q => Fin (Qred (- q))
  end.

(** StrDecimalLiteral: an optional sign and an unsigned literal. *)
Definition parse_decimal (s : string) : number :=
  match s with
  | String ch r =>
      if is_char ch "-" then negate (parse_unsigned_decimal r)
      else if is_char ch "+" then parse_unsigned_decimal r
      else parse_unsigned_decimal s
  | EmptyString => parse_unsigned_decimal s
  end.

(** NonDecimalIntegerLiteral after its two-character prefix. *)
Definition parse_radix (base : Z) (p : ascii -> bool) (ds : string) : number :=
  if nonempty ds && all_chars p ds then binary64 (inject_Z (digits_value base 0 ds))
  else NaN.

(** StringNumericLiteral after trimming: the three prefixed integer forms,
    or a decimal literal. *)
Definition parse_numeric (t : string) : number :=
  match t with
  | String c0 (String c1 ds) =>
      if is_char c0 "0" && (is_char c1 "x" || is_char c1 "X")
      then parse_radix 16 is_hex ds
      else if is_char c0 "0" && (is_char c1 "o" || is_char c1 "O")
      then parse_radix 8 (in_range 48 55) ds
      else if is_char c0 "0" && (is_char c1 "b" || is_char c1 "B")
      then parse_radix 2 (in_range 48 49) ds
      else parse_decimal t
  | _ => parse_decimal t
  end.

(** StringToNumber: [Number(s)] for a string [s]. *)
Definition StringToNumber (s : string) : number :=
  let t := trim s in
  if nonempty t then parse_numeric t else of_Z 0.

(** [parseInt(s)] for a string that a [\d+] group captured. *)
Definition parseInt_digits (s : string) : number :=
  binary64 (inject_Z (digits_value 10 0 s)).

(** ToNumber of a destructured array element: a missing element is
    [undefined], which converts to NaN. *)
Definition ToNumber_opt (o : option number) : number :=
  match o with
  | Some n => n
  | None => NaN
  end.

(** ** Number to string *)

Fixpoint decimal_digits (fuel : nat) (n : Z) (acc : string) : string :=
  match fuel with
  | O => acc
  | S f =>
      let acc' := String (char_of_digit (n mod 10)) acc in
      if n <? 10 then acc' else decimal_digits f (n / 10) acc'
  end.

Definition Z_to_decimal (n : Z) : string :=
  if n <? 0 then String "-" (decimal_digits 20 (- n) EmptyString)
  else decimal_digits 20 n EmptyString.

Definition is_safe_integer (q : Q) : bool :=
  Pos.eqb (Qden q) 1 && (Z.abs (Qnum q) <? 2 ^ 53).

(** [n.toString()]. A safe integer prints as its decimal digits. For the
    other finite numbers the digits depend on the binary64 value, and
    [fmt] stands for the host's printing of them. *)
Definition Number_toString (fmt : Q -> string) (n : number) : string :=
  match n with
  | NaN => "NaN"
  | PInf => "Infinity"
  | NInf => "-Infinity"
  | Fin q => if is_safe_integer q then Z_to_decimal (Qnum q) else fmt q
  end.

End JS.

(* ===================================================================== *)
(** * Part II: dates and times (ECMA-262, section 21.4.1) *)
(* ===================================================================== *)

Module Date.
Import JS.

Definition msPerDay : Z := 86400000.
Definition msPerHour : Z := 3600000.
Definition msPerMinute : Z := 60000.
Definition msPerSecond : Z := 1000.

Definition Day (t : Z) : Z := t / msPerDay.

Definition DaysInYear (y : Z) : Z :=
  if negb (y mod 4 =? 0) then 365
  else if negb (y mod 100 =? 0) then 366
  else if negb (y mod 400 =? 0) then 365
  else 366.

Definition DayFromYear (y : Z) : Z :=
  365 * (y - 1970) + (y - 1969) / 4 - (y - 1901) / 100 + (y - 1601) / 400.

Definition InLeapYear (y : Z) : Z := if DaysInYear y =? 366 then 1 else 0.

(** The day within the year on which month [mn] (0 for January) starts. *)
Definition MonthStart (mn leap : Z) : Z :=
  match mn with
  | 0 => 0
  | 1 => 31
  | 2 => 59 + leap
  | 3 => 90 + leap
  | 4 => 120 + leap
  | 5 => 151 + leap
  | 6 => 181 + leap
  | 7 => 212 + leap
  | 8 => 243 + leap
  | 9 => 273 + leap
  | 10 => 304 + leap
  | _ => 334 + leap
  end.

Definition HourFromTime (t : Z) : Z := (t / msPerHour) mod 24.
Definition MinFromTime (t : Z) : Z := (t / msPerMinute) mod 60.
Definition SecFromTime (t : Z) : Z := (t / msPerSecond) mod 60.
Definition msFromTime (t : Z) : Z := t mod msPerSecond.

Definition MakeTime (hour min sec ms : number) : option Z :=
  h ← finite_trunc hour;
  m ← finite_trunc min;
  s ← finite_trunc sec;
  milli ← finite_trunc ms;
  Some (h * msPerHour + m * msPerMinute + s * msPerSecond + milli).

Definition MakeDay (year month date : number) : option Z :=
  y ← finite_trunc year;
  m ← finite_trunc month;
  dt ← finite_trunc date;
  let ym := y + m / 12 in
  let mn := m mod 12 in
  Some (DayFromYear ym + MonthStart mn (InLeapYear ym) + dt - 1).

Definition MakeDate (day time : Z) : Z := day * msPerDay + time.

Definition TimeClip (t : Z) : option Z :=
  if Z.abs t <=? 8640000000000000 then Some t else None.

Definition MakeFullYear (year : number) : number :=
  match finite_trunc year with
  | Some t => if (0 <=? t) && (t <=? 99) then of_Z (1900 + t) else of_Z t
  | None => year
  end.

(** [Date.UTC(year, month, date, hours, minutes, seconds, ms)] with every
    argument already converted by ToNumber. The result is a time value, or
    [None] for NaN. *)
Definition UTC7 (year month date hours minutes seconds ms : number) : option Z :=
  day ← MakeDay (MakeFullYear year) month date;
  time ← MakeTime hours minutes seconds ms;
  TimeClip (MakeDate day time).

(** [Date.UTC(year, month, date)] *)
Definition UTC3 (year month date : number) : option Z :=
  UTC7 year month date (of_Z 0) (of_Z 0) (of_Z 0) (of_Z 0).

(** [Date.UTC(year, month, date, hours, minutes, seconds)] *)
Definition UTC6 (year month date hours minutes seconds : number) : option Z :=
  UTC7 year month date hours minutes seconds (of_Z 0).

(** The UTC calendar fields of a time value, as ECMA-262 defines
    YearFromTime, MonthFromTime, DateFromTime, HourFromTime, MinFromTime and
    SecFromTime: [y] is the year whose days contain [Day t], [mo] (1 for
    January) the month whose days within that year do, [d] the day of that
    month. *)
Definition has_utc_fields (t y mo d h mi s : Z) : Prop :=
  DayFromYear y <= Day t < DayFromYear (y + 1) /\
  1 <= mo <= 12 /\
  1 <= d /\
  Day t - DayFromYear y = MonthStart (mo - 1) (InLeapYear y) + d - 1 /\
  Day t - DayFromYear y <
    (if mo =? 12 then DaysInYear y else MonthStart mo (InLeapYear y)) /\
  HourFromTime t = h /\ MinFromTime t = mi /\ SecFromTime t = s.

(** Local time, from the host's offset function LocalTZA. *)
Section LocalTime.
Variable LocalTZA : Z -> bool -> Z.

Definition LocalTime (t : Z) : Z := t + LocalTZA t true.
Definition toUTC (t : Z) : Z := t - LocalTZA t false.

(** [date.setHours(h)] on a Date holding [tv]; the new time value. *)
Definition setHours (tv : option Z) (h : number) : option Z :=
  t0 ← tv;
  let t := LocalTime t0 in
  time ← MakeTime h (of_Z (MinFromTime t)) (of_Z (SecFromTime t)) (of_Z (msFromTime t));
  TimeClip (toUTC (MakeDate (Day t) time)).

(** [date.setMinutes(m)] *)
Definition setMinutes (tv : option Z) (m : number) : option Z :=
  t0 ← tv;
  let t := LocalTime t0 in
  time ← MakeTime (of_Z (HourFromTime t)) m (of_Z (SecFromTime t)) (of_Z (msFromTime t));
  TimeClip (toUTC (MakeDate (Day t) time)).

(** [date.setSeconds(s)] *)
Definition setSeconds (tv : option Z) (s : number) : option Z :=
  t0 ← tv;
  let t := LocalTime t0 in
  time ← MakeTime (of_Z (HourFromTime t)) (of_Z (MinFromTime t)) s (of_Z (msFromTime t));
  TimeClip (toUTC (MakeDate (Day t) time)).
End LocalTime.

End Date.

(* ===================================================================== *)
(** * Part III: the decoded table and the host *)
(* ===================================================================== *)

Import JS.

(** A cell object [{v, f}]; a property the payload leaves out reads as
    [Undefined]. *)
Record cell : Type := { v : value; f : value }.

(** A row object [{c: [...]}]; an empty cell of the sheet is [null] in the
    payload, [None] here. *)
Record row : Type := { c : list (option cell) }.

(** A column descriptor [{label}]. *)
Record col : Type := { label : option string }.

(** The payload [{table: {cols, rows}}] of the query endpoint. *)
Record table : Type := { cols : list col; rows : list row }.

(** What the host provides to one call.
    - [fetch_text url]: the text of the response to [fetch(url)], [None]
      when the fetch or the reading of its body rejects;
    - [JSON_parse s]: [JSON.parse(s)] read as a table, [None] when [s] is not
      JSON or the reads [json.table.rows], [json.table.cols], [row.c] throw;
    - [Date_now]: the reading of the clock;
    - [Date_parse s]: the time value of [new Date(s)], [None] for NaN (the
      format is implementation-defined outside ISO 8601);
    - [LocalTZA]: the offset of local time;
    - [format_number]: the digits of a number that is not a safe integer. *)
Record host : Type := {
  fetch_text : string -> option string;
  JSON_parse : string -> option table;
  Date_now : Z;
  Date_parse : string -> option Z;
  LocalTZA : Z -> bool -> Z;
  format_number : Q -> string
}.

(** [cells[i]?.v] *)
Definition cell_v (cells : list (option cell)) (i : nat) : value :=
  match cells !! i with
  | Some (Some x) => v x
  | _ => Undefined
  end.

(** [x.split(sep)]: only a string has the method. *)
Definition value_split (sep : ascii) (x : value) : result (list string) :=
  match x with
  | Str s => Ok (split sep s)
  | _ => Throw TypeError
  end.

(** [isNaN(x)] for a destructured array element. *)
Definition isNaN (o : option number) : bool := number_isNaN (ToNumber_opt o).

(** [toLowerCase] on one code unit below 256: the letters A to Z and the
    capital letters of Latin-1. *)
Definition toLowerCase_char (ch : ascii) : ascii :=
  if in_range 65 90 ch || (in_range 192 222 ch && negb (code ch =? 215))
  then ascii_of_N (N_of_ascii ch + 32) else ch.

Fixpoint toLowerCase (s : string) : string :=
  match s with
  | EmptyString => EmptyString
  | String ch s' => String (toLowerCase_char ch) (toLowerCase s')
  end.

(** [s.replace(/\s+/g, '_')]: [in_run] tells that the previous character
    was white space, already replaced. *)
Fixpoint replace_spaces (in_run : bool) (s : string) : string :=
  match s with
  | EmptyString => EmptyString
  | String ch s' =>
      if is_space ch then
        if in_run then replace_spaces true s'
        else String "_" (replace_spaces true s')
      else String ch (replace_spaces false s')
  end.

(** [col.label?.toString().toLowerCase().replace(/\s+/g, '_') || ''] *)
Definition header_of_col (k : col) : string :=
  match label k with
  | Some l => replace_spaces false (toLowerCase l)
  | None => EmptyString
  end.

(* ===================================================================== *)
(** * Part IV: the sheet client, [src/utils/googleSheets.ts] *)
(* ===================================================================== *)

Module GoogleSheets.

(** The object a row becomes. *)
Record event_row : Type := {
  evento : value;
  date : value;
  time : value;
  local : value;
  tipo_evento : value;
  url : value;
  flyer : value
}.

(** The date branch of the callback of [rows.map]. *)
Definition parse_date (dateStr : value) : result value :=
  if truthy dateStr then
    parts ← value_split "/" dateStr;
    let nums := Array_map StringToNumber parts in
    let day := nums !! 0%nat in
    let month := nums !! 1%nat in
    let year := nums !! 2%nat in
    if negb (isNaN day) && negb (isNaN month) && negb (isNaN year) then
      Ok (DateObj (Date.UTC3 (ToNumber_opt year) (minus_one (ToNumber_opt month))
                             (ToNumber_opt day)))
    else Ok Null
  else Ok Null.

(** The time branch. *)
Definition parse_time (h : host) (timeStr : value) : result value :=
  if truthy timeStr then
    parts ← value_split ":" timeStr;
    let nums := Array_map StringToNumber parts in
    let hours := nums !! 0%nat in
    let minutes := nums !! 1%nat in
    if negb (isNaN hours) && negb (isNaN minutes) then
      Ok (Str (padStart2 (Number_toString (format_number h) (ToNumber_opt hours))
               +:+ ":" +:+
               padStart2 (Number_toString (format_number h) (ToNumber_opt minutes))))
    else Ok Null
  else Ok Null.

(** The callback of [rows.map]. *)
Definition normalize_row (h : host) (r : row) : result event_row :=
  let cells := c r in
  let evento := or_else (cell_v cells 0) Null in
  let dateStr := or_else (cell_v cells 1) (Str "") in
  let timeStr := or_else (cell_v cells 2) (Str "") in
  date ← parse_date dateStr;
  time ← parse_time h timeStr;
  Ok {| evento := evento;
        date := date;
        time := time;
        local := or_else (cell_v cells 3) Null;
        tipo_evento := or_else (cell_v cells 4) Null;
        url := or_else (cell_v cells 5) Null;
        flyer := or_else (cell_v cells 6) Null |}.

(** ** Module state *)

Record cache_entry : Type := {
  data : list event_row;
  timestamp : Z;
  version : Z
}.

(** [cache], [currentVersion] and [lastModified]. *)
Record module_state : Type := {
  cache : gmap string cache_entry;
  currentVersion : Z;
  lastModified : Z
}.

(** The state when the module is loaded, at clock reading [t0]. *)
Definition initial_state (t0 : Z) : module_state :=
  {| cache := ∅; currentVersion := 0; lastModified := t0 |}.

(** Statements that read and write the module state and may throw. A
    write made before an exception stays. *)
Definition M (A : Type) : Type := module_state -> result A * module_state.

#[global] Instance M_ret : MRet M := fun A a st => (Ok a, st).

#[global] Instance M_bind : MBind M := fun A B k m st =>
  match m st with
  | (Ok a, st') => k a st'
  | (Throw e, st') => (Throw e, st')
  end.

Definition lift {A} (r : result A) : M A := fun st => (r, st).

Definition read {A} (proj : module_state -> A) : M A := fun st => (Ok (proj st), st).

Definition set_currentVersion (n : Z) : M unit := fun st =>
  (Ok tt, {| cache := cache st; currentVersion := n; lastModified := lastModified st |}).

Definition set_lastModified (t : Z) : M unit := fun st =>
  (Ok tt, {| cache := cache st; currentVersion := currentVersion st; lastModified := t |}).

(** [cache.set(key, e)] *)
Definition cache_set (key : string) (e : cache_entry) : M unit := fun st =>
  (Ok tt, {| cache := <[key := e]> (cache st);
             currentVersion := currentVersion st;
             lastModified := lastModified st |}).

(** [cache.delete(key)] *)
Definition cache_delete (key : string) : M unit := fun st =>
  (Ok tt, {| cache := delete key (cache st);
             currentVersion := currentVersion st;
             lastModified := lastModified st |}).

(** [try { body } catch (error) { handler }] *)
Definition try_M {A} (body : M A) (handler : error -> M A) : M A := fun st =>
  match body st with
  | (Ok a, st') => (Ok a, st')
  | (Throw e, st') => handler e st'
  end.

Definition of_option {A} (e : error) (o : option A) : result A :=
  match o with
  | Some a => Ok a
  | None => Throw e
  end.

Definition sheet_url (sheetId gid : string) : string :=
  "https://docs.google.com/spreadsheets/d/" +:+ sheetId +:+
  "/gviz/tq?tqx=out:json&gid=" +:+ gid.

Definition cacheKey (sheetId gid : string) : string := sheetId +:+ "-" +:+ gid.

(** [text.substring(47).slice(0, -2)] *)
Definition strip_framing (text : string) : string :=
  slice_drop_last 2 (substring_from 47 text).

(** The statements of the [try] block up to [data]: fetch, decode and
    transform. None of them touches the module state. *)
Definition fetch_decode_transform (h : host) (sheetId gid : string) : result (list event_row) :=
  text ← of_option NetworkError (fetch_text h (sheet_url sheetId gid));
  json ← of_option SyntaxError (JSON_parse h (strip_framing text));
  let headers := Array_map header_of_col (cols json) in
  Array_map_throwing (normalize_row h) (rows json).

(** [cache.get(cacheKey)?.data || []]; an array is truthy, also when empty. *)
Definition cached_or_empty (key : string) (m : gmap string cache_entry) : list event_row :=
  match m !! key with
  | Some e => data e
  | None => []
  end.

Definition POLL_INTERVAL : Z := 1 * 60 * 1000.

(** [!cache.has(cacheKey) || (now - lastModified) > POLL_INTERVAL] *)
Definition stale (key : string) (now : Z) (st : module_state) : bool :=
  negb (bool_decide (is_Some (cache st !! key))) ||
  (POLL_INTERVAL <? now - lastModified st).

(** The flag [shouldRefresh] is computed and then not read: every call
    fetches. *)
Definition getGoogleSheetData (h : host) (sheetId gid : string) : M (list event_row) :=
  let key := cacheKey sheetId gid in
  shouldRefresh ← read (stale key (Date_now h));
  try_M
    (data ← lift (fetch_decode_transform h sheetId gid);
     cv ← read currentVersion;
     let newVersion := cv + 1 in
     _ ← set_currentVersion newVersion;
     _ ← set_lastModified (Date_now h);
     lm ← read lastModified;
     _ ← cache_set key {| data := data; timestamp := lm; version := newVersion |};
     mret data)
    (fun _ =>
       m ← read cache;
       mret (cached_or_empty key m)).

Definition handleWebhookUpdate (h : host) (sheetId gid : string) : M (list event_row) :=
  _ ← cache_delete (cacheKey sheetId gid);
  getGoogleSheetData h sheetId gid.

End GoogleSheets.

(* ===================================================================== *)
(** * Part V: the label-indexed row normalizer *)
(* ===================================================================== *)

Module LabelIndexed.

(** ** The two patterns *)

Definition expect (ch : ascii) (s : string) : option string :=
  match s with
  | String x r => if Ascii.eqb x ch then Some r else None
  | EmptyString => None
  end.

Fixpoint expect_all (p s : string) : option string :=
  match p with
  | EmptyString => Some s
  | String ch p' => r ← expect ch s; expect_all p' r
  end.

(** [(\d{4})], which the pattern follows by a comma. *)
Definition take_digits4 (s : string) : option (string * string) :=
  match s with
  | String a (String b (String d (String e r))) =>
      if is_digit a && is_digit b && is_digit d && is_digit e
      then Some (String a (String b (String d (String e EmptyString))), r)
      else None
  | _ => None
  end.

(** [(\d+)], followed in the pattern by a character that is no digit: the
    group is the whole run of digits. *)
Definition take_digits (s : string) : option (string * string) :=
  let '(ds, r) := span is_digit s in
  if nonempty ds then Some (ds, r) else None.

(** [/Date\((\d{4}),(\d+),(\d+),(\d+),(\d+),(\d+)\)/] at the start of [s];
    the six groups. *)
Definition match_Date_here (s : string) : option (list string) :=
  r ← expect_all "Date(" s;
  '(g1, r) ← take_digits4 r;
  r ← expect "," r;
  '(g2, r) ← take_digits r;
  r ← expect "," r;
  '(g3, r) ← take_digits r;
  r ← expect "," r;
  '(g4, r) ← take_digits r;
  r ← expect "," r;
  '(g5, r) ← take_digits r;
  r ← expect "," r;
  '(g6, r) ← take_digits r;
  _ ← expect ")" r;
  Some [g1; g2; g3; g4; g5; g6].

(** [s.match(/Date\(...\)/)]: the leftmost match. *)
Fixpoint match_Date (s : string) : option (list string) :=
  match match_Date_here s with
  | Some g => Some g
  | None =>
      match s with
      | String _ s' => match_Date s'
      | EmptyString => None
      end
  end.

(** [s.match(/^(\d{1,2}):(\d{2})$/)]: the two groups. *)
Definition match_time (s : string) : option (string * string) :=
  match s with
  | String h1 (String h2 (String x (String m1 (String m2 EmptyString)))) =>
      if is_digit h1 && is_digit h2 && Ascii.eqb x ":" && is_digit m1 && is_digit m2
      then Some (String h1 (String h2 EmptyString), String m1 (String m2 EmptyString))
      else None
  | String h1 (String x (String m1 (String m2 EmptyString))) =>
      if is_digit h1 && Ascii.eqb x ":" && is_digit m1 && is_digit m2
      then Some (String h1 EmptyString, String m1 (String m2 EmptyString))
      else None
  | _ => None
  end.

(** ** The stages *)

Definition group (g : list string) (i : nat) : number :=
  match g !! i with
  | Some s => parseInt_digits s
  | None => NaN
  end.

(** The receiver of a method call: [undefined.split] throws. *)
Definition of_option_TypeError {A} (o : option A) : result A :=
  match o with
  | Some a => Ok a
  | None => Throw TypeError
  end.

(** (a) the formatted string of the cell, [dd/MM/yyyy HH:mm:ss]. *)
Definition stage_a (fv : value) : result value :=
  parts ← value_split " " fv;
  datePart ← of_option_TypeError (parts !! 0%nat);
  let dnums := Array_map StringToNumber (split "/" datePart) in
  let day := dnums !! 0%nat in
  let month := dnums !! 1%nat in
  let year := dnums !! 2%nat in
  timePart ← of_option_TypeError (parts !! 1%nat);
  let tnums := Array_map StringToNumber (split ":" timePart) in
  let hours := tnums !! 0%nat in
  let minutes := tnums !! 1%nat in
  let seconds := tnums !! 2%nat in
  Ok (DateObj (Date.UTC6 (ToNumber_opt year) (minus_one (ToNumber_opt month))
                         (ToNumber_opt day) (ToNumber_opt hours)
                         (ToNumber_opt minutes) (ToNumber_opt seconds))).

(** (b) the wrapped literal [Date(y,m,d,h,mi,s)], month from zero. *)
Definition stage_b (s : string) : option value :=
  g ← match_Date s;
  Some (DateObj (Date.UTC6 (group g 0) (group g 1) (group g 2)
                           (group g 3) (group g 4) (group g 5))).

(** (c) [new Date(s)], kept when its time value is not NaN. *)
Definition stage_c (h : host) (s : string) : option value :=
  t ← Date_parse h s;
  Some (DateObj (Some t)).

(** (d) a time [H:MM] or [HH:MM] set on the current date, in local time. *)
Definition stage_d (h : host) (s : string) : option value :=
  '(hh, mm) ← match_time s;
  let d0 := Some (Date_now h) in
  let d1 := Date.setHours (LocalTZA h) d0 (parseInt_digits hh) in
  let d2 := Date.setMinutes (LocalTZA h) d1 (parseInt_digits mm) in
  let d3 := Date.setSeconds (LocalTZA h) d2 (of_Z 0) in
  Some (DateObj d3).

(** ** The callback of [row.c.forEach]: the value stored for one cell *)

Definition decode_cell (h : host) (x : option cell) : result value :=
  let cv := match x with Some y => v y | None => Undefined end in
  match cv with
  | Str s =>
      let fv := match x with Some y => f y | None => Undefined end in
      if truthy fv then stage_a fv
      else
        match stage_b s with
        | Some d => Ok d
        | None =>
            match stage_c h s with
            | Some d => Ok d
            | None =>
                match stage_d h s with
                | Some d => Ok d
                | None => Ok (Str s)
                end
            end
        end
  | other => Ok (or_else other Null)
  end.

(** [headers[index]] as a property key. *)
Definition header_key (headers : list string) (index : nat) : string :=
  match headers !! index with
  | Some k => k
  | None => "undefined"
  end.

(** ** The object of a row *)

(** The prototype of a row object: [Object.prototype] for the object the
    literal [{}] creates; the setter of [__proto__] can replace it by
    [null] or by an object, which here can only be a decoded [Date]. *)
Inductive prototype : Type :=
| ObjectPrototype
| NullPrototype
| DateInstance (tv : option Z).

(** A row object: its own properties and its prototype. *)
Record object : Type := {
  own : gmap string value;
  proto : prototype
}.

(** [{}] *)
Definition empty_object : object := {| own := ∅; proto := ObjectPrototype |}.

(** [obj[k] = y]. On the prototype chain of a row object every name but
    [__proto__] is absent or a writable data property, so the assignment
    creates or overwrites an own property. [__proto__] is an accessor of
    [Object.prototype]: while that is on the chain - the prototype is not
    [null] - the assignment runs its setter and creates no property; the
    setter replaces the prototype when the value is an object or [null],
    and does nothing for another value. Under a [null] prototype
    [__proto__] is a name like the others. *)
Definition set_property (k : string) (y : value) (o : object) : object :=
  if String.eqb k "__proto__" then
    match proto o with
    | NullPrototype => {| own := <[k := y]> (own o); proto := NullPrototype |}
    | _ =>
        match y with
        | Null => {| own := own o; proto := NullPrototype |}
        | DateObj tv => {| own := own o; proto := DateInstance tv |}
        | _ => o
        end
    end
  else {| own := <[k := y]> (own o); proto := proto o |}.

(** [row.c.forEach((cell, index) => { obj[headers[index]] = ... })] from
    [index] on. *)
Fixpoint forEach_cells (h : host) (headers : list string) (index : nat)
    (cells : list (option cell)) (obj : object) : result object :=
  match cells with
  | [] => Ok obj
  | x :: rest =>
      y ← decode_cell h x;
      forEach_cells h headers (S index) rest (set_property (header_key headers index) y obj)
  end.

(** The callback of [rows.map]. *)
Definition normalize_row (h : host) (headers : list string) (r : row) : result object :=
  forEach_cells h headers 0 (c r) empty_object.

(** [rows.map(...)] on a decoded table. *)
Definition transform (h : host) (t : table) : result (list object) :=
  let headers := Array_map header_of_col (cols t) in
  Array_map_throwing (normalize_row h headers) (rows t).

(** ** The chain as the specification words it

    Each stage either succeeds with a value or fails; a failure passes the
    cell on to the next stage, and the raw string is the last resort. *)
Fixpoint first_success (stages : list (option value)) (last : value) : value :=
  match stages with
  | [] => last
  | Some d :: _ => d
  | None :: rest => first_success rest last
  end.

(** Stage (a) as a stage that can fail: it succeeds when the formatted
    string parses to a valid date. *)
Definition stage_a_checked (fv : value) : option value :=
  if truthy fv then
    match stage_a fv with
    | Ok (DateObj (Some t)) => Some (DateObj (Some t))
    | _ => None
    end
  else None.

Definition spec_chain (h : host) (x : cell) (s : string) : value :=
  first_success [stage_a_checked (f x); stage_b s; stage_c h s; stage_d h s] (Str s).

End LabelIndexed.

(* ===================================================================== *)
(** * Part VI: the page scraper and the merge, [src/utils/scraper.ts] *)
(* ===================================================================== *)

Module Scraper.
Import GoogleSheets.

Definition TARGET_URL : string := "https://elcabong.com.br/agenda/".
Definition SHEET_ID : string := "1184qmC-7mpZtpg15R--il4K3tVxSTAcJUZxpWf9KFAs".

Record EventData : Type := {
  eventName : string;
  tags : list string;
  startDate : string;
  endDate : string;
  location : string;
  description : string;
  image : string;
  registrationLink : option string
}.

(** What the selectors read from one [.evento] element: the text of its
    title, date and description sub-elements, and the [src] attribute of
    its image, [None] when there is none. *)
Record element : Type := {
  titulo_text : string;
  data_text : string;
  descricao_text : string;
  img_src : option string
}.

(** What the host provides to one scrape.
    - [axios_get url]: the body of the response, [None] when the request
      rejects;
    - [select_eventos html]: the elements [$('.evento')] matches in the
      loaded document, in document order;
    - [parse_date s]: the time value of [new Date(s)], [None] for NaN;
    - [iso_string t]: [toISOString()] of a valid Date. *)
Record web : Type := {
  axios_get : string -> option string;
  select_eventos : string -> list element;
  parse_date : string -> option Z;
  iso_string : Z -> string
}.

(** [new Date(s).toISOString()]: a RangeError on an Invalid Date. *)
Definition Date_toISOString (w : web) (s : string) : result string :=
  match parse_date w s with
  | Some t => Ok (iso_string w t)
  | None => Throw RangeError
  end.

(** An array element inside a template literal. *)
Definition template_part (o : option string) : string :=
  match o with
  | Some s => s
  | None => "undefined"
  end.

(** The callback of [$('.evento').each]: the event pushed. *)
Definition scrape_element (w : web) (el : element) : result EventData :=
  let title := trim (titulo_text el) in
  let dateTime := trim (data_text el) in
  let parts := split " " dateTime in
  let date := parts !! 0%nat in
  let time := parts !! 1%nat in
  let location := "El Cabong" in
  let description := trim (descricao_text el) in
  let imageUrl := match img_src el with
                  | Some s => if nonempty s then Some s else None
                  | None => None
                  end in
  let stamp := template_part date +:+ "T" +:+ template_part time +:+ ":00Z" in
  startDate ← Date_toISOString w stamp;
  endDate ← Date_toISOString w stamp;
  Ok {| eventName := title;
        tags := [];
        startDate := startDate;
        endDate := endDate;
        location := location;
        description := description;
        image := match imageUrl with
                 | Some s => s
                 | None => "/images/astro-post.jpg"
                 end;
        registrationLink := None |}.

Definition scrapeEvents (w : web) : result (list EventData) :=
  data ← of_option NetworkError (axios_get w TARGET_URL);
  Array_map_throwing (scrape_element w) (select_eventos w data).

(** The two properties [filterNewEvents] reads from an existing row. *)
Record existing_event : Type := {
  evento : value;
  horario_de_inicio : value
}.

(** The object appended to the sheet. *)
Record sheet_row : Type := {
  sr_evento : string;
  sr_tipo_de_evento : string;
  sr_horario_de_inicio : string;
  sr_horario_de_termino : string;
  sr_local : string;
  sr_descricao : string;
  sr_flyer : string;
  sr_link_de_inscricao : string
}.

(** The callback of [existingData.some]. *)
Definition same_event (newEvent : EventData) (existingEvent : existing_event) : bool :=
  strict_eq_string (evento existingEvent) (eventName newEvent) &&
  strict_eq_string (horario_de_inicio existingEvent) (startDate newEvent).

(** The callback of [newEvents.filter]. *)
Definition is_new (existingData : list existing_event) (newEvent : EventData) : bool :=
  negb (Array_some (same_event newEvent) existingData).

(** The callback of [.map]; [event.registrationLink || '']. *)
Definition to_sheet_row (event : EventData) : sheet_row :=
  {| sr_evento := eventName event;
     sr_tipo_de_evento := join ", " (tags event);
     sr_horario_de_inicio := startDate event;
     sr_horario_de_termino := endDate event;
     sr_local := location event;
     sr_descricao := description event;
     sr_flyer := image event;
     sr_link_de_inscricao := match registrationLink event with
                             | Some s => s
                             | None => ""
                             end |}.

Definition filterNewEvents (newEvents : list EventData) (existingData : list existing_event)
  : list sheet_row :=
  Array_map to_sheet_row (Array_filter (is_new existingData) newEvents).

(** ** The arrays on the heap

    [filterNewEvents] receives references to two arrays and returns a
    reference to a third. A heap holds the arrays by location. *)
Inductive array : Type :=
| Events (l : list EventData)
| Existing (l : list existing_event)
| Rows (l : list sheet_row).

Definition loc : Type := positive.
Definition heap : Type := gmap loc array.

(** A new array: it is stored at a location the heap does not hold. *)
Definition alloc (a : array) (h : heap) : loc * heap :=
  let l := fresh (dom h) in (l, <[l := a]> h).

(** [filterNewEvents] on references: [filter] reads its receiver and
    allocates the array it returns, [map] is called on that array and
    allocates the array it returns; the callbacks read [existingData] and
    the events and assign nothing. The result is the reference returned
    and the heap after the call; [None] when the references do not hold
    arrays of events and of records, which no call of the program does. *)
Definition filterNewEvents_ref (newEvents existingData : loc) (h : heap)
  : option (loc * heap) :=
  match h !! newEvents, h !! existingData with
  | Some (Events es), Some (Existing xs) =>
      let '(filtered, h1) := alloc (Events (Array_filter (is_new xs) es)) h in
      match h1 !! filtered with
      | Some (Events kept) => Some (alloc (Rows (Array_map to_sheet_row kept)) h1)
      | _ => None
      end
  | _, _ => None
  end.

(** A row of [getGoogleSheetData] as [filterNewEvents] reads it: the
    position-indexed rows have no start-time property. *)
Definition as_existing (r : event_row) : existing_event :=
  {| evento := GoogleSheets.evento r; horario_de_inicio := Undefined |}.

(** [updateGoogleSheet]: logs only. *)
Definition updateGoogleSheet (sheetId : string) (rows : list sheet_row) : M unit :=
  mret tt.

Definition scrapeAndUpdateEvents (w : web) (h : host) : M nat :=
  try_M
    (events ← lift (scrapeEvents w);
     existingData ← getGoogleSheetData h SHEET_ID "2043142206";
     let newEvents := filterNewEvents events (Array_map as_existing existingData) in
     _ ← (if (0 <? length newEvents)%nat then updateGoogleSheet SHEET_ID newEvents
          else mret tt);
     mret (length newEvents))
    (fun error => lift (Throw error)).

End Scraper.

(* ===================================================================== *)
(** * Part VII: the image of an event page, [src/pages/events/[...slug].astro] *)
(* ===================================================================== *)

Module EventPage.

(** [[-\w]] *)
Definition is_token_char (ch : ascii) : bool := Ascii.eqb ch "-" || is_word ch.

(** [/[\/=]([-\w]{25,})/] at the start of [s]; the group. *)
Definition match_fileId_here (s : string) : option string :=
  match s with
  | String x r =>
      if Ascii.eqb x "/" || Ascii.eqb x "=" then
        let '(tok, _) := span is_token_char r in
        if (25 <=? String.length tok)%nat then Some tok else None
      else None
  | EmptyString => None
  end.

(** [s.match(/[\/=]([-\w]{25,})/)?.[1]]: the group of the leftmost match. *)
Fixpoint match_fileId (s : string) : option string :=
  match match_fileId_here s with
  | Some tok => Some tok
  | None =>
      match s with
      | String _ s' => match_fileId s'
      | EmptyString => None
      end
  end.

Definition FALLBACK_IMAGE : string := "/images/astro-post.jpg".

(** The expression of the [image] property, for [row.flyer]. *)
Definition event_image (flyer : value) : result string :=
  if truthy flyer then
    match flyer with
    | Str s =>
        if startsWith s "https://drive.google.com" then
          Ok ("https://lh3.googleusercontent.com/d/" +:+
              Scraper.template_part (match_fileId s) +:+ "=w1000")
        else if startsWith s "http" then Ok s
        else Ok ("/images/" +:+ s)
    | _ => Throw TypeError
    end
  else Ok FALLBACK_IMAGE.

End EventPage.

(* ===================================================================== *)
(** * Part VII, continued: the callers and the other client *)
(* ===================================================================== *)

(** ** The label-indexed sheet client: its [getGoogleSheetData] *)

Module LabelIndexedClient.
Import LabelIndexed.

Record cache_entry : Type := {
  data : list object;
  timestamp : Z;
  version : Z
}.

Record module_state : Type := {
  cache : gmap string cache_entry;
  currentVersion : Z;
  lastModified : Z
}.

(** The [try] block up to [data]. *)
Definition fetch_decode_transform (h : host) (sheetId gid : string)
  : result (list object) :=
  text ← GoogleSheets.of_option NetworkError
           (fetch_text h (GoogleSheets.sheet_url sheetId gid));
  json ← GoogleSheets.of_option SyntaxError
           (JSON_parse h (GoogleSheets.strip_framing text));
  transform h json.

(** The result and the module state after the call. The [catch] block is
    [return []]. *)
Definition getGoogleSheetData (h : host) (sheetId gid : string) (st : module_state)
  : result (list object) * module_state :=
  let cacheKey := GoogleSheets.cacheKey sheetId gid in
  match fetch_decode_transform h sheetId gid with
  | Ok data =>
      let newVersion := currentVersion st + 1 in
      let lm := Date_now h in
      (Ok data,
       {| cache := <[cacheKey := {| data := data; timestamp := lm; version := newVersion |}]>
                     (cache st);
          currentVersion := newVersion;
          lastModified := lm |})
  | Throw _ => (Ok [], st)
  end.

End LabelIndexedClient.

(** ** The trigger endpoint, [GET] of the scrape route *)

Module Api.
Import GoogleSheets Scraper.

(** The response: its status and the fields of its JSON body; [error] is
    the exception whose message the body carries. *)
Record response : Type := {
  status : Z;
  success : bool;
  newEvents : option nat;
  error : option JS.error
}.

Definition GET (w : web) (h : host) : M response :=
  try_M
    (newEventsCount ← scrapeAndUpdateEvents w h;
     mret {| status := 200; success := true;
             newEvents := Some newEventsCount; error := None |})
    (fun e =>
       mret {| status := 500; success := false; newEvents := None; error := Some e |}).

End Api.

(** ** The paths of the event pages, [getStaticPaths] *)

Module StaticPaths.
Import GoogleSheets.

(** [[a-z0-9]] *)
Definition is_slug_alnum (ch : ascii) : bool := in_range 97 122 ch || is_digit ch.

(** [s.replace(/[^a-z0-9]+/g, '-')]: [in_run] tells that the previous
    character was outside the class, already replaced. *)
Fixpoint replace_non_alnum (in_run : bool) (s : string) : string :=
  match s with
  | EmptyString => EmptyString
  | String ch s' =>
      if is_slug_alnum ch then String ch (replace_non_alnum false s')
      else if in_run then replace_non_alnum true s'
      else String "-" (replace_non_alnum true s')
  end.

Definition strip_leading_hyphen (s : string) : string :=
  match s with
  | String ch r => if is_char ch "-" then r else s
  | EmptyString => EmptyString
  end.

(** [s.replace(/(^-|-$)/g, '')]: a hyphen at the start goes, and then a
    hyphen at the end of what is left. *)
Definition strip_edge_hyphens (s : string) : string :=
  string_rev EmptyString
    (strip_leading_hyphen (string_rev EmptyString (strip_leading_hyphen s))).

Definition slugify (s : string) : string :=
  strip_edge_hyphens (replace_non_alnum false (toLowerCase s)).

(** [row.evento.toLowerCase()...]: only a string has the method. *)
Definition slug_of (evento : value) : result string :=
  match evento with
  | Str s => Ok (slugify s)
  | _ => Throw TypeError
  end.

Record event_props : Type := {
  eventName : value;
  tags : list value;
  ev_date : value;
  ev_time : value;
  location : value;
  image : string
}.

Record static_path : Type := {
  slug : string;
  event : event_props
}.

(** [row.tipo_de_evento]: the rows of the position-indexed client carry
    their type under the name [tipo_evento] and have no property of this
    name. *)
Definition tipo_de_evento (r : event_row) : value := Undefined.

(** The callback of [sheetData.map]. *)
Definition path_of_row (h : host) (r : event_row) : result static_path :=
  slug ← slug_of (evento r);
  image ← EventPage.event_image (flyer r);
  Ok {| slug := slug;
        event := {| eventName := or_else (evento r) (Str "Untitled Event");
                    tags := if truthy (tipo_de_evento r) then [tipo_de_evento r] else [];
                    ev_date := or_else (date r) (DateObj (Some (Date_now h)));
                    ev_time := or_else (time r) (Str "00:00");
                    location := or_else (local r) (Str "Virtual");
                    image := image |} |}.

Definition SHEET_ID : string := "1184qmC-7mpZtpg15R--il4K3tVxSTAcJUZxpWf9KFAs".

Definition getStaticPaths (h : host) : M (list static_path) :=
  sheetData ← getGoogleSheetData h SHEET_ID "0";
  lift (Array_map_throwing (path_of_row h) sheetData).

End StaticPaths.

(** ** The image of an event on the index page *)

Module IndexPage.

(** [s.includes(sub)] *)
Fixpoint includes (s sub : string) : bool :=
  String.prefix sub s ||
  match s with
  | String _ s' => includes s' sub
  | EmptyString => false
  end.

(** The [src] of the image of an event whose image is
    [row.flyer || '/images/astro-post.jpg']. *)
Definition image_src (flyer : value) : result string :=
  match or_else flyer (Str "/images/astro-post.jpg") with
  | Str s =>
      if includes s "drive.google.com" then
        match EventPage.match_fileId s with
        | Some fileId => Ok ("https://lh3.googleusercontent.com/d/" +:+ fileId +:+ "=w1000")
        | None => Ok s
        end
      else Ok s
  | _ => Throw TypeError
  end.

End IndexPage.

(* ===================================================================== *)
(** * Part VIII: the notions the properties are stated with *)
(* ===================================================================== *)

(** ** Strings *)

(** [s] is empty or starts with a character outside the class [p]. *)
Definition stops (p : ascii -> bool) (s : string) : Prop :=
  match s with
  | EmptyString => True
  | String ch _ => p ch = false
  end.

Definition not_space (ch : ascii) : bool := negb (is_space ch).

(** The decimal value of a run of digits. *)
Definition decimal (s : string) : Z := digits_value 10 0 s.

Definition differs (sep ch : ascii) : bool := negb (Ascii.eqb ch sep).

(** ** The calendar *)

Module Calendar.
Import Date.

(** The days of month [mo], 1 for January. *)
Definition DaysInMonth (mo leap : Z) : Z :=
  match mo with
  | 2 => 28 + leap
  | 4 | 6 | 9 | 11 => 30
  | _ => 31
  end.

(** A day of the calendar. *)
Definition valid_date (y mo d : Z) : Prop :=
  1 <= mo <= 12 /\ 1 <= d <= DaysInMonth mo (InLeapYear y).

Definition valid_time (h mi : Z) : Prop := 0 <= h <= 23 /\ 0 <= mi <= 59.

(** The time value of midnight UTC on a day of the calendar. *)
Definition midnight (y mo d : Z) : Z :=
  (DayFromYear y + MonthStart (mo - 1) (InLeapYear y) + d - 1) * msPerDay.

End Calendar.

(** ** The sheet client *)

Module SheetSpec.
Import GoogleSheets.

(** The state a successful refresh leaves. *)
Definition refreshed (h : host) (key : string) (rows : list event_row)
    (st : module_state) : module_state :=
  {| cache := <[key := {| data := rows;
                          timestamp := Date_now h;
                          version := currentVersion st + 1 |}]> (cache st);
     currentVersion := currentVersion st + 1;
     lastModified := Date_now h |}.

(** The three ways in which the [try] block throws. *)
Definition fetch_fails (h : host) (sheetId gid : string) : Prop :=
  fetch_text h (sheet_url sheetId gid) = None.

Definition decode_fails (h : host) (sheetId gid : string) : Prop :=
  exists text, fetch_text h (sheet_url sheetId gid) = Some text /\
               JSON_parse h (strip_framing text) = None.

Definition transform_fails (h : host) (sheetId gid : string) : Prop :=
  exists text json r e,
    fetch_text h (sheet_url sheetId gid) = Some text /\
    JSON_parse h (strip_framing text) = Some json /\
    r ∈ rows json /\ normalize_row h r = Throw e.

(** The calls the module exports. *)
Inductive call : Type :=
| CallGet (h : host) (sheetId gid : string)
| CallWebhook (h : host) (sheetId gid : string).

Definition after_call (k : call) (st : module_state) : module_state :=
  match k with
  | CallGet h sheetId gid => snd (getGoogleSheetData h sheetId gid st)
  | CallWebhook h sheetId gid => snd (handleWebhookUpdate h sheetId gid st)
  end.

(** [later st st']: some sequence of calls leads from [st] to [st']. *)
Inductive later (st : module_state) : module_state -> Prop :=
| later_refl : later st st
| later_step st' k : later st st' -> later st (after_call k st').

(** The states the module can be in. *)
Definition reachable (st : module_state) : Prop :=
  exists t0, later (initial_state t0) st.

(** No entry carries a version above the counter. *)
Definition versions_bounded (st : module_state) : Prop :=
  forall key e, cache st !! key = Some e -> version e <= currentVersion st.

Definition invalidated (key : string) (st : module_state) : module_state :=
  {| cache := delete key (cache st);
     currentVersion := currentVersion st;
     lastModified := lastModified st |}.

(** The two decimal digits of a number below 100. *)
Definition two_digits (n : Z) : string :=
  String (char_of_digit (n / 10)) (String (char_of_digit (n mod 10)) EmptyString).

Definition digits (s : string) : Prop :=
  s <> EmptyString /\ all_chars is_digit s = true.

(** A date or time cell the normalizer can read: empty in the sense of
    [||] (absent, [null], [false], [0], the empty string), or a string. *)
Definition textual (x : value) : Prop :=
  truthy x = false \/ exists s, x = Str s.

Definition readable (r : row) : Prop :=
  textual (cell_v (c r) 1) /\ textual (cell_v (c r) 2).

(** The [i]-th component of a date string. *)
Definition component (s : string) (i : nat) : option string := split "/" s !! i.

(** A component that is missing, or that [Number] converts to NaN. *)
Definition non_numeric (part : option string) : Prop :=
  match part with
  | Some x => StringToNumber x = NaN
  | None => True
  end.

End SheetSpec.

(** ** The merge *)

Module MergeSpec.
Import Scraper.

(** The canonical record [x] has the name and the start of the scraped
    event [e]: both its properties are strings, the same as the event's. *)
Definition duplicates (e : EventData) (x : existing_event) : Prop :=
  evento x = Str (eventName e) /\ horario_de_inicio x = Str (startDate e).

(** Some canonical record duplicates [e]. *)
Definition duplicated (existing : list existing_event) (e : EventData) : Prop :=
  exists x, x ∈ existing /\ duplicates e x.

(** [non_duplicates existing scraped kept]: [kept] is [scraped] without
    its duplicated events, the others in their order. *)
Inductive non_duplicates (existing : list existing_event)
  : list EventData -> list EventData -> Prop :=
| non_duplicates_nil : non_duplicates existing [] []
| non_duplicates_keep e scraped kept :
    ~ duplicated existing e -> non_duplicates existing scraped kept ->
    non_duplicates existing (e :: scraped) (e :: kept)
| non_duplicates_drop e scraped kept :
    duplicated existing e -> non_duplicates existing scraped kept ->
    non_duplicates existing (e :: scraped) kept.

(** [r] is the row of the sheet schema for the event [e]; the tags are
    joined by a comma and a space, and a missing registration link is the
    empty string. *)
Definition remapped (e : EventData) (r : sheet_row) : Prop :=
  sr_evento r = eventName e /\
  sr_tipo_de_evento r = join ", " (tags e) /\
  sr_horario_de_inicio r = startDate e /\
  sr_horario_de_termino r = endDate e /\
  sr_local r = location e /\
  sr_descricao r = description e /\
  sr_flyer r = image e /\
  sr_link_de_inscricao r = default EmptyString (registrationLink e).

End MergeSpec.

(** ** The image of an event page *)

Module ImageSpec.
Import EventPage.

Definition separator (ch : ascii) : Prop := ch = "/"%char \/ ch = "="%char.

(** [tok] is a file identifier of [s] at the place [pre] marks: 25 or more
    token characters after a separator. *)
Definition token_at (s pre : string) (sep : ascii) (tok rest : string) : Prop :=
  s = pre +:+ String sep (tok +:+ rest) /\
  separator sep /\
  all_chars is_token_char tok = true /\
  (25 <= String.length tok)%nat.

(** [pre] holds no file identifier. *)
Definition token_free (pre : string) : Prop :=
  forall p sep tok rest, ~ token_at pre p sep tok rest.

Definition DRIVE_PREFIX : string := "https://drive.google.com".
Definition rewritten (tok : string) : string :=
  "https://lh3.googleusercontent.com/d/" +:+ tok +:+ "=w1000".

End ImageSpec.

(** ** Hosts, pages, cells and rows used as examples *)

Module Fixtures.
Import GoogleSheets SheetSpec.

(** The framing of the endpoint: 47 characters before the payload, 2 after. *)
Definition RESPONSE_PREFIX : string :=
  "/*O_o*/" +:+ String "010" "google.visualization.Query.setResponse(".
Definition RESPONSE_SUFFIX : string := ");".

(** The endpoint answers with a sign-in page, which is no JSON. *)
Definition host_sign_in_page : host :=
  {| fetch_text := fun _ => Some "<!DOCTYPE html><html><body>Sign in</body></html>";
     JSON_parse := fun _ => None;
     Date_now := 1735156800000;
     Date_parse := fun _ => None;
     LocalTZA := fun _ _ => 0;
     format_number := fun _ => "" |}.

(** The record of the row of [host_one_row]. *)
Definition one_event : event_row :=
  {| evento := Str "Show de Natal"; date := DateObj (Some 1735084800000);
     time := Str "20:00"; local := Str "Pelourinho"; tipo_evento := Str "Show";
     url := Null; flyer := Str "poster.jpg" |}.

(** The endpoint answers with a table of one row: whatever the text is,
    it decodes to that table. *)
Definition host_one_row : host :=
  {| fetch_text := fun _ => Some (RESPONSE_PREFIX +:+ "{...}" +:+ RESPONSE_SUFFIX);
     JSON_parse := fun _ =>
       Some {| cols := [];
               rows := [ {| c := [ Some {| v := Str "Show de Natal"; f := Undefined |};
                                   Some {| v := Str "25/12/2024"; f := Undefined |};
                                   Some {| v := Str "20:00"; f := Undefined |};
                                   Some {| v := Str "Pelourinho"; f := Undefined |};
                                   Some {| v := Str "Show"; f := Undefined |};
                                   None;
                                   Some {| v := Str "poster.jpg"; f := Undefined |} ] |} ] |};
     Date_now := 1735156800000;
     Date_parse := fun _ => None;
     LocalTZA := fun _ _ => 0;
     format_number := fun _ => "" |}.

(** The state after one successful refresh of the key of ["sheet"], ["0"]. *)
Definition state_with_entry : module_state :=
  refreshed host_one_row (cacheKey "sheet" "0") [one_event] (initial_state 0).

(** The sheet cannot be fetched. *)
Definition host_offline : host :=
  {| fetch_text := fun _ => None;
     JSON_parse := fun _ => None;
     Date_now := 1735156800000;
     Date_parse := fun _ => None;
     LocalTZA := fun _ _ => 0;
     format_number := fun _ => "" |}.

(** A sharing link of a drive-hosted file. *)
Definition drive_link : string :=
  "https://drive.google.com/file/d/16nUoGC6zbtfSiu5jqD0R-Hvh7PHWZdqA/view?usp=sharing".

(** A host in the time zone of Salvador, three hours behind UTC, whose
    [Date.parse] accepts nothing. *)
Definition host_salvador : host :=
  {| fetch_text := fun _ => None;
     JSON_parse := fun _ => None;
     Date_now := 1735156800123;
     Date_parse := fun _ => None;
     LocalTZA := fun _ _ => -10800000;
     format_number := fun _ => "" |}.

(** A date cell whose display format has no time, and one whose display
    format has no seconds. *)
Definition cell_date_only : cell :=
  {| v := Str "Date(2024,11,25,20,0,0)"; f := Str "25/12/2024" |}.

Definition cell_without_seconds : cell :=
  {| v := Str "Date(2024,11,25,20,0,0)"; f := Str "25/12/2024 20:00" |}.

Definition cell_formatted : cell :=
  {| v := Str "Date(2024,11,25,20,0,0)"; f := Str "25/12/2024 20:00:00" |}.

Definition cell_unformatted (s : string) : cell := {| v := Str s; f := Undefined |}.

Definition text_cell (s : string) : option cell := Some {| v := Str s; f := Undefined |}.

(** The row of the example: a show on 25/12/2024 at 20:00. *)
Definition row_christmas : row :=
  {| c := [text_cell "Show de Natal"; text_cell "25/12/2024"; text_cell "20:00";
           text_cell "Pelourinho"; text_cell "Show"; text_cell "https://example.org";
           text_cell "poster.jpg"] |}.

Definition number_cell (n : Z) : option cell := Some {| v := Num (of_Z n); f := Undefined |}.

Definition row_of (name day hour : option cell) : row :=
  {| c := [name; day; hour; text_cell "Pelourinho"; text_cell "Show"; None;
           text_cell "poster.jpg"] |}.

(** Three rows; the date of the second is malformed. *)
Definition rows_one_malformed : list row :=
  [ row_of (text_cell "Abertura") (text_cell "24/12/2024") (text_cell "19:30");
    row_of (text_cell "Show de Natal") (text_cell "ab/12/2024") (text_cell "20:00");
    row_of (text_cell "Encerramento") (text_cell "26/12/2024") (text_cell "8:05") ].

(** Three rows; the date cell of the second holds a number. *)
Definition rows_one_numeric : list row :=
  [ row_of (text_cell "Abertura") (text_cell "24/12/2024") (text_cell "19:30");
    row_of (text_cell "Show de Natal") (number_cell 45651) (text_cell "20:00");
    row_of (text_cell "Encerramento") (text_cell "26/12/2024") (text_cell "8:05") ].

(** The endpoint answers with the table [t]. *)
Definition host_with_table (t : table) : host :=
  {| fetch_text := fun _ => Some (RESPONSE_PREFIX +:+ "{...}" +:+ RESPONSE_SUFFIX);
     JSON_parse := fun _ => Some t;
     Date_now := 1735156800000;
     Date_parse := fun _ => None;
     LocalTZA := fun _ _ => -10800000;
     format_number := fun _ => "" |}.

(** A sheet of two labelled columns and one row, whose start is a date
    cell with its display format. *)
Definition labelled_table : table :=
  {| cols := [ {| label := Some "Evento" |}; {| label := Some "Horario  de Inicio" |} ];
     rows := [ {| c := [ text_cell "Show de Natal"; Some cell_formatted ] |} ] |}.

End Fixtures.

Module MergeFixtures.
Import Scraper.

Definition show_x (name start : string) : EventData :=
  {| eventName := name; tags := []; startDate := start; endDate := start;
     location := "El Cabong"; description := ""; image := "/images/astro-post.jpg";
     registrationLink := None |}.

Definition canonical_show_x : list existing_event :=
  [ {| evento := Str "Show X"; horario_de_inicio := Str "2024-01-01T20:00:00Z" |} ].

(** A page on which the selector matches nothing. *)
Definition page_without_events : web :=
  {| axios_get := fun _ => Some "<html><body><h1>Agenda</h1></body></html>";
     select_eventos := fun _ => [];
     parse_date := fun _ => None;
     iso_string := fun _ => "" |}.

(** The page cannot be fetched. *)
Definition site_down : web :=
  {| axios_get := fun _ => None;
     select_eventos := fun _ => [];
     parse_date := fun _ => None;
     iso_string := fun _ => "" |}.

(** A page with one event element. *)
Definition page_one_event : web :=
  {| axios_get := fun _ => Some "<html>...</html>";
     select_eventos := fun _ =>
       [ {| titulo_text := " Show de Natal "; data_text := "2024-12-25 20:00";
            descricao_text := ""; img_src := None |} ];
     parse_date := fun s =>
       if String.eqb s "2024-12-25T20:00:00Z" then Some 1735156800000 else None;
     iso_string := fun _ => "2024-12-25T20:00:00.000Z" |}.

Definition scraped_show : EventData :=
  {| eventName := "Show de Natal"; tags := [];
     startDate := "2024-12-25T20:00:00.000Z"; endDate := "2024-12-25T20:00:00.000Z";
     location := "El Cabong"; description := ""; image := "/images/astro-post.jpg";
     registrationLink := None |}.

End MergeFixtures.

(** ** Invariants of the cache and shapes of records *)

Module SheetInvariants.
Import GoogleSheets SheetSpec.

(** Two keys never hold entries of the same version. *)
Definition versions_distinct (st : module_state) : Prop :=
  forall k1 k2 e1 e2,
    cache st !! k1 = Some e1 -> cache st !! k2 = Some e2 ->
    version e1 = version e2 -> k1 = k2.

(** The versions in the cache are numbers of refreshes that happened. *)
Definition versions_counted (st : module_state) : Prop :=
  0 <= currentVersion st /\
  forall k e, cache st !! k = Some e -> 1 <= version e <= currentVersion st.

(** The entry of the latest refresh, while it is in the cache, carries the
    last-modified stamp. *)
Definition latest_stamped (st : module_state) : Prop :=
  forall k e, cache st !! k = Some e -> version e = currentVersion st ->
              timestamp e = lastModified st.

Definition cache_invariant (st : module_state) : Prop :=
  versions_counted st /\ versions_distinct st /\ latest_stamped st.

(** A field that is [null] when it is not truthy. *)
Definition null_or_truthy (x : value) : Prop := x = Null \/ truthy x = true.

Definition hyphen_free (s : string) : Prop := all_chars (differs "-") s = true.

(** A time as the normalizer writes it: two parts of at least two
    characters around a colon. *)
Definition padded_time (x : value) : Prop :=
  exists a b, x = Str (a +:+ ":" +:+ b) /\
              (2 <= String.length a)%nat /\ (2 <= String.length b)%nat.

End SheetInvariants.

(** ** The text an element's date is parsed from *)

Module ScrapeSpec.
Import Scraper.

(** The string given to [new Date]: the first two space-separated parts of
    the trimmed date text around a [T], with [:00Z] appended. *)
Definition stamp (el : element) : string :=
  let parts := split " " (trim (data_text el)) in
  template_part (parts !! 0%nat) +:+ "T" +:+ template_part (parts !! 1%nat) +:+ ":00Z".

(** The event an element becomes when its stamp parses to [t]. *)
Definition scraped_as (w : web) (el : element) (t : Z) (e : EventData) : Prop :=
  eventName e = trim (titulo_text el) /\
  tags e = [] /\
  startDate e = iso_string w t /\
  endDate e = startDate e /\
  location e = "El Cabong" /\
  description e = trim (descricao_text el) /\
  registrationLink e = None /\
  image e <> EmptyString /\
  (forall src, img_src el = Some src -> src <> EmptyString -> image e = src) /\
  (img_src el = None \/ img_src el = Some EmptyString -> image e = "/images/astro-post.jpg").

End ScrapeSpec.

(** ** Instants *)

Module Instants.
Import Date Calendar.

(** A time of the day. *)
Definition valid_clock (h mi s : Z) : Prop :=
  0 <= h <= 23 /\ 0 <= mi <= 59 /\ 0 <= s <= 59.

(** The time value of a time of the day on a day of the calendar, UTC. *)
Definition instant (y mo d h mi s : Z) : Z :=
  midnight y mo d + (h * msPerHour + mi * msPerMinute + s * msPerSecond).

(** A time value put together from a day number and a time of the day. *)
Definition at_day (day h mi s ms : Z) : Z :=
  day * msPerDay + (h * msPerHour + mi * msPerMinute + s * msPerSecond + ms).

End Instants.

(** ** Slugs, headers and tables of the pages *)

Module PageSpec.
Import StaticPaths.

(** [[a-z0-9-]] *)
Definition slug_char (ch : ascii) : bool := is_slug_alnum ch || is_char ch "-".

(** No hyphen follows a hyphen in [s], nor starts it when [after_hyphen]. *)
Fixpoint hyphens_apart (after_hyphen : bool) (s : string) : bool :=
  match s with
  | EmptyString => true
  | String ch r =>
      if is_char ch "-" then negb after_hyphen && hyphens_apart true r
      else hyphens_apart false r
  end.

(** Neither white space nor a capital letter A to Z. *)
Definition header_char (ch : ascii) : bool :=
  negb (is_space ch) && negb (in_range 65 90 ch).

(** No string-valued cell has a display format. *)
Definition unformatted_cell (x : option cell) : bool :=
  match x with
  | Some y =>
      match v y with
      | Str _ => negb (truthy (f y))
      | _ => true
      end
  | None => true
  end.

Definition unformatted (t : table) : bool :=
  forallb (fun r => forallb unformatted_cell (c r)) (rows t).

(** The image of a drive reference in which no file identifier is found. *)
Definition UNDEFINED_IMAGE : string := "https://lh3.googleusercontent.com/d/undefined=w1000".

End PageSpec.

Module PageFixtures.
Import GoogleSheets Fixtures.

(** A table whose only row has an empty name cell. *)
Definition nameless_table : table :=
  {| cols := []; rows := [ row_of None (text_cell "25/12/2024") (text_cell "20:00") ] |}.

Definition nameless_event : event_row :=
  {| evento := Null; date := DateObj (Some 1735084800000);
     time := Str "20:00"; local := Str "Pelourinho"; tipo_evento := Str "Show";
     url := Null; flyer := Str "poster.jpg" |}.

(** A sheet of two labelled columns and two rows of plain cells. *)
Definition plain_table : table :=
  {| cols := [ {| label := Some "Evento" |}; {| label := Some "Hora" |} ];
     rows := [ {| c := [ text_cell "Show de Natal"; text_cell "20:30" ] |};
               {| c := [ text_cell "Encerramento"; None ] |} ] |}.

(** A reference to a drive folder: no file identifier in it. *)
Definition drive_folder_link : string := "https://drive.google.com/drive/folders/abc".

End PageFixtures.

(* ===================================================================== *)
(** * Part IX: properties *)
(* ===================================================================== *)

(** ** Array methods against the list library *)

Section ArrayFacts.
Context {A B : Type}.
Implicit Types (p : A -> bool) (g : A -> B) (l : list A).

Lemma Array_some_true p l :
  Array_some p l = true <-> exists x, x ∈ l /\ p x = true.
Proof.
  induction l as [|a l IH]; simpl.
  - split; [discriminate | intros (x & Hx & _); inversion Hx].
  - destruct (p a) eqn:Hpa.
    + split; [intros _ | reflexivity]. exists a. split; [left | exact Hpa].
    + rewrite IH. split; intros (x & Hx & Hp).
      * exists x. split; [right; exact Hx | exact Hp].
      * inversion Hx; subst; [congruence | eauto].
Qed.

Lemma Array_filter_spec p l :
  Array_filter p l = filter (fun x => p x = true) l.
Proof.
  induction l as [|a l IH]; simpl; [reflexivity|].
  rewrite filter_cons. destruct (p a) eqn:Hpa.
  - rewrite decide_True by reflexivity. now rewrite IH.
  - rewrite decide_False by discriminate. exact IH.
Qed.

Lemma Array_map_spec g l : Array_map g l = g <$> l.
Proof. induction l as [|a l IH]; simpl; [reflexivity | now rewrite IH]. Qed.

End ArrayFacts.

Section ArrayThrowing.
Context {A B : Type}.
Implicit Types (g : A -> result B) (l : list A).

(** When the callback throws on no element, [map] returns one result per
    element, in order. *)
Lemma Array_map_throwing_Ok g l ys :
  Array_map_throwing g l = Ok ys <-> Forall2 (fun x y => g x = Ok y) l ys.
Proof.
  revert ys. induction l as [|a l IH]; intros ys; simpl.
  - split.
    + intros [= <-]. constructor.
    + intros H. inversion H. reflexivity.
  - unfold mbind, result_bind. destruct (g a) as [y|e] eqn:Hga.
    + destruct (Array_map_throwing g l) as [zs|e] eqn:Hrest.
      * split.
        -- intros [= <-]. constructor; [exact Hga | now apply IH].
        -- intros H. inversion H as [|? y' ? zs' Hy Hzs]; subst.
           apply IH in Hzs. congruence.
      * split; [discriminate|].
        intros H. inversion H as [|? y' ? zs' Hy Hzs]; subst.
        apply IH in Hzs. discriminate.
    + split; [discriminate|].
      intros H. inversion H; subst. congruence.
Qed.

(** The first element on which the callback throws ends the traversal. *)
Lemma Array_map_throwing_Throw g l e :
  Array_map_throwing g l = Throw e <->
  exists l1 x l2 ys, l = l1 ++ x :: l2 /\
    Forall2 (fun x y => g x = Ok y) l1 ys /\ g x = Throw e.
Proof.
  induction l as [|a l IH]; simpl.
  - split; [discriminate|]. intros (l1 & x & l2 & ys & Hl & _).
    destruct l1; discriminate.
  - unfold mbind, result_bind. destruct (g a) as [y|e'] eqn:Hga.
    + destruct (Array_map_throwing g l) as [zs|e''] eqn:Hrest.
      * split; [discriminate|]. intros (l1 & x & l2 & ys & Hl & Hok & Hx).
        destruct l1 as [|b l1]; simpl in Hl; injection Hl as -> ->; [congruence|].
        inversion Hok; subst.
        assert (@Ok (list B) zs = Throw e) as Habs; [|discriminate].
        apply IH. eauto 10.
      * rewrite IH. split.
        -- intros (l1 & x & l2 & ys & -> & Hok & Hx).
           exists (a :: l1), x, l2, (y :: ys). repeat split; [constructor|]; assumption.
        -- intros (l1 & x & l2 & ys & Hl & Hok & Hx).
           destruct l1 as [|b l1]; simpl in Hl; injection Hl as -> ->; [congruence|].
           inversion Hok; subst. eauto 10.
    + split.
      * intros [= <-]. exists [], a, l, []. repeat split; [constructor | exact Hga].
      * intros (l1 & x & l2 & ys & Hl & Hok & Hx).
        destruct l1 as [|b l1]; simpl in Hl; injection Hl as -> ->; [congruence|].
        inversion Hok; subst. congruence.
Qed.

Lemma Array_map_throwing_length g l ys :
  Array_map_throwing g l = Ok ys -> length ys = length l.
Proof.
  intros H. apply Array_map_throwing_Ok in H.
  symmetry. eapply Forall2_length, H.
Qed.
End ArrayThrowing.

(** ** Runs of characters *)

Lemma append_nil (b : string) : EmptyString +:+ b = b.
Proof. reflexivity. Qed.

Lemma append_cons (ch : ascii) (a b : string) :
  String ch a +:+ b = String ch (a +:+ b).
Proof. reflexivity. Qed.

Section SpanFacts.
Variable p : ascii -> bool.

Lemma span_append s : fst (span p s) +:+ snd (span p s) = s.
Proof.
  induction s as [|ch s IH]; simpl; [reflexivity|].
  destruct (p ch); [|reflexivity].
  destruct (span p s) as [a b]. simpl in *. now rewrite append_cons, IH.
Qed.

Lemma span_all s : all_chars p (fst (span p s)) = true.
Proof.
  induction s as [|ch s IH]; simpl; [reflexivity|].
  destruct (p ch) eqn:Hp; [|reflexivity].
  destruct (span p s) as [a b]. simpl in *. now rewrite Hp, IH.
Qed.

Lemma span_stops s : stops p (snd (span p s)).
Proof.
  induction s as [|ch s IH]; simpl; [exact I|].
  destruct (p ch) eqn:Hp; [|exact Hp].
  now destruct (span p s) as [a b].
Qed.

(** A run followed by a stop is found whole. *)
Lemma span_run tok rest :
  all_chars p tok = true -> stops p rest -> span p (tok +:+ rest) = (tok, rest).
Proof.
  intros Hall Hstop. induction tok as [|ch tok IH].
  - rewrite append_nil.
    destruct rest as [|x rest]; [reflexivity|]. simpl in *. now rewrite Hstop.
  - rewrite append_cons. simpl in *.
    apply andb_true_iff in Hall as [Hch Hall]. rewrite Hch, (IH Hall). reflexivity.
Qed.

(** A run is a prefix of the run that is found. *)
Lemma span_run_length tok rest :
  all_chars p tok = true ->
  (String.length tok <= String.length (fst (span p (tok +:+ rest))))%nat.
Proof.
  intros Hall. induction tok as [|ch tok IH]; [simpl; lia|].
  rewrite append_cons. simpl in *.
  apply andb_true_iff in Hall as [Hch Hall]. rewrite Hch.
  specialize (IH Hall). destruct (span p (tok +:+ rest)). simpl in *. lia.
Qed.

End SpanFacts.

(** ** Strings of digits *)

Section StringFacts.

Lemma append_empty_r (s : string) : s +:+ EmptyString = s.
Proof. induction s as [|ch s IH]; [reflexivity | now rewrite append_cons, IH]. Qed.

Lemma all_chars_impl (p q : ascii -> bool) (s : string) :
  (forall ch, p ch = true -> q ch = true) ->
  all_chars p s = true -> all_chars q s = true.
Proof.
  intros Hpq. induction s as [|ch s IH]; simpl; [reflexivity|].
  rewrite !andb_true_iff. intros [H1 H2]. auto.
Qed.

Lemma span_whole (p : ascii -> bool) (s : string) :
  all_chars p s = true -> span p s = (s, EmptyString).
Proof.
  intros H. rewrite <- (append_empty_r s) at 1. now apply span_run.
Qed.

Lemma string_rev_rev (s a b : string) :
  string_rev a (string_rev b s) = string_rev (s +:+ a) b.
Proof.
  revert b. induction s as [|ch s IH]; intros b; [reflexivity|].
  simpl. now rewrite IH, append_cons.
Qed.

Lemma string_rev_involutive (s : string) :
  string_rev EmptyString (string_rev EmptyString s) = s.
Proof. rewrite string_rev_rev. simpl. apply append_empty_r. Qed.

Lemma all_chars_string_rev (p : ascii -> bool) (s acc : string) :
  all_chars p s = true -> all_chars p acc = true ->
  all_chars p (string_rev acc s) = true.
Proof.
  revert acc. induction s as [|ch s IH]; intros acc; simpl; [auto|].
  rewrite andb_true_iff. intros [H1 H2] Hacc. apply IH; [exact H2|].
  simpl. now rewrite H1.
Qed.

Lemma trimStart_id (s : string) : all_chars not_space s = true -> trimStart s = s.
Proof.
  destruct s as [|ch s]; simpl; [reflexivity|].
  unfold not_space. destruct (is_space ch); [discriminate | reflexivity].
Qed.

(** A string without white space is its own trim. *)
Lemma trim_id (s : string) : all_chars not_space s = true -> trim s = s.
Proof.
  intros H. unfold trim, trimEnd. rewrite (trimStart_id s H).
  rewrite trimStart_id; [apply string_rev_involutive|].
  now apply all_chars_string_rev.
Qed.

Lemma digit_not_space (ch : ascii) : is_digit ch = true -> not_space ch = true.
Proof.
  unfold is_digit, not_space, is_space, in_range. intros H.
  apply andb_true_iff in H as [H1 H2].
  apply Z.leb_le in H1. apply Z.leb_le in H2.
  apply negb_true_iff. rewrite !orb_false_iff, andb_false_iff.
  repeat split.
  - right. apply Z.leb_gt. lia.
  - apply Z.eqb_neq. lia.
  - apply Z.eqb_neq. lia.
Qed.

Lemma digit_is_not (ch x : ascii) :
  is_digit ch = true -> is_digit x = false -> is_char ch x = false.
Proof.
  intros H1 H2. unfold is_char. destruct (Ascii.eqb_spec ch x); [congruence | reflexivity].
Qed.

Lemma digits_value_bounds (s : string) (acc : Z) :
  all_chars is_digit s = true -> 0 <= acc -> 0 <= digits_value 10 acc s.
Proof.
  revert acc. induction s as [|ch s IH]; intros acc; cbn [digits_value all_chars]; [auto|].
  rewrite andb_true_iff. intros [Hd Hs] Hacc. apply IH; [exact Hs|].
  unfold hex_val. rewrite Hd. unfold is_digit, in_range in Hd.
  apply andb_true_iff in Hd as [H1 _]. apply Z.leb_le in H1. lia.
Qed.

Lemma Qred_integer (z : Z) : Qred (inject_Z z) = inject_Z z.
Proof.
  unfold Qred, inject_Z. simpl Qnum. simpl Qden.
  pose proof (Z.ggcd_gcd z 1) as Hg.
  pose proof (Z.ggcd_correct_divisors z 1) as Hd.
  destruct (Z.ggcd z 1) as [g [aa bb]]. simpl in Hg.
  rewrite Z.gcd_1_r in Hg. subst g. destruct Hd as [Ha Hb].
  rewrite Z.mul_1_l in Ha, Hb. now subst.
Qed.

Lemma scale2_exact (z k : Z) : 0 <= k -> scale2 (z * 2 ^ k) (- k) = inject_Z z.
Proof.
  intros Hk. unfold scale2. destruct (Z.leb_spec 0 (- k)) as [H|H].
  - assert (k = 0) as -> by lia. simpl. f_equal. lia.
  - rewrite Z.opp_involutive, <- (Qred_integer z). apply Qred_complete.
    assert (0 < 2 ^ k) as Hpos by (apply Z.pow_pos_nonneg; lia).
    unfold Qeq, inject_Z. cbn [Qnum Qden]. rewrite Z2Pos.id by exact Hpos. lia.
Qed.

Lemma round_half_even_whole (n : Z) : round_half_even n 1 = n.
Proof.
  unfold round_half_even. rewrite Z.mod_1_r, Z.div_1_r. reflexivity.
Qed.

Example binary64_tenth :
  StringToNumber "0.1" = Fin (3602879701896397 # 36028797018963968).
Proof. vm_compute. reflexivity. Qed.

(** Above 2^53 a tie goes to the even significand. *)
Example binary64_ties :
  StringToNumber "9007199254740993" = of_Z 9007199254740992 /\
  StringToNumber "9007199254740995" = of_Z 9007199254740996.
Proof. split; vm_compute; reflexivity. Qed.

Example binary64_range :
  StringToNumber "1e309" = PInf /\ StringToNumber "-1e309" = NInf /\
  StringToNumber "2e-324" = of_Z 0 /\
  StringToNumber "1.7976931348623157e308" = of_Z ((2 ^ 53 - 1) * 2 ^ 971).
Proof. repeat split; vm_compute; reflexivity. Qed.

(** An integer below 2^53 is a Number value. *)
Lemma binary64_of_Z (z : Z) : Z.abs z < 2 ^ 53 -> binary64 (inject_Z z) = of_Z z.
Proof.
  intros Hz. unfold binary64, of_Z. cbn [Qnum Qden inject_Z].
  destruct (Z.eqb_spec z 0) as [->|Hnz]; [reflexivity|].
  assert (0 < Z.abs z) as Ha by lia.
  pose proof (Z.log2_spec _ Ha) as [Hlo Hhi]. pose proof (Z.log2_nonneg (Z.abs z)) as Hl0.
  assert (Z.log2 (Z.abs z) <= 52) as Hl.
  { destruct (Z.le_gt_cases (Z.log2 (Z.abs z)) 52) as [H|H]; [exact H|]. exfalso.
    assert (2 ^ 53 <= 2 ^ Z.log2 (Z.abs z)) by (apply Z.pow_le_mono_r; lia). lia. }
  change (Z.log2 1) with 0. rewrite Z.sub_0_r.
  rewrite (Z.max_r 0 (Z.log2 (Z.abs z))) by lia.
  rewrite (Z.max_l 0 (- Z.log2 (Z.abs z))) by lia.
  rewrite Z.pow_0_r, Z.mul_1_r, Z.mul_1_l.
  destruct (Z.leb_spec (2 ^ Z.log2 (Z.abs z)) (Z.abs z)) as [_|H]; [|lia].
  rewrite Z.max_l by lia.
  destruct (Z.leb_spec 0 (Z.log2 (Z.abs z) - 52)) as [He|He].
  - assert (Z.log2 (Z.abs z) - 52 = 0) as -> by lia.
    rewrite Z.pow_0_r, round_half_even_whole.
    destruct (Z.leb_spec (2 ^ 53) (Z.abs z)) as [H|_]; [lia|].
    cbn [Z.ltb Z.eqb Z.compare orb andb]. unfold scale2. cbn [Z.leb Z.compare].
    rewrite Z.pow_0_r, Z.mul_1_r. f_equal. f_equal. lia.
  - rewrite round_half_even_whole.
    destruct (Z.ltb_spec 971 (Z.log2 (Z.abs z) - 52)) as [H|_]; [lia|].
    destruct (Z.eqb_spec (Z.log2 (Z.abs z) - 52) 971) as [H|_]; [lia|].
    cbn [orb andb].
    replace (Z.log2 (Z.abs z) - 52) with (- (- (Z.log2 (Z.abs z) - 52))) at 2 by lia.
    rewrite Z.mul_assoc, scale2_exact by lia. f_equal. f_equal. lia.
Qed.

Lemma minus_one_of_Z (z : Z) :
  Z.abs (z - 1) < 2 ^ 53 -> minus_one (of_Z z) = of_Z (z - 1).
Proof.
  intros Hz. rewrite <- (binary64_of_Z (z - 1) Hz). unfold minus_one, of_Z.
  f_equal. unfold Qminus, Qplus, Qopp, inject_Z. cbn [Qnum Qden Pos.mul]. f_equal. lia.
Qed.

(** [Number] reads a non-empty run of digits as its decimal value, when
    that is below 2^53. *)
Lemma StringToNumber_digits (s : string) :
  s <> EmptyString -> all_chars is_digit s = true -> decimal s < 2 ^ 53 ->
  StringToNumber s = of_Z (decimal s).
Proof.
  intros Hne Hall Hsmall. unfold StringToNumber.
  assert (binary64 (inject_Z (decimal s)) = of_Z (decimal s)) as Hexact.
  { apply binary64_of_Z. pose proof (digits_value_bounds s 0 Hall ltac:(lia)).
    unfold decimal in *. lia. }
  rewrite trim_id by (eapply all_chars_impl; [apply digit_not_space | exact Hall]).
  assert (nonempty s = true) as Hnon.
  { unfold nonempty. destruct s; [congruence | reflexivity]. }
  rewrite Hnon.
  assert (parse_unsigned_decimal s = of_Z (decimal s)) as Hun.
  { unfold parse_unsigned_decimal.
    destruct (String.eqb_spec s "Infinity") as [->|_]; [discriminate|].
    now rewrite (span_whole _ _ Hall), Hnon. }
  clear Hexact.
  assert (parse_decimal s = of_Z (decimal s)) as Hdec.
  { unfold parse_decimal. destruct s as [|c0 r]; [congruence|].
    simpl in Hall. apply andb_true_iff in Hall as [H0 _].
    rewrite !(digit_is_not c0) by (exact H0 || reflexivity). exact Hun. }
  unfold parse_numeric. destruct s as [|c0 [|c1 ds]]; try exact Hdec.
  simpl in Hall. apply andb_true_iff in Hall as [_ Hall].
  apply andb_true_iff in Hall as [H1 _].
  rewrite !(digit_is_not c1) by (exact H1 || reflexivity).
  rewrite !orb_false_r, !andb_false_r. exact Hdec.
Qed.

Lemma split_whole (sep : ascii) (s : string) :
  all_chars (differs sep) s = true -> split sep s = [s].
Proof.
  induction s as [|ch s IH]; simpl; [reflexivity|].
  unfold differs at 1. rewrite andb_true_iff, negb_true_iff.
  intros [-> Hs]. now rewrite (IH Hs).
Qed.

Lemma split_first (sep : ascii) (a rest : string) :
  all_chars (differs sep) a = true ->
  split sep (a +:+ String sep rest) = a :: split sep rest.
Proof.
  induction a as [|ch a IH].
  - intros _. rewrite append_nil. simpl. now rewrite Ascii.eqb_refl.
  - rewrite append_cons. simpl. unfold differs at 1.
    rewrite andb_true_iff, negb_true_iff. intros [-> Ha]. now rewrite (IH Ha).
Qed.

Lemma digits_differ (sep : ascii) (s : string) :
  is_digit sep = false -> all_chars is_digit s = true ->
  all_chars (differs sep) s = true.
Proof.
  intros Hsep. apply all_chars_impl. intros ch Hch.
  unfold differs. apply negb_true_iff. now apply digit_is_not.
Qed.

End StringFacts.

(** ** Calendar arithmetic *)

Module DateFacts.
Import Date Calendar.

Lemma finite_trunc_of_Z (z : Z) : finite_trunc (of_Z z) = Some z.
Proof. unfold finite_trunc, of_Z. simpl. now rewrite Z.quot_1_r. Qed.

Lemma leap_cases (y : Z) :
  (InLeapYear y = 0 \/ InLeapYear y = 1) /\ DaysInYear y = 365 + InLeapYear y.
Proof.
  unfold InLeapYear, DaysInYear.
  destruct (y mod 4 =? 0), (y mod 100 =? 0), (y mod 400 =? 0); simpl; lia.
Qed.

(** A year is as long as the distance between two first days. *)
Lemma DayFromYear_next (y : Z) : DayFromYear (y + 1) = DayFromYear y + DaysInYear y.
Proof.
  unfold DayFromYear, DaysInYear.
  destruct (Z.eqb_spec (y mod 4) 0), (Z.eqb_spec (y mod 100) 0),
    (Z.eqb_spec (y mod 400) 0); simpl; Z.div_mod_to_equations; lia.
Qed.

Lemma DayFromYear_mono (y y' : Z) : y <= y' -> DayFromYear y <= DayFromYear y'.
Proof. unfold DayFromYear. intros H. Z.div_mod_to_equations. lia. Qed.

Lemma month_cases (mo : Z) :
  1 <= mo <= 12 ->
  mo = 1 \/ mo = 2 \/ mo = 3 \/ mo = 4 \/ mo = 5 \/ mo = 6 \/
  mo = 7 \/ mo = 8 \/ mo = 9 \/ mo = 10 \/ mo = 11 \/ mo = 12.
Proof. lia. Qed.

Lemma midnight_fields (y mo d : Z) :
  valid_date y mo d -> has_utc_fields (midnight y mo d) y mo d 0 0 0.
Proof.
  intros [Hmo Hd]. unfold has_utc_fields, midnight.
  rewrite DayFromYear_next.
  destruct (leap_cases y) as [Hleap Hlen]. rewrite Hlen.
  set (L := InLeapYear y) in *. set (D0 := DayFromYear y).
  unfold Day, HourFromTime, MinFromTime, SecFromTime, msPerDay, msPerHour,
    msPerMinute, msPerSecond.
  destruct (month_cases mo Hmo) as [->|[->|[->|[->|[->|[->|[->|[->|[->|[->|[->| ->]]]]]]]]]]];
    simpl in Hd |- *; repeat split; try lia;
    Z.div_mod_to_equations; lia.
Qed.

Lemma valid_date_bounds (y mo d : Z) :
  valid_date y mo d -> 1 <= mo <= 12 /\ 1 <= d <= 31.
Proof.
  intros [Hmo Hd]. split; [exact Hmo|]. destruct (leap_cases y) as [Hleap _].
  destruct (month_cases mo Hmo) as [->|[->|[->|[->|[->|[->|[->|[->|[->|[->|[->| ->]]]]]]]]]]];
    simpl in Hd; lia.
Qed.

Lemma DayFromYear_bounds (y : Z) :
  100 <= y <= 9999 -> -700000 <= DayFromYear y <= 3000000.
Proof. unfold DayFromYear. intros H. Z.div_mod_to_equations. lia. Qed.

(** [Date.UTC(year, month - 1, day)] on a day of the calendar is its
    midnight. *)
Lemma UTC3_valid (y mo d : Z) :
  100 <= y <= 9999 -> valid_date y mo d ->
  UTC3 (of_Z y) (minus_one (of_Z mo)) (of_Z d) = Some (midnight y mo d).
Proof.
  intros Hy [Hmo Hd]. unfold UTC3, UTC7, MakeFullYear, MakeDay, MakeTime.
  rewrite minus_one_of_Z, !finite_trunc_of_Z by lia.
  replace ((0 <=? y) && (y <=? 99)) with false
    by (symmetry; apply andb_false_iff; right; apply Z.leb_gt; lia).
  rewrite !finite_trunc_of_Z. simpl.
  rewrite (Z.div_small (mo - 1) 12) by lia.
  rewrite (Z.mod_small (mo - 1) 12) by lia.
  rewrite Z.add_0_r. unfold MakeDate, TimeClip, midnight. rewrite Z.add_0_r.
  destruct (leap_cases y) as [Hleap _].
  pose proof (DayFromYear_bounds y Hy) as Hb.
  assert (0 <= MonthStart (mo - 1) (InLeapYear y) <= 335) as Hm.
  { destruct (month_cases mo Hmo) as [->|[->|[->|[->|[->|[->|[->|[->|[->|[->|[->| ->]]]]]]]]]]];
      simpl; lia. }
  assert (d <= 31) as Hd31.
  { destruct (month_cases mo Hmo) as [->|[->|[->|[->|[->|[->|[->|[->|[->|[->|[->| ->]]]]]]]]]]];
      simpl in Hd; lia. }
  destruct (Z.leb_spec (Z.abs ((DayFromYear y + MonthStart (mo - 1) (InLeapYear y) + d - 1)
                               * msPerDay)) 8640000000000000) as [_|Hbig];
    [reflexivity|].
  unfold msPerDay in Hbig. lia.
Qed.

(** The fields of a time value are determined by it. *)
Lemma has_utc_fields_unique (t y mo d h mi s y' mo' d' h' mi' s' : Z) :
  has_utc_fields t y mo d h mi s -> has_utc_fields t y' mo' d' h' mi' s' ->
  y = y' /\ mo = mo' /\ d = d' /\ h = h' /\ mi = mi' /\ s = s'.
Proof.
  intros (Hy & Hmo & Hd & Hday & Hend & <- & <- & <-)
         (Hy' & Hmo' & Hd' & Hday' & Hend' & <- & <- & <-).
  assert (y = y') as <-.
  { destruct (Z.lt_trichotomy y y') as [Hlt | [Heq | Hgt]]; [|exact Heq|].
    - pose proof (DayFromYear_mono (y + 1) y' ltac:(lia)). lia.
    - pose proof (DayFromYear_mono (y' + 1) y ltac:(lia)). lia. }
  destruct (leap_cases y) as [Hleap Hlen]. rewrite Hlen in *.
  set (L := InLeapYear y) in *.
  assert (mo = mo') as <-.
  { destruct (month_cases mo Hmo) as [->|[->|[->|[->|[->|[->|[->|[->|[->|[->|[->| ->]]]]]]]]]]];
    destruct (month_cases mo' Hmo') as [->|[->|[->|[->|[->|[->|[->|[->|[->|[->|[->| ->]]]]]]]]]]];
      simpl in *; lia. }
  repeat split; lia.
Qed.

End DateFacts.

(** ** The label-indexed normalizer: the chain of date decodings *)

Module LabelIndexedFacts.
Import LabelIndexed Fixtures.

Example stage_a_formatted :
  decode_cell host_salvador (Some cell_formatted) = Ok (DateObj (Some 1735156800000)).
Proof. reflexivity. Qed.

Example stage_b_wrapped_literal :
  decode_cell host_salvador (Some (cell_unformatted "Date(2024,11,25,20,0,0)")) =
  Ok (DateObj (Some 1735156800000)).
Proof. reflexivity. Qed.

(** 20:30 in Salvador on the day of the clock reading is 23:30 UTC. *)
Example stage_d_time_of_day :
  decode_cell host_salvador (Some (cell_unformatted "20:30")) =
  Ok (DateObj (Some 1735169400123)).
Proof. reflexivity. Qed.

Example stage_e_raw_string :
  decode_cell host_salvador (Some (cell_unformatted "Show X")) = Ok (Str "Show X").
Proof. reflexivity. Qed.

(** A row keyed by the labels of its columns; the start is stored as a
    [Date]. *)
Example labelled_row :
  LabelIndexed.transform host_salvador labelled_table =
  Ok [ {| own := <["horario_de_inicio" := DateObj (Some 1735156800000)]>
                  (<["evento" := Str "Show de Natal"]> ∅);
          proto := ObjectPrototype |} ].
Proof. vm_compute. reflexivity. Qed.

(** C1, as stated, fails on string-valued cells that have a formatted
    field. With the display format of a date without time, stage (a)
    throws, so the chain does fail. With a display format without seconds,
    stage (a) yields the Invalid Date and the cell keeps it, although the
    next stage decodes the raw value: the failure does not fall through. *)
Lemma formatted_cell_does_not_fall_through :
  decode_cell host_salvador (Some cell_date_only) = Throw TypeError /\
  decode_cell host_salvador (Some cell_without_seconds) = Ok (DateObj None) /\
  stage_b "Date(2024,11,25,20,0,0)" = Some (DateObj (Some 1735156800000)) /\
  spec_chain host_salvador cell_without_seconds "Date(2024,11,25,20,0,0)" =
    DateObj (Some 1735156800000).
Proof. repeat split; reflexivity. Qed.

Lemma decode_cell_unformatted h x s :
  v x = Str s -> truthy (f x) = false ->
  decode_cell h (Some x) =
  Ok (first_success [stage_b s; stage_c h s; stage_d h s] (Str s)).
Proof.
  intros Hv Hf. unfold decode_cell. rewrite Hv, Hf. simpl.
  destruct (stage_b s); [reflexivity|].
  destruct (stage_c h s); [reflexivity|].
  destruct (stage_d h s); reflexivity.
Qed.

Lemma decode_cell_formatted h x s :
  v x = Str s -> truthy (f x) = true -> decode_cell h (Some x) = stage_a (f x).
Proof. intros Hv Hf. unfold decode_cell. now rewrite Hv, Hf. Qed.

(** C1, amended. For a string-valued cell the presence of a formatted
    field, not the success of its parse, selects stage (a): with a
    non-empty formatted field the cell gets what stage (a) yields from that
    field, whatever the raw string and the host are. Without one, the
    later stages are tried in the order (b) wrapped literal, (c)
    [new Date], (d) time of day, (e) raw string: a stage that fails passes
    the string on, the result of the first stage that succeeds is stored
    as it is, and a value is always stored. *)
Theorem decode_cell_chain (h : host) (x : cell) (s : string) :
  v x = Str s ->
  (truthy (f x) = true ->
   (forall d, stage_a (f x) = Ok d -> decode_cell h (Some x) = Ok d) /\
   (forall h' s', decode_cell h' (Some {| v := Str s'; f := f x |}) =
                  decode_cell h (Some x))) /\
  (truthy (f x) = false ->
   decode_cell h (Some x) =
     Ok (first_success [stage_b s; stage_c h s; stage_d h s] (Str s)) /\
   (forall d, stage_b s = Some d -> decode_cell h (Some x) = Ok d) /\
   (forall d, stage_b s = None -> stage_c h s = Some d ->
              decode_cell h (Some x) = Ok d) /\
   (forall d, stage_b s = None -> stage_c h s = None -> stage_d h s = Some d ->
              decode_cell h (Some x) = Ok d) /\
   (stage_b s = None -> stage_c h s = None -> stage_d h s = None ->
    decode_cell h (Some x) = Ok (Str s))).
Proof.
  intros Hv. split; intros Hf.
  - rewrite (decode_cell_formatted h x s Hv Hf). split; [auto|].
    intros h' s'. now apply (decode_cell_formatted h' {| v := Str s'; f := f x |} s').
  - rewrite (decode_cell_unformatted h x s Hv Hf). split; [reflexivity|].
    repeat split.
    + intros d ->. reflexivity.
    + intros d -> ->. reflexivity.
    + intros d -> -> ->. reflexivity.
    + intros -> -> ->. reflexivity.
Qed.

Lemma decode_cell_chain_witness :
  v (cell_unformatted "20:30") = Str "20:30" /\
  truthy (f (cell_unformatted "20:30")) = false /\
  decode_cell host_salvador (Some (cell_unformatted "20:30")) =
    Ok (first_success [stage_b "20:30"; stage_c host_salvador "20:30";
                       stage_d host_salvador "20:30"] (Str "20:30")).
Proof.
  split; [reflexivity|]. split; [reflexivity|].
  exact (proj1 (proj2 (decode_cell_chain host_salvador (cell_unformatted "20:30") "20:30"
                         eq_refl) eq_refl)).
Defined.

End LabelIndexedFacts.

(** ** The position-indexed row normalizer *)

Module NormalizerFacts.
Import GoogleSheets Date Calendar DateFacts SheetSpec Fixtures.

Lemma padStart2_below_100 (fmt : Q -> string) (n : Z) :
  0 <= n < 100 -> padStart2 (Number_toString fmt (of_Z n)) = two_digits n.
Proof.
  intros Hn. unfold Number_toString, of_Z, is_safe_integer. simpl.
  replace (Z.abs n <? 2 ^ 53) with true by (symmetry; apply Z.ltb_lt; lia).
  assert (forallb (fun k => String.eqb (padStart2 (Z_to_decimal (Z.of_nat k)))
                                       (two_digits (Z.of_nat k)))
                  (seq 0 100) = true) as Hall by (vm_compute; reflexivity).
  rewrite forallb_forall in Hall.
  specialize (Hall (Z.to_nat n)). rewrite Z2Nat.id in Hall by lia.
  apply String.eqb_eq, Hall, in_seq. lia.
Qed.

Lemma truthy_Str_append (a b : string) :
  a <> EmptyString -> truthy (Str (a +:+ b)) = true.
Proof. intros Ha. destruct a; [congruence | reflexivity]. Qed.

(** A date [D/M/Y] written in digits splits into its three numbers. *)
Lemma split_date (ds ms ys : string) :
  digits ds -> digits ms -> digits ys ->
  decimal ds < 2 ^ 53 -> decimal ms < 2 ^ 53 -> decimal ys < 2 ^ 53 ->
  Array_map StringToNumber (split "/" (ds +:+ "/" +:+ ms +:+ "/" +:+ ys)) =
  [of_Z (decimal ds); of_Z (decimal ms); of_Z (decimal ys)].
Proof.
  intros [Hd1 Hd2] [Hm1 Hm2] [Hy1 Hy2] Bd Bm By.
  change (ds +:+ "/" +:+ ms +:+ "/" +:+ ys)
    with (ds +:+ String "/" (ms +:+ String "/" ys)).
  rewrite split_first by (now apply digits_differ).
  rewrite split_first by (now apply digits_differ).
  rewrite split_whole by (now apply digits_differ).
  cbn [Array_map]. now rewrite !StringToNumber_digits.
Qed.

Lemma split_time (hs mis : string) :
  digits hs -> digits mis -> decimal hs < 2 ^ 53 -> decimal mis < 2 ^ 53 ->
  Array_map StringToNumber (split ":" (hs +:+ ":" +:+ mis)) =
  [of_Z (decimal hs); of_Z (decimal mis)].
Proof.
  intros [Hh1 Hh2] [Hm1 Hm2] Bh Bm.
  change (hs +:+ ":" +:+ mis) with (hs +:+ String ":" mis).
  rewrite split_first by (now apply digits_differ).
  rewrite split_whole by (now apply digits_differ).
  cbn [Array_map]. now rewrite !StringToNumber_digits.
Qed.

Lemma parse_date_valid (ds ms ys : string) :
  digits ds -> digits ms -> digits ys ->
  100 <= decimal ys <= 9999 ->
  valid_date (decimal ys) (decimal ms) (decimal ds) ->
  parse_date (Str (ds +:+ "/" +:+ ms +:+ "/" +:+ ys)) =
  Ok (DateObj (Some (midnight (decimal ys) (decimal ms) (decimal ds)))).
Proof.
  intros Hd Hm Hy Hrange Hvalid. unfold parse_date.
  rewrite truthy_Str_append by apply Hd.
  unfold value_split. cbn [mbind result_bind].
  pose proof (valid_date_bounds _ _ _ Hvalid) as [Bm Bd].
  rewrite (split_date ds ms ys Hd Hm Hy) by lia.
  cbn [lookup list_lookup isNaN ToNumber_opt number_isNaN of_Z negb andb].
  fold (of_Z (decimal ys)). fold (of_Z (decimal ms)). fold (of_Z (decimal ds)).
  now rewrite (UTC3_valid _ _ _ Hrange Hvalid).
Qed.

Lemma parse_time_valid (h : host) (hs mis : string) :
  digits hs -> digits mis -> valid_time (decimal hs) (decimal mis) ->
  parse_time h (Str (hs +:+ ":" +:+ mis)) =
  Ok (Str (two_digits (decimal hs) +:+ ":" +:+ two_digits (decimal mis))).
Proof.
  intros Hh Hm [Hhr Hmr]. unfold parse_time.
  rewrite truthy_Str_append by apply Hh.
  unfold value_split. cbn [mbind result_bind].
  rewrite (split_time hs mis Hh Hm) by lia.
  cbn [lookup list_lookup isNaN ToNumber_opt number_isNaN of_Z negb andb].
  fold (of_Z (decimal hs)). fold (of_Z (decimal mis)).
  now rewrite !padStart2_below_100 by lia.
Qed.

(** A component is read as the binary64 value [Number] gives it: a month
    written with twenty digits that round to 2 is February. *)
Example rounded_month_component :
  parse_date (Str "25/1.9999999999999999999/2024") =
  Ok (DateObj (Some (midnight 2024 2 25))).
Proof. vm_compute. reflexivity. Qed.

Lemma or_else_truthy (x y : value) : truthy x = true -> or_else x y = x.
Proof. intros H. unfold or_else. now rewrite H. Qed.

Lemma truthy_Str (s : string) : s <> EmptyString -> truthy (Str s) = true.
Proof. destruct s; [congruence | reflexivity]. Qed.

(** C2, as stated, fails: for 25/12/2024 with 20:00 the timestamp of the
    row is midnight, 2024-12-25T00:00:00Z, whose hour is 0; it is not the
    instant 2024-12-25T20:00:00Z. The time is kept apart, as a string. *)
Lemma christmas_date_is_midnight :
  normalize_row host_salvador row_christmas =
    Ok {| evento := Str "Show de Natal";
          date := DateObj (Some 1735084800000);
          time := Str "20:00";
          local := Str "Pelourinho";
          tipo_evento := Str "Show";
          url := Str "https://example.org";
          flyer := Str "poster.jpg" |} /\
  HourFromTime 1735084800000 = 0 /\
  UTC6 (of_Z 2024) (of_Z 11) (of_Z 25) (of_Z 20) (of_Z 0) (of_Z 0) = Some 1735156800000 /\
  1735084800000 <> 1735156800000.
Proof. repeat split; try reflexivity. discriminate. Qed.

(** C2, amended. For a row whose date cell holds a calendar day [D/M/Y]
    written in digits, with a year from 100 to 9999, and whose time cell
    holds a time [H:MI] written in digits, the normalizer produces a record
    whose date is the UTC timestamp of midnight of that day - its UTC year,
    month and day are those of the input, its hour, minute and second are
    0 - and whose time is the string of the two-digit hour, a colon and the
    two-digit minute of the input. *)
Theorem normalize_row_valid_date_time
    (h : host) (r : row) (ds ms ys hs mis : string) :
  digits ds -> digits ms -> digits ys -> digits hs -> digits mis ->
  100 <= decimal ys <= 9999 ->
  valid_date (decimal ys) (decimal ms) (decimal ds) ->
  valid_time (decimal hs) (decimal mis) ->
  cell_v (c r) 1 = Str (ds +:+ "/" +:+ ms +:+ "/" +:+ ys) ->
  cell_v (c r) 2 = Str (hs +:+ ":" +:+ mis) ->
  exists rec t,
    normalize_row h r = Ok rec /\
    date rec = DateObj (Some t) /\
    has_utc_fields t (decimal ys) (decimal ms) (decimal ds) 0 0 0 /\
    time rec = Str (two_digits (decimal hs) +:+ ":" +:+ two_digits (decimal mis)).
Proof.
  intros Hd Hm Hy Hh Hmi Hrange Hvalid Htime Hc1 Hc2.
  unfold normalize_row. rewrite Hc1, Hc2.
  rewrite (or_else_truthy (Str (ds +:+ "/" +:+ ms +:+ "/" +:+ ys)))
    by (apply truthy_Str_append, Hd).
  rewrite (or_else_truthy (Str (hs +:+ ":" +:+ mis)))
    by (apply truthy_Str_append, Hh).
  rewrite (parse_date_valid ds ms ys Hd Hm Hy Hrange Hvalid).
  rewrite (parse_time_valid h hs mis Hh Hmi Htime).
  cbn [mbind result_bind].
  eexists _, _. split; [reflexivity|]. cbn [date time].
  split; [reflexivity|]. split; [|reflexivity].
  now apply midnight_fields.
Qed.

Lemma normalize_row_valid_date_time_witness :
  exists rec t,
    normalize_row host_salvador row_christmas = Ok rec /\
    date rec = DateObj (Some t) /\
    has_utc_fields t (decimal "2024") (decimal "12") (decimal "25") 0 0 0 /\
    time rec = Str (two_digits (decimal "20") +:+ ":" +:+ two_digits (decimal "00")).
Proof.
  apply (normalize_row_valid_date_time host_salvador row_christmas
           "25" "12" "2024" "20" "00");
    try (split; [discriminate | reflexivity]);
    try reflexivity;
    vm_compute; intuition discriminate.
Defined.

(** *** One record per row *)

Lemma isNaN_component (l : list string) (i : nat) :
  isNaN (Array_map StringToNumber l !! i) = true <-> non_numeric (l !! i).
Proof.
  rewrite Array_map_spec, list_lookup_fmap. unfold isNaN, non_numeric.
  destruct (l !! i) as [x|]; simpl; [|tauto].
  destruct (StringToNumber x); simpl; split; congruence.
Qed.

Lemma parse_date_Str (s : string) :
  parse_date (Str s) =
  Ok (if truthy (Str s) &&
         negb (isNaN (Array_map StringToNumber (split "/" s) !! 0%nat)) &&
         negb (isNaN (Array_map StringToNumber (split "/" s) !! 1%nat)) &&
         negb (isNaN (Array_map StringToNumber (split "/" s) !! 2%nat))
      then DateObj (UTC3
             (ToNumber_opt (Array_map StringToNumber (split "/" s) !! 2%nat))
             (minus_one (ToNumber_opt (Array_map StringToNumber (split "/" s) !! 1%nat)))
             (ToNumber_opt (Array_map StringToNumber (split "/" s) !! 0%nat)))
      else Null).
Proof.
  unfold parse_date. destruct (truthy (Str s)); [|reflexivity].
  cbn [value_split mbind result_bind andb].
  destruct (negb _ && negb _ && negb _); reflexivity.
Qed.

Lemma parse_date_textual (x : value) :
  textual x -> exists d, parse_date (or_else x (Str "")) = Ok d.
Proof.
  intros [Hx | [s ->]].
  - unfold or_else. rewrite Hx. now exists Null.
  - unfold or_else. destruct (truthy (Str s)); rewrite parse_date_Str; eauto.
Qed.

Lemma parse_time_textual (h : host) (x : value) :
  textual x -> exists d, parse_time h (or_else x (Str "")) = Ok d.
Proof.
  assert (forall s, exists d, parse_time h (Str s) = Ok d) as Hstr.
  { intros s. unfold parse_time. destruct (truthy (Str s)); [|eauto].
    cbn [value_split mbind result_bind]. destruct (negb _ && negb _); eauto. }
  intros [Hx | [s ->]].
  - unfold or_else. rewrite Hx. apply Hstr.
  - unfold or_else. destruct (truthy (Str s)); apply Hstr.
Qed.

(** A readable row becomes a record whose fields other than the date and
    the time are the raw values of its cells, [null] for an empty one. *)
Lemma normalize_row_readable (h : host) (r : row) :
  readable r ->
  exists d t,
    parse_date (or_else (cell_v (c r) 1) (Str "")) = Ok d /\
    parse_time h (or_else (cell_v (c r) 2) (Str "")) = Ok t /\
    normalize_row h r =
      Ok {| evento := or_else (cell_v (c r) 0) Null;
            date := d;
            time := t;
            local := or_else (cell_v (c r) 3) Null;
            tipo_evento := or_else (cell_v (c r) 4) Null;
            url := or_else (cell_v (c r) 5) Null;
            flyer := or_else (cell_v (c r) 6) Null |}.
Proof.
  intros [Hd Ht].
  destruct (parse_date_textual _ Hd) as [d Hpd].
  destruct (parse_time_textual h _ Ht) as [t Hpt].
  exists d, t. split; [exact Hpd|]. split; [exact Hpt|].
  unfold normalize_row. now rewrite Hpd, Hpt.
Qed.

(** C7, as stated, fails: a date cell that holds a number makes the
    callback throw, the traversal of the rows stops, and the three rows
    yield no record at all; the call returns the empty sequence. An empty
    date component is no number either, yet it counts as 0 and the date is
    not [null]. *)
Lemma numeric_date_cell_aborts_table :
  Array_map_throwing (normalize_row host_salvador) rows_one_numeric = Throw TypeError /\
  fst (getGoogleSheetData
         (host_with_table {| cols := []; rows := rows_one_numeric |})
         "sheet" "0" (initial_state 0)) = Ok [] /\
  parse_date (Str "/12/2024") = Ok (DateObj (Some 1732924800000)).
Proof. repeat split; reflexivity. Qed.

(** C7, amended. On a table whose date and time cells are strings or
    empty, the normalizer produces one record per row, each from its own
    row alone. In such a row, when one of the first three components of
    the date string is missing or converts to NaN, the date of the record
    is [null], and the other fields are populated as for any row: the time
    from the time cell, the rest from the raw values. When none is, the
    date is a [Date]. A table of three rows of which one has a malformed
    date yields three records, of which that one alone has a [null] date. *)
Theorem one_record_per_readable_row (h : host) (table_rows : list row) :
  Forall readable table_rows ->
  (exists records,
     Array_map_throwing (normalize_row h) table_rows = Ok records /\
     length records = length table_rows /\
     forall i r, table_rows !! i = Some r ->
       exists rec, normalize_row h r = Ok rec /\ records !! i = Some rec) /\
  (forall r s, r ∈ table_rows -> cell_v (c r) 1 = Str s ->
     exists rec t,
       normalize_row h r = Ok rec /\
       parse_time h (or_else (cell_v (c r) 2) (Str "")) = Ok t /\
       time rec = t /\
       evento rec = or_else (cell_v (c r) 0) Null /\
       local rec = or_else (cell_v (c r) 3) Null /\
       tipo_evento rec = or_else (cell_v (c r) 4) Null /\
       url rec = or_else (cell_v (c r) 5) Null /\
       flyer rec = or_else (cell_v (c r) 6) Null /\
       (non_numeric (component s 0) \/ non_numeric (component s 1) \/
        non_numeric (component s 2) -> date rec = Null) /\
       (s <> EmptyString ->
        ~ non_numeric (component s 0) -> ~ non_numeric (component s 1) ->
        ~ non_numeric (component s 2) -> exists tv, date rec = DateObj tv)) /\
  (exists d1 d3 : Z,
     Array_map_throwing (normalize_row h) rows_one_malformed =
     Ok [ {| evento := Str "Abertura"; date := DateObj (Some d1); time := Str "19:30";
             local := Str "Pelourinho"; tipo_evento := Str "Show"; url := Null;
             flyer := Str "poster.jpg" |};
          {| evento := Str "Show de Natal"; date := Null; time := Str "20:00";
             local := Str "Pelourinho"; tipo_evento := Str "Show"; url := Null;
             flyer := Str "poster.jpg" |};
          {| evento := Str "Encerramento"; date := DateObj (Some d3); time := Str "08:05";
             local := Str "Pelourinho"; tipo_evento := Str "Show"; url := Null;
             flyer := Str "poster.jpg" |} ]).
Proof.
  intros Hall. split; [|split].
  - assert (exists records, Array_map_throwing (normalize_row h) table_rows = Ok records)
      as [records Hrec].
    { induction Hall as [|r l Hr _ [ys Hys]]; [now exists []|].
      destruct (normalize_row_readable h r Hr) as (d & t & _ & _ & Hn).
      simpl. rewrite Hn, Hys. cbn [mbind result_bind]. eauto. }
    exists records. split; [exact Hrec|].
    split; [now apply Array_map_throwing_length in Hrec|].
    intros i r Hi. apply Array_map_throwing_Ok in Hrec.
    destruct (Forall2_lookup_l _ _ _ _ _ Hrec Hi) as (rec & Hrec_i & Hn). eauto.
  - intros r s Hr Hs.
    assert (readable r) as Hread by (rewrite Forall_forall in Hall; now apply Hall).
    destruct (normalize_row_readable h r Hread) as (d & t & Hpd & Hpt & Hn).
    eexists _, t. split; [exact Hn|]. split; [exact Hpt|].
    cbn [evento date time local tipo_evento url flyer].
    repeat (split; [reflexivity|]).
    rewrite Hs in Hpd. unfold or_else in Hpd.
    assert (parse_date (Str s) = Ok d) as Hpd'.
    { destruct (truthy (Str s)) eqn:Hts; [exact Hpd|].
      rewrite parse_date_Str, Hts. rewrite parse_date_Str in Hpd. exact Hpd. }
    clear Hpd. rewrite parse_date_Str in Hpd'. injection Hpd' as <-.
    unfold component. split.
    + intros Hnan.
      assert (isNaN (Array_map StringToNumber (split "/" s) !! 0%nat) = true \/
              isNaN (Array_map StringToNumber (split "/" s) !! 1%nat) = true \/
              isNaN (Array_map StringToNumber (split "/" s) !! 2%nat) = true) as H.
      { rewrite !isNaN_component. exact Hnan. }
      destruct H as [-> | [-> | ->]]; simpl; rewrite ?andb_false_r; reflexivity.
    + intros Hne H0 H1 H2.
      rewrite <- isNaN_component in H0, H1, H2.
      apply not_true_is_false in H0, H1, H2. rewrite H0, H1, H2.
      pose proof (truthy_Str s Hne) as Hts. simpl in Hts. rewrite Hts. simpl. eauto.
  - eexists _, _. vm_compute. reflexivity.
Qed.

Lemma one_record_per_readable_row_witness :
  exists records,
    Array_map_throwing (normalize_row host_salvador) rows_one_malformed = Ok records /\
    length records = length rows_one_malformed /\
    forall i r, rows_one_malformed !! i = Some r ->
      exists rec, normalize_row host_salvador r = Ok rec /\ records !! i = Some rec.
Proof.
  apply (one_record_per_readable_row host_salvador rows_one_malformed).
  unfold rows_one_malformed.
  constructor; [split; right; eexists; reflexivity|].
  constructor; [split; right; eexists; reflexivity|].
  constructor; [split; right; eexists; reflexivity|].
  constructor.
Defined.

End NormalizerFacts.

(** ** The sheet client: failure, cache and versions *)

Module SheetFacts.
Import GoogleSheets SheetSpec Fixtures.

Lemma getGoogleSheetData_success h sheetId gid st rows :
  fetch_decode_transform h sheetId gid = Ok rows ->
  getGoogleSheetData h sheetId gid st =
    (Ok rows, refreshed h (cacheKey sheetId gid) rows st).
Proof.
  intros H. unfold getGoogleSheetData, try_M, mbind, M_bind, lift. rewrite H. reflexivity.
Qed.

Lemma getGoogleSheetData_failure h sheetId gid st e :
  fetch_decode_transform h sheetId gid = Throw e ->
  getGoogleSheetData h sheetId gid st =
    (Ok (cached_or_empty (cacheKey sheetId gid) (cache st)), st).
Proof.
  intros H. unfold getGoogleSheetData, try_M, mbind, M_bind, lift. rewrite H. reflexivity.
Qed.

(** The call returns in every case. *)
Lemma getGoogleSheetData_never_throws h sheetId gid st :
  exists rows, fst (getGoogleSheetData h sheetId gid st) = Ok rows.
Proof.
  destruct (fetch_decode_transform h sheetId gid) as [rows|e] eqn:H.
  - rewrite (getGoogleSheetData_success _ _ _ _ _ H). eauto.
  - rewrite (getGoogleSheetData_failure _ _ _ _ _ H). eauto.
Qed.

Lemma fetch_decode_transform_throws h sheetId gid :
  fetch_fails h sheetId gid \/ decode_fails h sheetId gid \/ transform_fails h sheetId gid ->
  exists e, fetch_decode_transform h sheetId gid = Throw e.
Proof.
  unfold fetch_fails, decode_fails, transform_fails, fetch_decode_transform.
  intros [H | [(text & H1 & H2) | (text & json & r & e & H1 & H2 & Hr & He)]].
  - rewrite H. simpl. eauto.
  - rewrite H1. simpl. rewrite H2. simpl. eauto.
  - rewrite H1. simpl. rewrite H2. simpl.
    destruct (Array_map_throwing (normalize_row h) (rows json)) as [ys|e'] eqn:Hm; [|eauto].
    apply Array_map_throwing_Ok in Hm.
    apply list_elem_of_lookup in Hr as [i Hi].
    destruct (Forall2_lookup_l _ _ _ _ _ Hm Hi) as (y & _ & Hy). congruence.
Qed.

Lemma fetch_decode_transform_throws_inv h sheetId gid e :
  fetch_decode_transform h sheetId gid = Throw e ->
  fetch_fails h sheetId gid \/ decode_fails h sheetId gid \/ transform_fails h sheetId gid.
Proof.
  unfold fetch_fails, decode_fails, transform_fails, fetch_decode_transform.
  destruct (fetch_text h (sheet_url sheetId gid)) as [text|] eqn:H1; [|now left].
  simpl. destruct (JSON_parse h (strip_framing text)) as [json|] eqn:H2; simpl.
  - intros H. right. right.
    apply Array_map_throwing_Throw in H as (l1 & x & l2 & ys & Hl & _ & Hx).
    exists text, json, x, e. repeat split; try assumption.
    rewrite Hl. apply elem_of_app. right. left.
  - intros _. right. left. eauto.
Qed.

(** The decoder cuts the framing off exactly. *)
Lemma drop_chars_append (a b : string) : drop_chars (String.length a) (a +:+ b) = b.
Proof. induction a as [|ch a IH]; [reflexivity | exact IH]. Qed.

Lemma string_rev_append (acc a b : string) :
  string_rev acc (a +:+ b) = string_rev (string_rev acc a) b.
Proof.
  revert acc. induction a as [|ch a IH]; intros acc; [reflexivity | apply IH].
Qed.

Lemma strip_framing_framed (prefix payload : string) :
  String.length prefix = 47%nat ->
  strip_framing (prefix +:+ payload +:+ ");") = payload.
Proof.
  intros Hlen. unfold strip_framing, substring_from, slice_drop_last.
  rewrite <- Hlen, drop_chars_append, string_rev_append. simpl.
  apply string_rev_involutive.
Qed.

Example strip_framing_response :
  strip_framing (RESPONSE_PREFIX +:+ "{...}" +:+ RESPONSE_SUFFIX) = "{...}".
Proof. reflexivity. Qed.

(** C3. When the fetch fails, or the text does not decode (as when what
    remains after the prefix and suffix are cut off is not JSON), the call
    does not throw: it returns the rows cached under the key of
    [(sheetId, gid)] when the cache has an entry there, and the empty
    sequence otherwise. *)
Theorem getGoogleSheetData_fails_soft
    (h : host) (st : module_state) (sheetId gid : string) :
  fetch_fails h sheetId gid \/ decode_fails h sheetId gid ->
  fst (getGoogleSheetData h sheetId gid st) =
    Ok (match cache st !! cacheKey sheetId gid with
        | Some e => data e
        | None => []
        end).
Proof.
  intros H.
  destruct (fetch_decode_transform_throws h sheetId gid) as [e He]; [tauto|].
  rewrite (getGoogleSheetData_failure _ _ _ _ _ He). reflexivity.
Qed.

(** C9. A call in which the fetch, the decoding or the transformation of a
    row throws leaves the module state as it found it: the same cache, the
    same version counter, the same last-modified stamp. A call that changes
    the state is one whose fetch, decoding and transformation all
    succeeded. *)
Theorem getGoogleSheetData_failure_keeps_state
    (h : host) (st : module_state) (sheetId gid : string) :
  let st' := snd (getGoogleSheetData h sheetId gid st) in
  (fetch_fails h sheetId gid \/ decode_fails h sheetId gid \/ transform_fails h sheetId gid ->
   cache st' = cache st /\
   currentVersion st' = currentVersion st /\
   lastModified st' = lastModified st) /\
  (st' <> st -> exists rows, fetch_decode_transform h sheetId gid = Ok rows).
Proof.
  simpl. split.
  - intros H. destruct (fetch_decode_transform_throws h sheetId gid H) as [e He].
    rewrite (getGoogleSheetData_failure _ _ _ _ _ He). simpl. auto.
  - intros Hne. destruct (fetch_decode_transform h sheetId gid) as [rows|e] eqn:H; [eauto|].
    rewrite (getGoogleSheetData_failure _ _ _ _ _ H) in Hne. simpl in Hne. congruence.
Qed.

(** ** Versions along the life of the module *)

Lemma getGoogleSheetData_state h sheetId gid st :
  snd (getGoogleSheetData h sheetId gid st) = st \/
  exists rows, snd (getGoogleSheetData h sheetId gid st) =
               refreshed h (cacheKey sheetId gid) rows st.
Proof.
  destruct (fetch_decode_transform h sheetId gid) as [rows|e] eqn:H.
  - right. exists rows. now rewrite (getGoogleSheetData_success _ _ _ _ _ H).
  - left. now rewrite (getGoogleSheetData_failure _ _ _ _ _ H).
Qed.

Lemma refreshed_bounded h key rows st :
  versions_bounded st -> versions_bounded (refreshed h key rows st).
Proof.
  intros Hb k e. simpl. rewrite lookup_insert. case_decide.
  - intros [= <-]. simpl. lia.
  - intros He. apply Hb in He. lia.
Qed.

Lemma handleWebhookUpdate_state h sheetId gid st :
  snd (handleWebhookUpdate h sheetId gid st) =
  snd (getGoogleSheetData h sheetId gid (invalidated (cacheKey sheetId gid) st)).
Proof. reflexivity. Qed.

Lemma invalidated_bounded key st :
  versions_bounded st -> versions_bounded (invalidated key st).
Proof.
  intros Hb k e. simpl. rewrite lookup_delete. case_decide; [discriminate|].
  apply Hb.
Qed.

Lemma after_call_bounded k st :
  versions_bounded st -> versions_bounded (after_call k st).
Proof.
  intros Hb. destruct k as [h sheetId gid | h sheetId gid]; simpl.
  - destruct (getGoogleSheetData_state h sheetId gid st) as [-> | [rows ->]];
      [exact Hb | now apply refreshed_bounded].
  - rewrite handleWebhookUpdate_state.
    destruct (getGoogleSheetData_state h sheetId gid
                (invalidated (cacheKey sheetId gid) st)) as [-> | [rows ->]].
    + now apply invalidated_bounded.
    + now apply refreshed_bounded, invalidated_bounded.
Qed.

Lemma after_call_counter k st :
  currentVersion st <= currentVersion (after_call k st).
Proof.
  destruct k as [h sheetId gid | h sheetId gid]; simpl.
  - destruct (getGoogleSheetData_state h sheetId gid st) as [-> | [rows ->]]; simpl; lia.
  - rewrite handleWebhookUpdate_state.
    destruct (getGoogleSheetData_state h sheetId gid
                (invalidated (cacheKey sheetId gid) st)) as [-> | [rows ->]]; simpl; lia.
Qed.

Lemma later_counter st st' :
  later st st' -> currentVersion st <= currentVersion st'.
Proof.
  induction 1 as [|st' k _ IH]; [lia|].
  pose proof (after_call_counter k st'). lia.
Qed.

Lemma later_bounded st st' :
  versions_bounded st -> later st st' -> versions_bounded st'.
Proof. intros Hb. induction 1; [exact Hb | now apply after_call_bounded]. Qed.

Lemma reachable_bounded st : reachable st -> versions_bounded st.
Proof.
  intros [t0 H]. eapply later_bounded; [|exact H].
  intros key e. simpl. rewrite lookup_empty. discriminate.
Qed.

(** C6. After a successful refresh has stored rows under a key, reading
    the key gives those rows, with a version above the version of every
    entry the cache held under that key at any earlier moment of the
    module's life; the version counter went up by the refresh and had not
    gone down before it. *)
Theorem refresh_then_get
    (h : host) (sheetId gid : string) (rows : list event_row)
    (st0 st1 : module_state) :
  reachable st0 ->
  later st0 st1 ->
  fetch_decode_transform h sheetId gid = Ok rows ->
  let key := cacheKey sheetId gid in
  let st2 := snd (getGoogleSheetData h sheetId gid st1) in
  fst (getGoogleSheetData h sheetId gid st1) = Ok rows /\
  (exists e, cache st2 !! key = Some e /\
             data e = rows /\
             version e = currentVersion st2 /\
             forall e0, cache st0 !! key = Some e0 -> version e0 < version e) /\
  currentVersion st0 <= currentVersion st1 /\
  currentVersion st1 < currentVersion st2.
Proof.
  intros Hreach Hlater Hok key st2. subst st2.
  rewrite (getGoogleSheetData_success _ _ _ _ _ Hok). simpl.
  pose proof (later_counter _ _ Hlater) as Hmono.
  split; [reflexivity|]. split; [|lia].
  eexists. rewrite lookup_insert_eq. split; [reflexivity|]. simpl.
  split; [reflexivity|]. split; [reflexivity|].
  intros e0 He0. apply (reachable_bounded _ Hreach) in He0. lia.
Qed.

Example sign_in_page_returns_cached_rows :
  fst (getGoogleSheetData host_sign_in_page "sheet" "0" state_with_entry) = Ok [one_event].
Proof. reflexivity. Qed.

Example sign_in_page_returns_empty_without_entry :
  fst (getGoogleSheetData host_sign_in_page "sheet" "0" (initial_state 0)) = Ok [].
Proof. reflexivity. Qed.

Lemma getGoogleSheetData_fails_soft_witness :
  decode_fails host_sign_in_page "sheet" "0" /\
  fst (getGoogleSheetData host_sign_in_page "sheet" "0" state_with_entry) =
    Ok (match cache state_with_entry !! cacheKey "sheet" "0" with
        | Some e => data e
        | None => []
        end).
Proof.
  assert (decode_fails host_sign_in_page "sheet" "0") as H
    by (eexists; split; reflexivity).
  split; [exact H|].
  apply (getGoogleSheetData_fails_soft host_sign_in_page state_with_entry "sheet" "0").
  right. exact H.
Defined.

Lemma getGoogleSheetData_failure_keeps_state_witness :
  decode_fails host_sign_in_page "sheet" "0" /\
  cache (snd (getGoogleSheetData host_sign_in_page "sheet" "0" state_with_entry)) =
    cache state_with_entry /\
  currentVersion (snd (getGoogleSheetData host_sign_in_page "sheet" "0" state_with_entry)) =
    currentVersion state_with_entry /\
  lastModified (snd (getGoogleSheetData host_sign_in_page "sheet" "0" state_with_entry)) =
    lastModified state_with_entry.
Proof.
  assert (decode_fails host_sign_in_page "sheet" "0") as H
    by (eexists; split; reflexivity).
  split; [exact H|].
  apply (proj1 (getGoogleSheetData_failure_keeps_state
                  host_sign_in_page state_with_entry "sheet" "0")).
  right. left. exact H.
Defined.

Lemma refresh_then_get_witness :
  reachable (initial_state 0) /\
  later (initial_state 0) state_with_entry /\
  fetch_decode_transform host_one_row "sheet" "0" = Ok [one_event] /\
  fst (getGoogleSheetData host_one_row "sheet" "0" state_with_entry) = Ok [one_event] /\
  currentVersion state_with_entry <
    currentVersion (snd (getGoogleSheetData host_one_row "sheet" "0" state_with_entry)).
Proof.
  assert (reachable (initial_state 0)) as Hreach by (exists 0; constructor).
  assert (later (initial_state 0) state_with_entry) as Hlater.
  { exact (later_step (initial_state 0) (initial_state 0)
             (CallGet host_one_row "sheet" "0") (later_refl _)). }
  assert (fetch_decode_transform host_one_row "sheet" "0" = Ok [one_event]) as Hok
    by reflexivity.
  split; [exact Hreach|]. split; [exact Hlater|]. split; [exact Hok|].
  pose proof (refresh_then_get host_one_row "sheet" "0" [one_event]
                (initial_state 0) state_with_entry Hreach Hlater Hok) as H.
  split; [apply H | apply H].
Defined.

End SheetFacts.

(** ** The merge: [filterNewEvents] *)

Module ScraperFacts.
Import GoogleSheets Scraper MergeSpec MergeFixtures.

Lemma strict_eq_string_true (x : value) (s : string) :
  strict_eq_string x s = true <-> x = Str s.
Proof.
  destruct x; simpl; try (split; [discriminate | intros [=]]).
  rewrite String.eqb_eq. split; [intros -> | intros [= ->]]; reflexivity.
Qed.

(** A stored [Date] is never strictly equal to a scraped start, whatever
    instant it holds. *)
Lemma strict_eq_string_DateObj (tv : option Z) (s : string) :
  strict_eq_string (DateObj tv) s = false.
Proof. reflexivity. Qed.

Lemma same_event_true e x : same_event e x = true <-> duplicates e x.
Proof.
  unfold same_event, duplicates. rewrite andb_true_iff, !strict_eq_string_true.
  reflexivity.
Qed.

Lemma is_new_false existing e : is_new existing e = false <-> duplicated existing e.
Proof.
  unfold is_new, duplicated. rewrite negb_false_iff, Array_some_true.
  split; intros (x & Hx & Hd); exists x; (split; [exact Hx|]); now apply same_event_true.
Qed.

Lemma is_new_true existing e : is_new existing e = true <-> ~ duplicated existing e.
Proof.
  rewrite <- is_new_false. destruct (is_new existing e); split; congruence.
Qed.

Lemma filterNewEvents_unfold scraped existing :
  filterNewEvents scraped existing =
  to_sheet_row <$> filter (fun e => is_new existing e = true) scraped.
Proof.
  unfold filterNewEvents. now rewrite Array_map_spec, Array_filter_spec.
Qed.

Lemma to_sheet_row_remapped (e : EventData) : remapped e (to_sheet_row e).
Proof.
  unfold remapped, to_sheet_row. cbn. repeat (split; [reflexivity|]).
  destruct (registrationLink e); reflexivity.
Qed.

(** A row is determined by its event. *)
Lemma remapped_unique (e : EventData) (r r' : sheet_row) :
  remapped e r -> remapped e r' -> r = r'.
Proof.
  destruct r, r'. unfold remapped. cbn.
  intros (-> & -> & -> & -> & -> & -> & -> & ->) (-> & -> & -> & -> & -> & -> & -> & ->).
  reflexivity.
Qed.

Lemma delta_of_one (existing : list existing_event) (e : EventData) :
  (duplicated existing e -> filterNewEvents [e] existing = []) /\
  (~ duplicated existing e ->
   exists r, filterNewEvents [e] existing = [r] /\ remapped e r).
Proof.
  unfold filterNewEvents. cbn [Array_filter Array_map]. split; intros H.
  - apply is_new_false in H. now rewrite H.
  - apply is_new_true in H. rewrite H. eexists. split; [reflexivity|].
    apply to_sheet_row_remapped.
Qed.

(** C4. The delta leaves out a scraped event exactly when some canonical
    record has the event's name and the event's start as its own name and
    start, both strings: the rows of the delta are the rows of the scraped
    events no canonical record duplicates; a scraped event alone yields
    the empty delta when some record duplicates it and its own row
    otherwise; and against one record of name [name] and start [start] an
    event is left out when its name is [name] and its start is [start],
    and kept when its name or its start differs. *)
Theorem filterNewEvents_excludes_exactly_duplicates
    (scraped : list EventData) (existing : list existing_event) :
  (exists kept,
     Forall2 remapped kept (filterNewEvents scraped existing) /\
     forall e, e ∈ kept <->
       e ∈ scraped /\
       ~ exists x, x ∈ existing /\
                   evento x = Str (eventName e) /\
                   horario_de_inicio x = Str (startDate e)) /\
  (forall e,
     ((exists x, x ∈ existing /\
                 evento x = Str (eventName e) /\
                 horario_de_inicio x = Str (startDate e)) ->
      filterNewEvents [e] existing = []) /\
     ((~ exists x, x ∈ existing /\
                   evento x = Str (eventName e) /\
                   horario_de_inicio x = Str (startDate e)) ->
      exists r, filterNewEvents [e] existing = [r] /\ remapped e r)) /\
  (forall e name start,
     (eventName e = name /\ startDate e = start ->
      filterNewEvents [e] [ {| evento := Str name; horario_de_inicio := Str start |} ] = []) /\
     (eventName e <> name \/ startDate e <> start ->
      exists r,
        filterNewEvents [e] [ {| evento := Str name; horario_de_inicio := Str start |} ] = [r] /\
        remapped e r)).
Proof.
  split; [|split].
  - exists (filter (fun e => is_new existing e = true) scraped). split.
    + rewrite filterNewEvents_unfold. apply Forall2_fmap_r, Forall_Forall2_diag.
      apply Forall_forall. intros e _. apply to_sheet_row_remapped.
    + intros e. rewrite list_elem_of_filter, is_new_true. unfold duplicated, duplicates.
      tauto.
  - intros e. exact (delta_of_one existing e).
  - intros e name start. split.
    + intros [Hn Hs]. apply (proj1 (delta_of_one _ e)).
      eexists. split; [left|]. unfold duplicates. cbn. now rewrite Hn, Hs.
    + intros Hdiff. apply (proj2 (delta_of_one _ e)).
      intros (x & Hx & Hname & Hstart). apply list_elem_of_singleton in Hx. subst x.
      cbn in Hname, Hstart. destruct Hdiff as [Hd | Hd]; apply Hd; congruence.
Qed.

Example show_x_excluded :
  filterNewEvents [show_x "Show X" "2024-01-01T20:00:00Z"] canonical_show_x = [].
Proof. reflexivity. Qed.

Example show_x_other_name_included :
  filterNewEvents [show_x "Show Y" "2024-01-01T20:00:00Z"] canonical_show_x =
  [to_sheet_row (show_x "Show Y" "2024-01-01T20:00:00Z")].
Proof. reflexivity. Qed.

Example show_x_other_start_included :
  filterNewEvents [show_x "Show X" "2024-01-01T21:00:00Z"] canonical_show_x =
  [to_sheet_row (show_x "Show X" "2024-01-01T21:00:00Z")].
Proof. reflexivity. Qed.

(** The same instant stored as a [Date] is another representation. *)
Example show_x_stored_as_Date_included :
  filterNewEvents [show_x "Show X" "2024-01-01T20:00:00Z"]
    [ {| evento := Str "Show X"; horario_de_inicio := DateObj (Some 1704139200000) |} ] =
  [to_sheet_row (show_x "Show X" "2024-01-01T20:00:00Z")].
Proof. reflexivity. Qed.

Lemma filterNewEvents_excludes_exactly_duplicates_witness :
  filterNewEvents [show_x "Show X" "2024-01-01T20:00:00Z"] canonical_show_x = [] /\
  (exists r,
     filterNewEvents [show_x "Show Y" "2024-01-01T20:00:00Z"] canonical_show_x = [r] /\
     remapped (show_x "Show Y" "2024-01-01T20:00:00Z") r) /\
  (exists r,
     filterNewEvents [show_x "Show X" "2024-01-01T21:00:00Z"] canonical_show_x = [r] /\
     remapped (show_x "Show X" "2024-01-01T21:00:00Z") r).
Proof.
  split; [|split].
  - apply (proj1 (proj2 (proj2 (filterNewEvents_excludes_exactly_duplicates [] []))
                   (show_x "Show X" "2024-01-01T20:00:00Z")
                   "Show X" "2024-01-01T20:00:00Z")).
    split; reflexivity.
  - apply (proj2 (proj2 (proj2 (filterNewEvents_excludes_exactly_duplicates [] []))
                   (show_x "Show Y" "2024-01-01T20:00:00Z")
                   "Show X" "2024-01-01T20:00:00Z")).
    left. discriminate.
  - apply (proj2 (proj2 (proj2 (filterNewEvents_excludes_exactly_duplicates [] []))
                   (show_x "Show X" "2024-01-01T21:00:00Z")
                   "Show X" "2024-01-01T20:00:00Z")).
    right. discriminate.
Defined.

Lemma non_duplicates_filter (existing : list existing_event) (scraped : list EventData) :
  non_duplicates existing scraped (Array_filter (is_new existing) scraped).
Proof.
  induction scraped as [|e scraped IH]; cbn [Array_filter]; [constructor|].
  destruct (is_new existing e) eqn:He.
  - apply non_duplicates_keep; [now apply is_new_true | exact IH].
  - apply non_duplicates_drop; [now apply is_new_false | exact IH].
Qed.

(** The subsequence of the events that are not duplicated is one list. *)
Lemma non_duplicates_unique (existing : list existing_event)
    (scraped kept kept' : list EventData) :
  non_duplicates existing scraped kept -> non_duplicates existing scraped kept' ->
  kept = kept'.
Proof.
  intros H. revert kept'. induction H as [|e l k Hn _ IH|e l k Hd _ IH]; intros kept' H'.
  - now inversion H'.
  - inversion H'; subst; [f_equal; now apply IH | contradiction].
  - inversion H'; subst; [contradiction | now apply IH].
Qed.

Lemma non_duplicates_sublist (existing : list existing_event)
    (scraped kept : list EventData) :
  non_duplicates existing scraped kept -> sublist kept scraped.
Proof. induction 1; now constructor. Qed.

Lemma alloc_fresh (a : array) (h : heap) :
  h !! (alloc a h).1 = None /\
  (alloc a h).2 !! (alloc a h).1 = Some a /\
  forall l b, h !! l = Some b -> (alloc a h).2 !! l = Some b.
Proof.
  unfold alloc. cbv zeta. cbn [fst snd].
  assert (h !! fresh (dom h) = None) as Hnew by (apply not_elem_of_dom, is_fresh).
  split; [exact Hnew|]. split; [apply lookup_insert_eq|].
  intros l b Hl. rewrite <- Hl. apply lookup_insert_ne. congruence.
Qed.

Lemma filterNewEvents_ref_spec
    (scraped : list EventData) (existing : list existing_event)
    (h : heap) (newEvents existingData : loc) :
  h !! newEvents = Some (Events scraped) ->
  h !! existingData = Some (Existing existing) ->
  exists delta h',
    filterNewEvents_ref newEvents existingData h = Some (delta, h') /\
    h' !! delta = Some (Rows (filterNewEvents scraped existing)) /\
    h !! delta = None /\
    forall l a, h !! l = Some a -> h' !! l = Some a.
Proof.
  intros Hn He. unfold filterNewEvents_ref. rewrite Hn, He.
  destruct (alloc_fresh (Events (Array_filter (is_new existing) scraped)) h)
    as (Hnew1 & Hget1 & Hold1).
  destruct (alloc (Events (Array_filter (is_new existing) scraped)) h) as [l1 h1].
  cbn [fst snd] in *. rewrite Hget1.
  destruct (alloc_fresh (Rows (Array_map to_sheet_row
                                 (Array_filter (is_new existing) scraped))) h1)
    as (Hnew2 & Hget2 & Hold2).
  destruct (alloc (Rows (Array_map to_sheet_row (Array_filter (is_new existing) scraped))) h1)
    as [l2 h2].
  cbn [fst snd] in *. exists l2, h2. split; [reflexivity|]. split; [exact Hget2|]. split.
  - destruct (h !! l2) as [a|] eqn:Hl2; [|reflexivity].
    apply Hold1 in Hl2. congruence.
  - intros l a Hl. apply Hold2, Hold1, Hl.
Qed.

(** C10. The delta is the scraped list with the duplicates dropped and
    nothing moved: it has, in scrape order, one row for each event of the
    subsequence of the scraped events that no canonical record
    duplicates; each row is the event in the sheet schema, its
    registration link the event's, or the empty string when the event has
    none. A call leaves every array of the heap as it was, the two
    argument arrays among them: the delta is a new array. *)
Theorem filterNewEvents_preserves_order
    (scraped : list EventData) (existing : list existing_event) :
  exists kept,
    non_duplicates existing scraped kept /\
    sublist kept scraped /\
    (forall e, e ∈ kept <-> e ∈ scraped /\ ~ duplicated existing e) /\
    Forall2 remapped kept (filterNewEvents scraped existing) /\
    forall (h : heap) (newEvents existingData : loc),
      h !! newEvents = Some (Events scraped) ->
      h !! existingData = Some (Existing existing) ->
      exists delta h',
        filterNewEvents_ref newEvents existingData h = Some (delta, h') /\
        h' !! delta = Some (Rows (filterNewEvents scraped existing)) /\
        h !! delta = None /\
        h' !! newEvents = Some (Events scraped) /\
        h' !! existingData = Some (Existing existing) /\
        forall l a, h !! l = Some a -> h' !! l = Some a.
Proof.
  exists (Array_filter (is_new existing) scraped).
  pose proof (non_duplicates_filter existing scraped) as Hnd.
  split; [exact Hnd|]. split; [exact (non_duplicates_sublist _ _ _ Hnd)|]. split; [|split].
  - intros e. rewrite Array_filter_spec, list_elem_of_filter, is_new_true. tauto.
  - unfold filterNewEvents. rewrite Array_map_spec.
    apply Forall2_fmap_r, Forall_Forall2_diag, Forall_forall.
    intros e _. apply to_sheet_row_remapped.
  - intros h newEvents existingData Hn He.
    destruct (filterNewEvents_ref_spec scraped existing h newEvents existingData Hn He)
      as (delta & h' & Hcall & Hdelta & Hnew & Hold).
    exists delta, h'. repeat split; auto.
Qed.

Example delta_keeps_scrape_order :
  filterNewEvents
    [show_x "A" "t1"; show_x "Show X" "2024-01-01T20:00:00Z"; show_x "B" "t2"]
    canonical_show_x =
  [to_sheet_row (show_x "A" "t1"); to_sheet_row (show_x "B" "t2")].
Proof. reflexivity. Qed.

Lemma filterNewEvents_preserves_order_witness :
  exists kept,
    non_duplicates canonical_show_x
      [show_x "A" "t1"; show_x "Show X" "2024-01-01T20:00:00Z"; show_x "B" "t2"] kept /\
    kept = [show_x "A" "t1"; show_x "B" "t2"] /\
    Forall2 remapped kept
      (filterNewEvents
         [show_x "A" "t1"; show_x "Show X" "2024-01-01T20:00:00Z"; show_x "B" "t2"]
         canonical_show_x).
Proof.
  destruct (filterNewEvents_preserves_order
              [show_x "A" "t1"; show_x "Show X" "2024-01-01T20:00:00Z"; show_x "B" "t2"]
              canonical_show_x) as (kept & Hnd & _ & _ & Hrows & _).
  exists kept. split; [exact Hnd|]. split; [|exact Hrows].
  apply (non_duplicates_unique _ _ _ _ Hnd).
  apply non_duplicates_keep; [intros (x & Hx & Hd & _); apply list_elem_of_singleton in Hx;
                              subst x; discriminate Hd|].
  apply non_duplicates_drop; [eexists; split; [left | split; reflexivity]|].
  apply non_duplicates_keep; [intros (x & Hx & Hd & _); apply list_elem_of_singleton in Hx;
                              subst x; discriminate Hd|].
  constructor.
Defined.

End ScraperFacts.

(** ** The page scraper and the merge cycle *)

Module MergeCycleFacts.
Import GoogleSheets Scraper Fixtures MergeFixtures.

Lemma scrapeEvents_network_error w :
  axios_get w TARGET_URL = None -> scrapeEvents w = Throw NetworkError.
Proof. intros H. unfold scrapeEvents. now rewrite H. Qed.

Lemma scrapeEvents_no_element w html :
  axios_get w TARGET_URL = Some html -> select_eventos w html = [] ->
  scrapeEvents w = Ok [].
Proof. intros H1 H2. unfold scrapeEvents. rewrite H1. simpl. now rewrite H2. Qed.

(** An element whose date text does not parse ends the scrape. *)
Lemma scrapeEvents_invalid_date w html before el rest :
  axios_get w TARGET_URL = Some html ->
  select_eventos w html = before ++ el :: rest ->
  (forall x, x ∈ before -> exists y, scrape_element w x = Ok y) ->
  scrape_element w el = Throw RangeError ->
  scrapeEvents w = Throw RangeError.
Proof.
  intros H1 H2 Hbefore Hel. unfold scrapeEvents. rewrite H1. simpl. rewrite H2.
  clear H1 H2. induction before as [|b before IH]; simpl.
  - now rewrite Hel.
  - destruct (Hbefore b) as [y Hy]; [left|]. rewrite Hy. simpl.
    rewrite IH; [reflexivity|]. intros x Hx. apply Hbefore. now right.
Qed.

Lemma scrapeAndUpdateEvents_throw w h st e :
  scrapeEvents w = Throw e -> scrapeAndUpdateEvents w h st = (Throw e, st).
Proof.
  intros H. unfold scrapeAndUpdateEvents, try_M, mbind, M_bind, lift. now rewrite H.
Qed.

Lemma scrapeAndUpdateEvents_return w h st events :
  scrapeEvents w = Ok events ->
  exists existing,
    fst (getGoogleSheetData h SHEET_ID "2043142206" st) = Ok existing /\
    scrapeAndUpdateEvents w h st =
      (Ok (length (filterNewEvents events (Array_map as_existing existing))),
       snd (getGoogleSheetData h SHEET_ID "2043142206" st)).
Proof.
  intros H.
  destruct (SheetFacts.getGoogleSheetData_never_throws h SHEET_ID "2043142206" st)
    as [existing Hex].
  exists existing. split; [exact Hex|].
  unfold scrapeAndUpdateEvents, try_M, mbind, M_bind, lift. rewrite H.
  destruct (getGoogleSheetData h SHEET_ID "2043142206" st) as [r st'].
  simpl in Hex. subst r. simpl.
  destruct (0 <? length (filterNewEvents events (Array_map as_existing existing)))%nat;
    reflexivity.
Qed.

(** C5, as stated, fails: on a page with no matching element the scrape
    returns the empty list and the merge cycle returns 0; neither throws. *)
Lemma scrape_without_events_returns :
  scrapeEvents page_without_events = Ok [] /\
  fst (scrapeAndUpdateEvents page_without_events host_offline (initial_state 0)) = Ok 0%nat.
Proof. split; reflexivity. Qed.

(** C5, amended. A failed fetch of the page makes [scrapeEvents] throw, and
    every exception of [scrapeEvents] leaves [scrapeAndUpdateEvents] to its
    caller, the module state untouched. A page on which no element matches
    is no failure: the scrape returns the empty list and the cycle
    returns 0. *)
Theorem scrape_failure_propagates (w : web) (h : host) (st : module_state) :
  (axios_get w TARGET_URL = None ->
   scrapeEvents w = Throw NetworkError /\
   scrapeAndUpdateEvents w h st = (Throw NetworkError, st)) /\
  (forall e, scrapeEvents w = Throw e ->
             scrapeAndUpdateEvents w h st = (Throw e, st)) /\
  (forall html,
     axios_get w TARGET_URL = Some html -> select_eventos w html = [] ->
     scrapeEvents w = Ok [] /\
     fst (scrapeAndUpdateEvents w h st) = Ok 0%nat).
Proof.
  split; [|split].
  - intros H. pose proof (scrapeEvents_network_error w H) as Hs.
    split; [exact Hs | now apply scrapeAndUpdateEvents_throw].
  - intros e. apply scrapeAndUpdateEvents_throw.
  - intros html H1 H2. pose proof (scrapeEvents_no_element w html H1 H2) as Hs.
    split; [exact Hs|].
    destruct (scrapeAndUpdateEvents_return w h st [] Hs) as (existing & _ & ->).
    reflexivity.
Qed.

Lemma scrape_failure_propagates_witness :
  axios_get site_down TARGET_URL = None /\
  scrapeEvents site_down = Throw NetworkError /\
  scrapeAndUpdateEvents site_down host_offline (initial_state 0) =
    (Throw NetworkError, initial_state 0).
Proof.
  split; [reflexivity|].
  apply (proj1 (scrape_failure_propagates site_down host_offline (initial_state 0))).
  reflexivity.
Defined.

End MergeCycleFacts.

(** ** The image of an event page *)

Module EventPageFacts.
Import EventPage ImageSpec Fixtures.

Lemma separator_test ch :
  (Ascii.eqb ch "/" || Ascii.eqb ch "=") = true <-> separator ch.
Proof.
  unfold separator. rewrite orb_true_iff, !Ascii.eqb_eq. reflexivity.
Qed.


Lemma match_fileId_here_sound s tok :
  match_fileId_here s = Some tok ->
  exists sep rest, token_at s EmptyString sep tok rest /\ stops is_token_char rest.
Proof.
  destruct s as [|x r]; cbn [match_fileId_here]; [discriminate|].
  destruct (Ascii.eqb x "/" || Ascii.eqb x "=") eqn:Hsep; [|discriminate].
  pose proof (span_append is_token_char r) as Happ.
  pose proof (span_all is_token_char r) as Hall.
  pose proof (span_stops is_token_char r) as Hstop.
  destruct (span is_token_char r) as [t rest]. cbn [fst snd] in *.
  destruct (25 <=? String.length t)%nat eqn:Hlen; [|discriminate].
  intros [= <-]. exists x, rest. split; [|exact Hstop].
  repeat split.
  - now rewrite append_nil, Happ.
  - now apply separator_test.
  - exact Hall.
  - now apply Nat.leb_le.
Qed.

Lemma match_fileId_sound s tok :
  match_fileId s = Some tok ->
  exists pre sep rest, token_at s pre sep tok rest /\ stops is_token_char rest.
Proof.
  induction s as [|x s IH].
  - simpl. discriminate.
  - cbn [match_fileId]. destruct (match_fileId_here (String x s)) as [t|] eqn:Hhere.
    + intros [= ->]. apply match_fileId_here_sound in Hhere as (sep & rest & H & Hs).
      exists EmptyString, sep, rest. split; assumption.
    + intros H. apply IH in H as (pre & sep & rest & (-> & Hsep & Hall & Hlen) & Hs).
      exists (String x pre), sep, rest. repeat split; assumption.
Qed.

Lemma match_fileId_here_complete sep tok rest :
  separator sep -> all_chars is_token_char tok = true ->
  (25 <= String.length tok)%nat ->
  exists t, match_fileId_here (String sep (tok +:+ rest)) = Some t.
Proof.
  intros Hsep Hall Hlen. cbn [match_fileId_here].
  apply separator_test in Hsep. rewrite Hsep.
  pose proof (span_run_length is_token_char tok rest Hall) as Hrun.
  destruct (span is_token_char (tok +:+ rest)) as [t r]. cbn [fst] in Hrun.
  destruct (Nat.leb_spec 25 (String.length t)); [eauto | lia].
Qed.

Lemma match_fileId_complete s pre sep tok rest :
  token_at s pre sep tok rest -> exists t, match_fileId s = Some t.
Proof.
  intros (-> & Hsep & Hall & Hlen).
  induction pre as [|x pre IH].
  - destruct (match_fileId_here_complete sep tok rest Hsep Hall Hlen) as [t Ht].
    exists t. rewrite append_nil. cbn [match_fileId]. now rewrite Ht.
  - rewrite append_cons. cbn [match_fileId].
    destruct (match_fileId_here _); [eauto | exact IH].
Qed.


Lemma token_free_no_match pre : token_free pre -> match_fileId pre = None.
Proof.
  intros H. destruct (match_fileId pre) as [t|] eqn:Hm; [|reflexivity].
  apply match_fileId_sound in Hm as (p & sep & rest & Hat & _).
  now apply H in Hat.
Qed.




Example drive_link_rewritten :
  event_image (Str drive_link) =
  Ok "https://lh3.googleusercontent.com/d/16nUoGC6zbtfSiu5jqD0R-Hvh7PHWZdqA=w1000".
Proof. reflexivity. Qed.

Example drive_link_open_id_rewritten :
  event_image (Str "https://drive.google.com/open?id=16nUoGC6zbtfSiu5jqD0R-Hvh7PHWZdqA") =
  Ok "https://lh3.googleusercontent.com/d/16nUoGC6zbtfSiu5jqD0R-Hvh7PHWZdqA=w1000".
Proof. reflexivity. Qed.

Example absolute_url_unchanged :
  event_image (Str "https://example.org/a.png") = Ok "https://example.org/a.png".
Proof. reflexivity. Qed.

Lemma no_match_token_free (pre : string) : match_fileId pre = None -> token_free pre.
Proof.
  intros Hnone p sep tok rest Hat.
  destruct (match_fileId_complete _ _ _ _ _ Hat) as [t Ht]. congruence.
Qed.


End EventPageFacts.

(** ** The sheet client: keys, invariants and the webhook *)

Module SheetExtras.
Import GoogleSheets SheetSpec SheetInvariants Fixtures SheetFacts.

Lemma drop_chars_length (n : nat) (s : string) :
  String.length (drop_chars n s) = (String.length s - n)%nat.
Proof.
  revert s. induction n as [|n IH]; intros s; simpl; [lia|].
  destruct s as [|ch s]; simpl; [reflexivity | apply IH].
Qed.

Lemma string_rev_length (acc s : string) :
  String.length (string_rev acc s) = (String.length s + String.length acc)%nat.
Proof.
  revert acc. induction s as [|ch s IH]; intros acc; simpl; [reflexivity|].
  rewrite IH. simpl. lia.
Qed.

Lemma length_zero_empty (s : string) : String.length s = 0%nat -> s = EmptyString.
Proof. destruct s; [reflexivity | discriminate]. Qed.

(** X1. The decoder cuts off exactly the framing: from a text made of any
    47 characters, a payload and the two-character suffix it keeps the
    payload; from a text of fewer than 50 characters it keeps nothing. *)
Theorem strip_framing_exact (text : string) :
  (forall prefix payload,
     String.length prefix = 47%nat ->
     text = prefix +:+ payload +:+ ");" ->
     strip_framing text = payload) /\
  ((String.length text <= 49)%nat -> strip_framing text = EmptyString).
Proof.
  split.
  - intros prefix payload Hlen ->. now apply strip_framing_framed.
  - intros Hlen. apply length_zero_empty.
    unfold strip_framing, substring_from, slice_drop_last.
    rewrite string_rev_length, drop_chars_length, string_rev_length, drop_chars_length.
    simpl. lia.
Qed.

Lemma strip_framing_exact_witness :
  strip_framing (RESPONSE_PREFIX +:+ "{...}" +:+ ");") = "{...}".
Proof.
  apply (proj1 (strip_framing_exact (RESPONSE_PREFIX +:+ "{...}" +:+ ");"))
           RESPONSE_PREFIX "{...}"); reflexivity.
Defined.

(** X2. A call of [getGoogleSheetData] or of [handleWebhookUpdate] for one
    key leaves the entries of all other keys as they are. *)
Theorem other_keys_untouched
    (h : host) (sheetId gid : string) (st : module_state) (key : string) :
  key <> cacheKey sheetId gid ->
  cache (snd (getGoogleSheetData h sheetId gid st)) !! key = cache st !! key /\
  cache (snd (handleWebhookUpdate h sheetId gid st)) !! key = cache st !! key.
Proof.
  intros Hne.
  assert (forall st0, cache (snd (getGoogleSheetData h sheetId gid st0)) !! key =
                      cache st0 !! key) as Hget.
  { intros st0.
    destruct (getGoogleSheetData_state h sheetId gid st0) as [-> | [rows ->]];
      [reflexivity|]. simpl. now rewrite lookup_insert_ne. }
  split; [apply Hget|].
  rewrite handleWebhookUpdate_state, Hget. simpl. now rewrite lookup_delete_ne.
Qed.

Lemma other_keys_untouched_witness :
  cache (snd (getGoogleSheetData host_one_row "other" "7" state_with_entry))
    !! cacheKey "sheet" "0" = cache state_with_entry !! cacheKey "sheet" "0".
Proof.
  apply (other_keys_untouched host_one_row "other" "7" state_with_entry
           (cacheKey "sheet" "0")).
  discriminate.
Defined.

(** X3. The staleness clock has no effect. A call whose fetch, decoding and
    transformation succeed returns the fresh rows and counts one more
    refresh whether or not the entry is stale; the result of any call
    depends on the module state only through the entry of its key. *)
Theorem every_call_fetches
    (h : host) (sheetId gid : string) (st st' : module_state) :
  (forall rows, fetch_decode_transform h sheetId gid = Ok rows ->
     fst (getGoogleSheetData h sheetId gid st) = Ok rows /\
     currentVersion (snd (getGoogleSheetData h sheetId gid st)) = currentVersion st + 1) /\
  (cache st !! cacheKey sheetId gid = cache st' !! cacheKey sheetId gid ->
   fst (getGoogleSheetData h sheetId gid st) = fst (getGoogleSheetData h sheetId gid st')).
Proof.
  split.
  - intros rows H. now rewrite (getGoogleSheetData_success _ _ _ _ _ H).
  - intros Hkey. destruct (fetch_decode_transform h sheetId gid) as [rows|e] eqn:H.
    + now rewrite !(getGoogleSheetData_success _ _ _ _ _ H).
    + rewrite !(getGoogleSheetData_failure _ _ _ _ _ H). simpl.
      unfold cached_or_empty. now rewrite Hkey.
Qed.

(** A fresh entry: the clock reads one second after the refresh. *)
Lemma every_call_fetches_witness :
  stale (cacheKey "sheet" "0") (Date_now host_one_row + 1000) state_with_entry = false /\
  fst (getGoogleSheetData host_one_row "sheet" "0" state_with_entry) = Ok [one_event] /\
  currentVersion (snd (getGoogleSheetData host_one_row "sheet" "0" state_with_entry)) =
    currentVersion state_with_entry + 1.
Proof.
  split; [reflexivity|].
  apply (proj1 (every_call_fetches host_one_row "sheet" "0"
                  state_with_entry state_with_entry) [one_event]).
  reflexivity.
Defined.

Lemma refreshed_invariant h key rows st :
  cache_invariant st -> cache_invariant (refreshed h key rows st).
Proof.
  intros ((Hcv & Hcount) & Hdist & Hstamp).
  split; [split|split].
  - simpl. lia.
  - intros k e. simpl. rewrite lookup_insert. case_decide.
    + intros [= <-]. simpl. lia.
    + intros He. apply Hcount in He. lia.
  - intros k1 k2 e1 e2. simpl. rewrite !lookup_insert.
    repeat case_decide; subst.
    + intros _ _ _. reflexivity.
    + intros [= <-] He2 Hv. apply Hcount in He2. simpl in Hv. lia.
    + intros He1 [= <-] Hv. apply Hcount in He1. simpl in Hv. lia.
    + apply Hdist.
  - intros k e. simpl. rewrite lookup_insert. case_decide.
    + intros [= <-] _. reflexivity.
    + intros He Hv. apply Hcount in He. lia.
Qed.

Lemma invalidated_invariant key st :
  cache_invariant st -> cache_invariant (invalidated key st).
Proof.
  intros ((Hcv & Hcount) & Hdist & Hstamp).
  split; [split|split].
  - exact Hcv.
  - intros k e. simpl. rewrite lookup_delete. case_decide; [discriminate|].
    apply Hcount.
  - intros k1 k2 e1 e2. simpl. rewrite !lookup_delete.
    repeat case_decide; try discriminate. apply Hdist.
  - intros k e. simpl. rewrite lookup_delete. case_decide; [discriminate|].
    apply Hstamp.
Qed.

Lemma after_call_invariant k st : cache_invariant st -> cache_invariant (after_call k st).
Proof.
  intros Hinv. destruct k as [h sheetId gid | h sheetId gid]; simpl.
  - destruct (getGoogleSheetData_state h sheetId gid st) as [-> | [rows ->]];
      [exact Hinv | now apply refreshed_invariant].
  - rewrite handleWebhookUpdate_state.
    destruct (getGoogleSheetData_state h sheetId gid
                (invalidated (cacheKey sheetId gid) st)) as [-> | [rows ->]].
    + now apply invalidated_invariant.
    + now apply refreshed_invariant, invalidated_invariant.
Qed.

(** X4. In every state the module can reach, the version of each cache
    entry is between 1 and the counter, no two keys hold the same version,
    and an entry whose version is the counter carries the last-modified
    stamp as its timestamp. *)
Theorem cache_versions_invariant (st : module_state) :
  reachable st ->
  versions_counted st /\ versions_distinct st /\ latest_stamped st.
Proof.
  intros [t0 Hlater]. change (cache_invariant st).
  induction Hlater as [|st' k _ IH]; [|now apply after_call_invariant].
  split; [split|split].
  - simpl. lia.
  - intros k e. simpl. rewrite lookup_empty. discriminate.
  - intros k1 k2 e1 e2. simpl. rewrite lookup_empty. discriminate.
  - intros k e. simpl. rewrite lookup_empty. discriminate.
Qed.

Lemma cache_versions_invariant_witness :
  versions_counted state_with_entry /\ versions_distinct state_with_entry /\
  latest_stamped state_with_entry.
Proof.
  apply (cache_versions_invariant state_with_entry).
  exists 0.
  exact (later_step (initial_state 0) (initial_state 0)
           (CallGet host_one_row "sheet" "0") (later_refl _)).
Defined.

(** X5. A webhook update while the sheet cannot be fetched or decoded
    returns the empty sequence and leaves the key without entry, whatever
    was cached: a later failing read of that key returns the empty
    sequence too. When the fetch succeeds, the update returns the fresh
    rows and stores them under the key. *)
Theorem handleWebhookUpdate_drops_fallback
    (h : host) (sheetId gid : string) (st : module_state) :
  let st' := snd (handleWebhookUpdate h sheetId gid st) in
  (forall e, fetch_decode_transform h sheetId gid = Throw e ->
     fst (handleWebhookUpdate h sheetId gid st) = Ok [] /\
     st' = invalidated (cacheKey sheetId gid) st /\
     cache st' !! cacheKey sheetId gid = None /\
     forall h' e', fetch_decode_transform h' sheetId gid = Throw e' ->
                   fst (getGoogleSheetData h' sheetId gid st') = Ok []) /\
  (forall rows, fetch_decode_transform h sheetId gid = Ok rows ->
     fst (handleWebhookUpdate h sheetId gid st) = Ok rows /\
     exists e, cache st' !! cacheKey sheetId gid = Some e /\ data e = rows).
Proof.
  assert (forall x, handleWebhookUpdate h sheetId gid x =
                    getGoogleSheetData h sheetId gid (invalidated (cacheKey sheetId gid) x))
    as Hweb by reflexivity.
  simpl. split.
  - intros e He. rewrite Hweb, (getGoogleSheetData_failure _ _ _ _ _ He). simpl.
    unfold cached_or_empty. rewrite lookup_delete_eq.
    repeat split. intros h' e' He'.
    rewrite (getGoogleSheetData_failure _ _ _ _ _ He'). simpl.
    unfold cached_or_empty. now rewrite lookup_delete_eq.
  - intros rows Hok. rewrite Hweb, (getGoogleSheetData_success _ _ _ _ _ Hok). simpl.
    split; [reflexivity|]. eexists. rewrite lookup_insert_eq. split; reflexivity.
Qed.

Lemma handleWebhookUpdate_drops_fallback_witness :
  cache state_with_entry !! cacheKey "sheet" "0" <> None /\
  fst (handleWebhookUpdate host_sign_in_page "sheet" "0" state_with_entry) = Ok [].
Proof.
  split; [discriminate|].
  apply (proj1 (handleWebhookUpdate_drops_fallback host_sign_in_page "sheet" "0"
                  state_with_entry) SyntaxError).
  reflexivity.
Defined.

Lemma hyphen_inside (a b : string) : ~ hyphen_free (a +:+ String "-" b).
Proof.
  unfold hyphen_free. induction a as [|ch a IH].
  - rewrite append_nil. simpl. discriminate.
  - rewrite append_cons. simpl. destruct (differs "-" ch); [exact IH | discriminate].
Qed.

(** X6. The cache key tells pairs apart when the tab identifiers hold no
    hyphen: two pairs with the same key are then the same pair. *)
Theorem cacheKey_injective (sheetId1 gid1 sheetId2 gid2 : string) :
  hyphen_free gid1 -> hyphen_free gid2 ->
  cacheKey sheetId1 gid1 = cacheKey sheetId2 gid2 ->
  sheetId1 = sheetId2 /\ gid1 = gid2.
Proof.
  intros H1 H2. unfold cacheKey.
  change (sheetId1 +:+ "-" +:+ gid1) with (sheetId1 +:+ String "-" gid1).
  change (sheetId2 +:+ "-" +:+ gid2) with (sheetId2 +:+ String "-" gid2).
  revert sheetId2. induction sheetId1 as [|ch s1 IH]; intros [|ch' s2].
  - rewrite !append_nil. intros [= ->]. auto.
  - rewrite append_nil, append_cons. intros [= <- ->]. now apply hyphen_inside in H1.
  - rewrite append_nil, append_cons. intros [= -> <-]. now apply hyphen_inside in H2.
  - rewrite !append_cons. intros [= -> Hrest].
    destruct (IH s2 Hrest) as [-> ->]. auto.
Qed.

(** With a hyphen in a tab identifier two pairs can share a key. *)
Example cacheKey_collision : cacheKey "a-b" "c" = cacheKey "a" "b-c".
Proof. reflexivity. Qed.

Lemma cacheKey_injective_witness :
  hyphen_free "2043142206" /\
  (Scraper.SHEET_ID = Scraper.SHEET_ID /\ "2043142206" = "2043142206").
Proof.
  split; [reflexivity|].
  apply (cacheKey_injective Scraper.SHEET_ID "2043142206" Scraper.SHEET_ID "2043142206");
    reflexivity.
Defined.

Lemma padStart2_length (s : string) : (2 <= String.length (padStart2 s))%nat.
Proof. destruct s as [|a [|b s]]; simpl; lia. Qed.

Lemma parse_date_shape (x d : value) :
  parse_date x = Ok d -> d = Null \/ exists tv, d = DateObj tv.
Proof.
  unfold parse_date. destruct (truthy x); [|intros [= <-]; now left].
  destruct (value_split "/" x) as [parts|e]; [|discriminate].
  cbn [mbind result_bind]. destruct (negb _ && negb _ && negb _); intros [= <-]; eauto.
Qed.

Lemma parse_time_shape (h : host) (x t : value) :
  parse_time h x = Ok t -> t = Null \/ padded_time t.
Proof.
  unfold parse_time. destruct (truthy x); [|intros [= <-]; now left].
  destruct (value_split ":" x) as [parts|e]; [|discriminate].
  cbn [mbind result_bind]. destruct (negb _ && negb _); intros [= <-]; [|now left].
  right. eexists _, _. split; [reflexivity|]. split; apply padStart2_length.
Qed.

Lemma or_else_Null_shape (x : value) : null_or_truthy (or_else x Null).
Proof.
  unfold null_or_truthy, or_else. destruct (truthy x) eqn:H; [now right | now left].
Qed.

(** X7. Every record the normalizer produces has, in each field, a value
    or [null], never [undefined] and never an empty one: the date is a
    [Date] or [null], the time is a padded time or [null], and each other
    field is truthy or [null]. *)
Theorem normalize_row_fields (h : host) (r : row) (rec : event_row) :
  normalize_row h r = Ok rec ->
  (date rec = Null \/ exists tv, date rec = DateObj tv) /\
  (time rec = Null \/ padded_time (time rec)) /\
  null_or_truthy (evento rec) /\
  null_or_truthy (local rec) /\
  null_or_truthy (tipo_evento rec) /\
  null_or_truthy (url rec) /\
  null_or_truthy (flyer rec).
Proof.
  unfold normalize_row.
  destruct (parse_date _) as [d|e] eqn:Hd; [|discriminate].
  destruct (parse_time h _) as [t|e] eqn:Ht; [|discriminate].
  cbn [mbind result_bind]. intros [= <-]. cbn [date time evento local tipo_evento url flyer].
  split; [now apply parse_date_shape in Hd|].
  split; [now apply parse_time_shape in Ht|].
  repeat split; apply or_else_Null_shape.
Qed.

Lemma normalize_row_fields_witness :
  null_or_truthy (url one_event) /\ null_or_truthy (flyer one_event).
Proof.
  apply (normalize_row_fields host_salvador (row_of (text_cell "Show de Natal")
           (text_cell "25/12/2024") (text_cell "20:00")) one_event).
  reflexivity.
Defined.

End SheetExtras.

(** ** The scraper, the merge cycle and the trigger endpoint *)

Module ScrapeExtras.
Import GoogleSheets Scraper MergeSpec ScrapeSpec MergeFixtures Fixtures.

Lemma scrape_element_result (w : web) (el : element) :
  match Scraper.parse_date w (stamp el) with
  | Some t => exists e, scrape_element w el = Ok e /\ scraped_as w el t e
  | None => scrape_element w el = Throw RangeError
  end.
Proof.
  unfold scrape_element, Date_toISOString. fold (stamp el).
  destruct (Scraper.parse_date w (stamp el)) as [t|]; [|reflexivity].
  cbn [mbind result_bind]. eexists. split; [reflexivity|].
  unfold scraped_as. cbn [eventName tags startDate endDate location description
                          registrationLink image].
  repeat (split; [reflexivity|]).
  split; [|split].
  - destruct (img_src el) as [src|]; [|discriminate].
    destruct src; [discriminate | discriminate].
  - intros src -> Hsrc. destruct src; [congruence | reflexivity].
  - intros [-> | ->]; reflexivity.
Qed.

(** X8. A scrape that returns has made one event of each matched element,
    in document order: its name and description are the trimmed texts, its
    start and its end are the same string, it has no tag and no
    registration link, its location is the fixed label, and its image is
    the [src] of the element or, without one, the default image. *)
Theorem scrapeEvents_shape (w : web) (events : list EventData) :
  scrapeEvents w = Ok events ->
  exists html,
    axios_get w TARGET_URL = Some html /\
    Forall2 (fun el e => exists t, Scraper.parse_date w (stamp el) = Some t /\
                                   scraped_as w el t e)
            (select_eventos w html) events.
Proof.
  unfold scrapeEvents. destruct (axios_get w TARGET_URL) as [html|]; [|discriminate].
  cbn [of_option mbind result_bind]. intros H. exists html. split; [reflexivity|].
  apply Array_map_throwing_Ok in H.
  eapply Forall2_impl; [exact H|]. intros el e He. cbv beta in He.
  pose proof (scrape_element_result w el) as Hres.
  destruct (Scraper.parse_date w (stamp el)) as [t|]; [|congruence].
  destruct Hres as (e' & He' & Hshape). exists t. split; [reflexivity|]. congruence.
Qed.

(** X9. The scrape throws exactly when the page cannot be fetched (the
    network error) or the stamp of some matched element does not parse
    (a RangeError from [toISOString]). *)
Theorem scrapeEvents_throws_exactly (w : web) (e : JS.error) :
  scrapeEvents w = Throw e <->
  (axios_get w TARGET_URL = None /\ e = NetworkError) \/
  (exists html el,
     axios_get w TARGET_URL = Some html /\ el ∈ select_eventos w html /\
     Scraper.parse_date w (stamp el) = None /\ e = RangeError).
Proof.
  assert (forall el e0, scrape_element w el = Throw e0 ->
            Scraper.parse_date w (stamp el) = None /\ e0 = RangeError) as Hthrow.
  { intros el e0 He0. pose proof (scrape_element_result w el) as Hres.
    destruct (Scraper.parse_date w (stamp el)) as [t|].
    - destruct Hres as (e' & He' & _). congruence.
    - split; [reflexivity | congruence]. }
  unfold scrapeEvents. destruct (axios_get w TARGET_URL) as [html|].
  - cbn [of_option mbind result_bind]. split.
    + intros H. apply Array_map_throwing_Throw in H as (l1 & el & l2 & ys & Hl & _ & Hel).
      right. exists html, el. split; [reflexivity|].
      split; [rewrite Hl; apply elem_of_app; right; left|]. now apply Hthrow.
    + intros [[H _] | (html' & el & [= <-] & Hel & Hparse & ->)]; [discriminate|].
      destruct (Array_map_throwing (scrape_element w) (select_eventos w html))
        as [ys|e0] eqn:Hm.
      * exfalso. apply Array_map_throwing_Ok in Hm.
        apply list_elem_of_lookup in Hel as [i Hi].
        destruct (Forall2_lookup_l _ _ _ _ _ Hm Hi) as (y & _ & Hy).
        pose proof (scrape_element_result w el) as Hres. rewrite Hparse in Hres.
        congruence.
      * apply Array_map_throwing_Throw in Hm as (l1 & x & l2 & ys & _ & _ & Hx).
        apply Hthrow in Hx as [_ ->]. reflexivity.
  - cbn [of_option mbind result_bind]. split.
    + intros [= <-]. now left.
    + intros [[_ ->] | (html & el & H & _)]; [reflexivity | discriminate].
Qed.

Lemma scrapeEvents_shape_witness :
  exists html,
    axios_get page_one_event TARGET_URL = Some html /\
    Forall2 (fun el e => exists t, Scraper.parse_date page_one_event (stamp el) = Some t /\
                                   scraped_as page_one_event el t e)
            (select_eventos page_one_event html) [scraped_show].
Proof. apply (scrapeEvents_shape page_one_event [scraped_show]). reflexivity. Defined.

Lemma scrapeEvents_throws_exactly_witness : scrapeEvents site_down = Throw NetworkError.
Proof.
  apply (proj2 (scrapeEvents_throws_exactly site_down NetworkError)).
  left. split; reflexivity.
Defined.

Lemma Array_filter_all {A} (p : A -> bool) (l : list A) :
  (forall x, x ∈ l -> p x = true) -> Array_filter p l = l.
Proof.
  induction l as [|a l IH]; intros H; simpl; [reflexivity|].
  rewrite (H a) by left. rewrite IH; [reflexivity|]. intros x Hx. apply H. now right.
Qed.

Lemma is_new_without_start (rows : list event_row) (e : EventData) :
  is_new (Array_map as_existing rows) e = true.
Proof.
  unfold is_new. apply negb_true_iff.
  induction rows as [|r rows IH]; simpl; [reflexivity|].
  unfold same_event at 1. simpl. now rewrite andb_false_r.
Qed.

Lemma merge_cycle_never_deduplicates_aux
    (w : web) (h : host) (st : module_state) (events : list EventData) :
  (forall rows : list event_row,
     filterNewEvents events (Array_map as_existing rows) = Array_map to_sheet_row events) /\
  (scrapeEvents w = Ok events ->
   fst (scrapeAndUpdateEvents w h st) = Ok (length events)).
Proof.
  assert (forall rows : list event_row,
            filterNewEvents events (Array_map as_existing rows) =
            Array_map to_sheet_row events) as Hall.
  { intros rows. unfold filterNewEvents. rewrite Array_filter_all; [reflexivity|].
    intros e _. apply is_new_without_start. }
  split; [exact Hall|]. intros Hs.
  destruct (MergeCycleFacts.scrapeAndUpdateEvents_return w h st events Hs)
    as (existing & _ & ->).
  simpl. rewrite Hall, Array_map_spec, length_fmap. reflexivity.
Qed.

(** X10. Against the rows of the position-indexed sheet client, which
    carry no start-time property, no scraped event is ever a duplicate:
    the delta is the whole scrape, and a merge cycle whose scrape returns
    reports as many new events as were scraped, whatever the sheet
    holds. *)
Theorem merge_cycle_never_deduplicates
    (w : web) (h : host) (st : module_state) (events : list EventData) :
  (forall rows : list event_row,
     filterNewEvents events (Array_map as_existing rows) = Array_map to_sheet_row events) /\
  (scrapeEvents w = Ok events ->
   fst (scrapeAndUpdateEvents w h st) = Ok (length events)).
Proof. apply merge_cycle_never_deduplicates_aux. Qed.

(** A page with one event, already in the sheet under the same name. *)
Lemma merge_cycle_never_deduplicates_witness :
  scrapeEvents page_one_event = Ok [scraped_show] /\
  fst (getGoogleSheetData host_one_row SHEET_ID "2043142206" (initial_state 0)) =
    Ok [one_event] /\
  fst (scrapeAndUpdateEvents page_one_event host_one_row (initial_state 0)) = Ok 1%nat.
Proof.
  split; [reflexivity|]. split; [reflexivity|].
  apply (proj2 (merge_cycle_never_deduplicates page_one_event host_one_row
                  (initial_state 0) [scraped_show])).
  reflexivity.
Defined.

Lemma filterNewEvents_app_raw (l1 l2 : list EventData) (ex : list existing_event) :
  filterNewEvents (l1 ++ l2) ex = filterNewEvents l1 ex ++ filterNewEvents l2 ex.
Proof.
  rewrite !ScraperFacts.filterNewEvents_unfold, filter_app, fmap_app. reflexivity.
Qed.

(** X11. Each scraped event is judged on its own: the delta of a
    concatenation is the concatenation of the deltas, so an event that is
    new and scraped twice is appended twice. *)
Theorem filterNewEvents_pointwise
    (l1 l2 : list EventData) (existing : list existing_event) (e : EventData) :
  filterNewEvents (l1 ++ l2) existing =
    filterNewEvents l1 existing ++ filterNewEvents l2 existing /\
  (is_new existing e = true ->
   filterNewEvents [e; e] existing = [to_sheet_row e; to_sheet_row e]).
Proof.
  split; [apply filterNewEvents_app_raw|].
  intros H. unfold filterNewEvents. simpl. now rewrite H.
Qed.

Lemma filterNewEvents_pointwise_witness :
  filterNewEvents [show_x "A" "t1"; show_x "A" "t1"] canonical_show_x =
  [to_sheet_row (show_x "A" "t1"); to_sheet_row (show_x "A" "t1")].
Proof.
  apply (proj2 (filterNewEvents_pointwise [] [] canonical_show_x (show_x "A" "t1"))).
  reflexivity.
Defined.

Lemma Array_some_app {A} (p : A -> bool) (l1 l2 : list A) :
  Array_some p (l1 ++ l2) = Array_some p l1 || Array_some p l2.
Proof.
  induction l1 as [|a l1 IH]; simpl; [reflexivity|].
  destruct (p a); [reflexivity | exact IH].
Qed.

Lemma sublist_filter_impl {A} (p q : A -> bool) (l : list A) :
  (forall x, p x = true -> q x = true) ->
  sublist (filter (fun x => p x = true) l) (filter (fun x => q x = true) l).
Proof.
  intros Hpq. induction l as [|a l IH]; [constructor|].
  rewrite !filter_cons. destruct (p a) eqn:Hp.
  - rewrite (Hpq a Hp). rewrite !decide_True by reflexivity. now constructor.
  - rewrite decide_False by discriminate.
    destruct (q a); [rewrite decide_True by reflexivity; now constructor|].
    rewrite decide_False by discriminate. exact IH.
Qed.

(** X12. More canonical records only shrink the delta: the delta against
    a longer store is a subsequence of the delta against the shorter one,
    the delta against the empty store is the whole scrape, and no delta is
    longer than the scrape. *)
Theorem filterNewEvents_monotone
    (scraped : list EventData) (existing more : list existing_event) :
  sublist (filterNewEvents scraped (existing ++ more)) (filterNewEvents scraped existing) /\
  filterNewEvents scraped [] = Array_map to_sheet_row scraped /\
  (length (filterNewEvents scraped existing) <= length scraped)%nat.
Proof.
  split; [|split].
  - rewrite !ScraperFacts.filterNewEvents_unfold. apply fmap_sublist.
    apply sublist_filter_impl. intros e. unfold is_new.
    rewrite Array_some_app, !negb_true_iff, orb_false_iff. tauto.
  - unfold filterNewEvents. rewrite Array_filter_all; [reflexivity|]. reflexivity.
  - rewrite ScraperFacts.filterNewEvents_unfold, length_fmap. apply length_filter.
Qed.

(** X13. The trigger endpoint always answers. When the scrape returns, the
    status is 200 and the body counts the scraped events as new; when the
    scrape throws, the status is 500, the body carries the exception, and
    the module state is as before. *)
Theorem GET_always_answers (w : web) (h : host) (st : module_state) :
  (exists r, fst (Api.GET w h st) = Ok r) /\
  (forall events, scrapeEvents w = Ok events ->
     fst (Api.GET w h st) =
       Ok {| Api.status := 200; Api.success := true;
             Api.newEvents := Some (length events); Api.error := None |}) /\
  (forall e, scrapeEvents w = Throw e ->
     Api.GET w h st =
       (Ok {| Api.status := 500; Api.success := false;
              Api.newEvents := None; Api.error := Some e |}, st)).
Proof.
  assert (forall events, scrapeEvents w = Ok events ->
     fst (Api.GET w h st) =
       Ok {| Api.status := 200; Api.success := true;
             Api.newEvents := Some (length events); Api.error := None |}) as Hok.
  { intros events Hs.
    pose proof (proj2 (merge_cycle_never_deduplicates_aux w h st events) Hs) as Hn.
    unfold Api.GET, try_M, mbind, M_bind.
    destruct (scrapeAndUpdateEvents w h st) as [[n|e] st']; simpl in Hn; [|discriminate].
    injection Hn as ->. reflexivity. }
  assert (forall e, scrapeEvents w = Throw e ->
     Api.GET w h st =
       (Ok {| Api.status := 500; Api.success := false;
              Api.newEvents := None; Api.error := Some e |}, st)) as Hthrow.
  { intros e Hs. unfold Api.GET, try_M, mbind, M_bind.
    now rewrite (MergeCycleFacts.scrapeAndUpdateEvents_throw w h st e Hs). }
  split; [|split; assumption].
  destruct (scrapeEvents w) as [events|e] eqn:Hs.
  - rewrite (Hok events eq_refl). eauto.
  - rewrite (Hthrow e eq_refl). eauto.
Qed.

Lemma GET_always_answers_witness :
  Api.GET site_down host_offline (initial_state 0) =
    (Ok {| Api.status := 500; Api.success := false;
           Api.newEvents := None; Api.error := Some NetworkError |}, initial_state 0).
Proof.
  apply (proj2 (proj2 (GET_always_answers site_down host_offline (initial_state 0)))).
  reflexivity.
Defined.

End ScrapeExtras.

(** ** Instants of the calendar *)

Module InstantFacts.
Import Date Calendar Instants DateFacts.

(** The fields of a time value put together from a day and a time of the
    day. *)
Lemma fields_of_parts (d h mi s ms : Z) :
  0 <= h < 24 -> 0 <= mi < 60 -> 0 <= s < 60 -> 0 <= ms < 1000 ->
  let t := d * msPerDay + (h * msPerHour + mi * msPerMinute + s * msPerSecond + ms) in
  Day t = d /\ HourFromTime t = h /\ MinFromTime t = mi /\ SecFromTime t = s /\
  msFromTime t = ms.
Proof.
  intros Hh Hmi Hs Hms. cbv zeta.
  unfold Day, HourFromTime, MinFromTime, SecFromTime, msFromTime,
    msPerDay, msPerHour, msPerMinute, msPerSecond.
  repeat split; Z.div_mod_to_equations; lia.
Qed.

Lemma instant_fields (y mo d h mi s : Z) :
  valid_date y mo d -> valid_clock h mi s ->
  has_utc_fields (instant y mo d h mi s) y mo d h mi s.
Proof.
  intros Hdate (Hh & Hmi & Hs).
  pose proof (midnight_fields y mo d Hdate) as (Hy & Hmo & Hd & Hday & Hend & _).
  assert (Day (midnight y mo d) =
          DayFromYear y + MonthStart (mo - 1) (InLeapYear y) + d - 1) as Hmid.
  { unfold midnight, Day, msPerDay. apply Z.div_mul. lia. }
  pose proof (fields_of_parts
                (DayFromYear y + MonthStart (mo - 1) (InLeapYear y) + d - 1)
                h mi s 0 ltac:(lia) ltac:(lia) ltac:(lia) ltac:(lia)) as Hf.
  cbv zeta in Hf. rewrite Z.add_0_r in Hf.
  fold (midnight y mo d) in Hf. fold (instant y mo d h mi s) in Hf.
  destruct Hf as (HDay & HH & HM & HS & _).
  unfold has_utc_fields. rewrite HDay, <- Hmid. tauto.
Qed.

(** [Date.UTC(year, month, day, hours, minutes, seconds)] on a time of a
    day of the calendar, the month counted from zero. *)
Lemma UTC6_valid (y mo d h mi s : Z) :
  100 <= y <= 9999 -> valid_date y mo d -> valid_clock h mi s ->
  UTC6 (of_Z y) (of_Z (mo - 1)) (of_Z d) (of_Z h) (of_Z mi) (of_Z s) =
  Some (instant y mo d h mi s).
Proof.
  intros Hy [Hmo Hd] (Hh & Hmi & Hs). unfold UTC6, UTC7, MakeFullYear, MakeDay, MakeTime.
  rewrite !finite_trunc_of_Z.
  replace ((0 <=? y) && (y <=? 99)) with false
    by (symmetry; apply andb_false_iff; right; apply Z.leb_gt; lia).
  rewrite !finite_trunc_of_Z. cbn [mbind option_bind].
  rewrite (Z.div_small (mo - 1) 12) by lia.
  rewrite (Z.mod_small (mo - 1) 12) by lia.
  rewrite !Z.add_0_r. unfold MakeDate, TimeClip.
  fold (midnight y mo d). fold (instant y mo d h mi s).
  destruct (leap_cases y) as [Hleap _].
  pose proof (DayFromYear_bounds y Hy) as Hb.
  assert (0 <= MonthStart (mo - 1) (InLeapYear y) <= 335) as Hm.
  { destruct (month_cases mo Hmo) as [->|[->|[->|[->|[->|[->|[->|[->|[->|[->|[->| ->]]]]]]]]]]];
      simpl; lia. }
  assert (d <= 31) as Hd31.
  { destruct (month_cases mo Hmo) as [->|[->|[->|[->|[->|[->|[->|[->|[->|[->|[->| ->]]]]]]]]]]];
      simpl in Hd; lia. }
  destruct (Z.leb_spec (Z.abs (instant y mo d h mi s)) 8640000000000000) as [_|Hbig];
    [reflexivity|].
  unfold instant, midnight, msPerDay, msPerHour, msPerMinute, msPerSecond in Hbig. lia.
Qed.

End InstantFacts.

(** ** The label-indexed normalizer: what the stages decode *)

Module LabelExtras.
Import Date Calendar Instants DateFacts InstantFacts LabelIndexed SheetSpec Fixtures.

Lemma nonempty_true (s : string) : s <> EmptyString -> nonempty s = true.
Proof. destruct s; [congruence | reflexivity]. Qed.

Lemma take_digits_run (ds rest : string) :
  digits ds -> stops is_digit rest -> take_digits (ds +:+ rest) = Some (ds, rest).
Proof.
  intros [Hne Hall] Hstop. unfold take_digits.
  rewrite (span_run _ _ _ Hall Hstop). now rewrite nonempty_true.
Qed.

Lemma take_digits4_run (ys rest : string) :
  digits ys -> String.length ys = 4%nat ->
  take_digits4 (ys +:+ rest) = Some (ys, rest).
Proof.
  intros [_ Hall] Hlen.
  destruct ys as [|a [|b [|d [|e [|x ys]]]]]; try discriminate.
  simpl in Hall. rewrite !andb_true_iff in Hall.
  destruct Hall as (Ha & Hb & Hd & He & _).
  rewrite !append_cons, append_nil. cbn [take_digits4].
  now rewrite Ha, Hb, Hd, He.
Qed.

(** [parseInt] reads a run of digits as its decimal value, when that is
    below 2^53. *)
Lemma parseInt_digits_small (s : string) :
  all_chars is_digit s = true -> decimal s < 2 ^ 53 ->
  parseInt_digits s = of_Z (decimal s).
Proof.
  intros Hall Hsmall. unfold parseInt_digits. fold (decimal s). apply binary64_of_Z.
  pose proof (digits_value_bounds s 0 Hall ltac:(lia)). unfold decimal in *. lia.
Qed.

Lemma group_digits (g : list string) (i : nat) (s : string) :
  g !! i = Some s -> digits s -> decimal s < 2 ^ 53 -> group g i = of_Z (decimal s).
Proof.
  intros H [_ Hall] Hsmall. unfold group. rewrite H. now apply parseInt_digits_small.
Qed.

(** The wrapped literal is matched where it stands. *)
Lemma match_Date_literal (ys ms ds hs mis ss : string) :
  digits ys -> String.length ys = 4%nat ->
  digits ms -> digits ds -> digits hs -> digits mis -> digits ss ->
  match_Date ("Date(" +:+ ys +:+ "," +:+ ms +:+ "," +:+ ds +:+ "," +:+ hs +:+ ","
              +:+ mis +:+ "," +:+ ss +:+ ")") =
  Some [ys; ms; ds; hs; mis; ss].
Proof.
  intros Hy Hy4 Hm Hd Hh Hmi Hs.
  change ("Date(" +:+ ys +:+ "," +:+ ms +:+ "," +:+ ds +:+ "," +:+ hs +:+ ","
          +:+ mis +:+ "," +:+ ss +:+ ")")
    with (String "D" (String "a" (String "t" (String "e" (String "("
           (ys +:+ String "," (ms +:+ String "," (ds +:+ String "," (hs +:+ String ","
             (mis +:+ String "," (ss +:+ String ")" EmptyString))))))))))).
  cbn [match_Date].
  assert (match_Date_here
            (String "D" (String "a" (String "t" (String "e" (String "("
              (ys +:+ String "," (ms +:+ String "," (ds +:+ String "," (hs +:+ String ","
                (mis +:+ String "," (ss +:+ String ")" EmptyString))))))))))) =
          Some [ys; ms; ds; hs; mis; ss]) as ->; [|reflexivity].
  unfold match_Date_here. cbn [expect_all expect Ascii.eqb Bool.eqb mbind option_bind].
  rewrite (take_digits4_run _ _ Hy Hy4). cbn [expect Ascii.eqb Bool.eqb mbind option_bind].
  rewrite (take_digits_run _ _ Hm) by reflexivity.
  cbn [expect Ascii.eqb Bool.eqb mbind option_bind].
  rewrite (take_digits_run _ _ Hd) by reflexivity.
  cbn [expect Ascii.eqb Bool.eqb mbind option_bind].
  rewrite (take_digits_run _ _ Hh) by reflexivity.
  cbn [expect Ascii.eqb Bool.eqb mbind option_bind].
  rewrite (take_digits_run _ _ Hmi) by reflexivity.
  cbn [expect Ascii.eqb Bool.eqb mbind option_bind].
  rewrite (take_digits_run _ _ Hs) by reflexivity.
  cbn [expect Ascii.eqb Bool.eqb mbind option_bind]. reflexivity.
Qed.

(** X14. A cell without display format whose raw string is the wrapped
    literal [Date(y,m,d,h,mi,s)] of a time of a day of the calendar - the
    year in four digits from 0100 on, the month counted from zero - is
    decoded to the instant whose UTC year, day, hour, minute and second
    are those of the literal and whose month is [m + 1]. *)
Theorem wrapped_literal_decoded
    (h : host) (x : cell) (ys ms ds hs mis ss : string) :
  digits ys -> String.length ys = 4%nat ->
  digits ms -> digits ds -> digits hs -> digits mis -> digits ss ->
  100 <= decimal ys <= 9999 ->
  valid_date (decimal ys) (decimal ms + 1) (decimal ds) ->
  valid_clock (decimal hs) (decimal mis) (decimal ss) ->
  v x = Str ("Date(" +:+ ys +:+ "," +:+ ms +:+ "," +:+ ds +:+ "," +:+ hs +:+ ","
             +:+ mis +:+ "," +:+ ss +:+ ")") ->
  truthy (f x) = false ->
  exists t,
    decode_cell h (Some x) = Ok (DateObj (Some t)) /\
    has_utc_fields t (decimal ys) (decimal ms + 1) (decimal ds)
                     (decimal hs) (decimal mis) (decimal ss).
Proof.
  intros Hy Hy4 Hm Hd Hh Hmi Hs Hrange Hdate Hclock Hv Hf.
  exists (instant (decimal ys) (decimal ms + 1) (decimal ds)
                  (decimal hs) (decimal mis) (decimal ss)).
  split; [|now apply instant_fields].
  unfold decode_cell. rewrite Hv, Hf. unfold stage_b.
  rewrite (match_Date_literal ys ms ds hs mis ss) by assumption.
  cbn [mbind option_bind].
  pose proof (valid_date_bounds _ _ _ Hdate) as [Bm Bd].
  destruct Hclock as (Bh & Bmi & Bs).
  rewrite (group_digits _ 0 ys), (group_digits _ 1 ms), (group_digits _ 2 ds),
    (group_digits _ 3 hs), (group_digits _ 4 mis), (group_digits _ 5 ss)
    by (reflexivity || assumption || lia).
  assert (valid_clock (decimal hs) (decimal mis) (decimal ss)) as Hclock
    by (repeat split; lia).
  pose proof (UTC6_valid (decimal ys) (decimal ms + 1) (decimal ds)
                (decimal hs) (decimal mis) (decimal ss) Hrange Hdate Hclock) as Hutc.
  replace (decimal ms + 1 - 1) with (decimal ms) in Hutc by lia.
  now rewrite Hutc.
Qed.

Lemma wrapped_literal_decoded_witness :
  exists t,
    decode_cell host_salvador (Some (cell_unformatted "Date(2024,11,25,20,0,0)")) =
      Ok (DateObj (Some t)) /\
    has_utc_fields t (decimal "2024") (decimal "11" + 1) (decimal "25")
                     (decimal "20") (decimal "0") (decimal "0").
Proof.
  apply (wrapped_literal_decoded host_salvador (cell_unformatted "Date(2024,11,25,20,0,0)")
           "2024" "11" "25" "20" "0" "0");
    try (split; [discriminate | reflexivity]);
    try reflexivity;
    vm_compute; intuition discriminate.
Defined.

Lemma all_chars_append (p : ascii -> bool) (a b : string) :
  all_chars p (a +:+ b) = all_chars p a && all_chars p b.
Proof.
  induction a as [|ch a IH]; [reflexivity|].
  rewrite append_cons. simpl. now rewrite IH, andb_assoc.
Qed.

Lemma split_clock (hs mis ss : string) :
  digits hs -> digits mis -> digits ss ->
  decimal hs < 2 ^ 53 -> decimal mis < 2 ^ 53 -> decimal ss < 2 ^ 53 ->
  Array_map StringToNumber (split ":" (hs +:+ ":" +:+ mis +:+ ":" +:+ ss)) =
  [of_Z (decimal hs); of_Z (decimal mis); of_Z (decimal ss)].
Proof.
  intros [Hh1 Hh2] [Hm1 Hm2] [Hs1 Hs2] Bh Bm Bs.
  change (hs +:+ ":" +:+ mis +:+ ":" +:+ ss)
    with (hs +:+ String ":" (mis +:+ String ":" ss)).
  rewrite !split_first by (now apply digits_differ).
  rewrite split_whole by (now apply digits_differ).
  cbn [Array_map]. now rewrite !StringToNumber_digits.
Qed.

Lemma split_two (sep : ascii) (a b : string) :
  all_chars (differs sep) a = true -> all_chars (differs sep) b = true ->
  split sep (a +:+ String sep b) = [a; b].
Proof. intros Ha Hb. now rewrite split_first, split_whole. Qed.

Lemma digits_no_space (a : string) :
  all_chars is_digit a = true -> all_chars (differs " ") a = true.
Proof. now apply digits_differ. Qed.

(** X15. A string cell whose display format is [D/M/Y H:MI:S], a time of
    a day of the calendar written in digits with a year from 100 to 9999,
    is decoded to the instant with these UTC fields, whatever its raw
    string is. *)
Theorem formatted_field_decoded
    (h : host) (x : cell) (raw ds ms ys hs mis ss : string) :
  digits ds -> digits ms -> digits ys -> digits hs -> digits mis -> digits ss ->
  100 <= decimal ys <= 9999 ->
  valid_date (decimal ys) (decimal ms) (decimal ds) ->
  valid_clock (decimal hs) (decimal mis) (decimal ss) ->
  v x = Str raw ->
  f x = Str ((ds +:+ "/" +:+ ms +:+ "/" +:+ ys) +:+ " " +:+
             (hs +:+ ":" +:+ mis +:+ ":" +:+ ss)) ->
  exists t,
    decode_cell h (Some x) = Ok (DateObj (Some t)) /\
    has_utc_fields t (decimal ys) (decimal ms) (decimal ds)
                     (decimal hs) (decimal mis) (decimal ss).
Proof.
  intros Hd Hm Hy Hh Hmi Hs Hrange Hdate Hclock Hv Hf.
  exists (instant (decimal ys) (decimal ms) (decimal ds)
                  (decimal hs) (decimal mis) (decimal ss)).
  split; [|now apply instant_fields].
  unfold decode_cell. rewrite Hv, Hf.
  rewrite NormalizerFacts.truthy_Str_append
    by (intros Habs; destruct ds; [now destruct Hd | discriminate]).
  unfold stage_a, value_split. cbn [mbind result_bind].
  change ((ds +:+ "/" +:+ ms +:+ "/" +:+ ys) +:+ " " +:+ hs +:+ ":" +:+ mis +:+ ":" +:+ ss)
    with ((ds +:+ "/" +:+ ms +:+ "/" +:+ ys) +:+
          String " " (hs +:+ ":" +:+ mis +:+ ":" +:+ ss)).
  rewrite split_two.
  - cbn [lookup list_lookup of_option_TypeError mbind result_bind].
    pose proof (valid_date_bounds _ _ _ Hdate) as [Bm Bd].
    pose proof Hclock as (Bh & Bmi & Bs).
    rewrite (NormalizerFacts.split_date ds ms ys Hd Hm Hy),
      (split_clock hs mis ss Hh Hmi Hs) by lia.
    cbn [lookup list_lookup ToNumber_opt].
    rewrite minus_one_of_Z by lia.
    now rewrite (UTC6_valid _ _ _ _ _ _ Hrange Hdate Hclock).
  - rewrite !all_chars_append. cbn [all_chars].
    rewrite !digits_no_space by (apply Hd || apply Hm || apply Hy). reflexivity.
  - rewrite !all_chars_append. cbn [all_chars].
    rewrite !digits_no_space by (apply Hh || apply Hmi || apply Hs). reflexivity.
Qed.

Lemma formatted_field_decoded_witness :
  exists t,
    decode_cell host_salvador (Some cell_formatted) = Ok (DateObj (Some t)) /\
    has_utc_fields t (decimal "2024") (decimal "12") (decimal "25")
                     (decimal "20") (decimal "00") (decimal "00").
Proof.
  apply (formatted_field_decoded host_salvador cell_formatted "Date(2024,11,25,20,0,0)"
           "25" "12" "2024" "20" "00" "00");
    try (split; [discriminate | reflexivity]);
    try reflexivity;
    vm_compute; intuition discriminate.
Defined.

Section FixedOffset.
Variable tz : Z -> bool -> Z.
Variable off : Z.
Hypothesis tz_fixed : forall t b, tz t b = off.

Lemma time_parts_bounds (t : Z) :
  0 <= HourFromTime t < 24 /\ 0 <= MinFromTime t < 60 /\
  0 <= SecFromTime t < 60 /\ 0 <= msFromTime t < 1000 /\
  Day t * msPerDay <= t < Day t * msPerDay + msPerDay.
Proof.
  unfold HourFromTime, MinFromTime, SecFromTime, msFromTime, Day,
    msPerDay, msPerHour, msPerMinute, msPerSecond.
  repeat split; Z.div_mod_to_equations; lia.
Qed.

(** Writing a time of the day on the local day of [t0]. *)
Lemma write_local (t0 hh mi ss ms : Z) :
  -8639000000000000 <= t0 <= 8639000000000000 ->
  0 <= hh < 24 -> 0 <= mi < 60 -> 0 <= ss < 60 -> 0 <= ms < 1000 ->
  let r := at_day (Day (t0 + off)) hh mi ss ms - off in
  TimeClip (toUTC tz (at_day (Day (t0 + off)) hh mi ss ms)) = Some r /\
  LocalTime tz r = at_day (Day (t0 + off)) hh mi ss ms /\
  t0 - 86400000 < r < t0 + 86400000.
Proof.
  intros Ht0 Hh Hmi Hs Hms. cbv zeta. unfold toUTC, LocalTime. rewrite !tz_fixed.
  pose proof (time_parts_bounds (t0 + off)) as (_ & _ & _ & _ & Hday).
  assert (t0 - 86400000 < at_day (Day (t0 + off)) hh mi ss ms - off < t0 + 86400000) as Hr.
  { unfold at_day, msPerDay, msPerHour, msPerMinute, msPerSecond in *. lia. }
  split; [|split; [lia | exact Hr]].
  unfold TimeClip.
  destruct (Z.leb_spec (Z.abs (at_day (Day (t0 + off)) hh mi ss ms - off))
              8640000000000000); [reflexivity | lia].
Qed.

Lemma setHours_fixed (t0 hh : Z) :
  -8639000000000000 <= t0 <= 8639000000000000 -> 0 <= hh < 24 ->
  setHours tz (Some t0) (of_Z hh) =
  Some (at_day (Day (t0 + off)) hh (MinFromTime (t0 + off)) (SecFromTime (t0 + off))
               (msFromTime (t0 + off)) - off).
Proof.
  intros Ht0 Hh. unfold setHours, MakeTime, MakeDate. cbn [mbind option_bind].
  unfold LocalTime at 1 2 3 4. rewrite !tz_fixed, !finite_trunc_of_Z.
  cbn [mbind option_bind].
  pose proof (time_parts_bounds (t0 + off)) as (_ & Hm & Hs & Hms & _).
  now apply write_local.
Qed.

Lemma setMinutes_fixed (t0 mi : Z) :
  -8639000000000000 <= t0 <= 8639000000000000 -> 0 <= mi < 60 ->
  setMinutes tz (Some t0) (of_Z mi) =
  Some (at_day (Day (t0 + off)) (HourFromTime (t0 + off)) mi (SecFromTime (t0 + off))
               (msFromTime (t0 + off)) - off).
Proof.
  intros Ht0 Hmi. unfold setMinutes, MakeTime, MakeDate. cbn [mbind option_bind].
  unfold LocalTime at 1 2 3 4. rewrite !tz_fixed, !finite_trunc_of_Z.
  cbn [mbind option_bind].
  pose proof (time_parts_bounds (t0 + off)) as (Hh & _ & Hs & Hms & _).
  now apply write_local.
Qed.

Lemma setSeconds_fixed (t0 ss : Z) :
  -8639000000000000 <= t0 <= 8639000000000000 -> 0 <= ss < 60 ->
  setSeconds tz (Some t0) (of_Z ss) =
  Some (at_day (Day (t0 + off)) (HourFromTime (t0 + off)) (MinFromTime (t0 + off)) ss
               (msFromTime (t0 + off)) - off).
Proof.
  intros Ht0 Hs. unfold setSeconds, MakeTime, MakeDate. cbn [mbind option_bind].
  unfold LocalTime at 1 2 3 4. rewrite !tz_fixed, !finite_trunc_of_Z.
  cbn [mbind option_bind].
  pose proof (time_parts_bounds (t0 + off)) as (Hh & Hm & _ & Hms & _).
  now apply write_local.
Qed.

(** The three writes of stage (d), one after the other. *)
Lemma set_time_of_day (now hh mi : Z) :
  -8600000000000000 <= now <= 8600000000000000 ->
  0 <= hh < 24 -> 0 <= mi < 60 ->
  setSeconds tz (setMinutes tz (setHours tz (Some now) (of_Z hh)) (of_Z mi)) (of_Z 0) =
  Some (at_day (Day (now + off)) hh mi 0 (msFromTime (now + off)) - off).
Proof.
  intros Hnow Hh Hmi.
  pose proof (time_parts_bounds (now + off)) as (_ & Hm0 & Hs0 & Hms0 & _).
  rewrite setHours_fixed by lia.
  pose proof (write_local now hh _ _ _ ltac:(lia) Hh Hm0 Hs0 Hms0) as (_ & _ & Hr1).
  cbv zeta in Hr1.
  pose proof (fields_of_parts (Day (now + off)) hh (MinFromTime (now + off))
                (SecFromTime (now + off)) (msFromTime (now + off)) Hh Hm0 Hs0 Hms0)
    as (F1 & F2 & F3 & F4 & F5).
  cbv zeta in F1, F2, F3, F4, F5. fold (at_day (Day (now + off)) hh (MinFromTime (now + off))
    (SecFromTime (now + off)) (msFromTime (now + off))) in F1, F2, F3, F4, F5.
  rewrite setMinutes_fixed by lia.
  replace (at_day (Day (now + off)) hh (MinFromTime (now + off)) (SecFromTime (now + off))
             (msFromTime (now + off)) - off + off)
    with (at_day (Day (now + off)) hh (MinFromTime (now + off)) (SecFromTime (now + off))
             (msFromTime (now + off))) by lia.
  rewrite F1, F2, F4, F5.
  pose proof (write_local now hh mi _ _ ltac:(lia) Hh Hmi Hs0 Hms0) as (_ & _ & Hr2).
  cbv zeta in Hr2.
  pose proof (fields_of_parts (Day (now + off)) hh mi
                (SecFromTime (now + off)) (msFromTime (now + off)) Hh Hmi Hs0 Hms0)
    as (G1 & G2 & G3 & G4 & G5).
  cbv zeta in G1, G2, G3, G4, G5. fold (at_day (Day (now + off)) hh mi
    (SecFromTime (now + off)) (msFromTime (now + off))) in G1, G2, G3, G4, G5.
  rewrite setSeconds_fixed by lia.
  replace (at_day (Day (now + off)) hh mi (SecFromTime (now + off))
             (msFromTime (now + off)) - off + off)
    with (at_day (Day (now + off)) hh mi (SecFromTime (now + off))
             (msFromTime (now + off))) by lia.
  now rewrite G1, G2, G3, G5.
Qed.

End FixedOffset.

Lemma match_Date_none (s : string) :
  all_chars (differs "D") s = true -> match_Date s = None.
Proof.
  induction s as [|ch s IH]; [reflexivity|].
  cbn [all_chars]. rewrite andb_true_iff. intros [Hch Hs].
  cbn [match_Date]. unfold match_Date_here at 1. cbn [expect_all expect].
  unfold differs in Hch. apply negb_true_iff in Hch. rewrite Hch.
  cbn [mbind option_bind]. now apply IH.
Qed.

Lemma match_time_digits (hh mm : string) :
  digits hh -> (String.length hh = 1 \/ String.length hh = 2)%nat ->
  digits mm -> String.length mm = 2%nat ->
  match_time (hh +:+ ":" +:+ mm) = Some (hh, mm).
Proof.
  intros [_ Hh] Hlen [_ Hm] Hlen2.
  destruct mm as [|m1 [|m2 [|x mm]]]; try discriminate.
  simpl in Hm. rewrite !andb_true_iff in Hm. destruct Hm as (Hm1 & Hm2 & _).
  destruct hh as [|h1 [|h2 [|x hh]]]; simpl in Hlen; try lia.
  - simpl in Hh. rewrite andb_true_r in Hh.
    change (String h1 "" +:+ ":" +:+ String m1 (String m2 ""))
      with (String h1 (String ":" (String m1 (String m2 "")))).
    cbn [match_time]. now rewrite Hh, Hm1, Hm2.
  - simpl in Hh. rewrite !andb_true_iff in Hh. destruct Hh as (Hh1 & Hh2 & _).
    change (String h1 (String h2 "") +:+ ":" +:+ String m1 (String m2 ""))
      with (String h1 (String h2 (String ":" (String m1 (String m2 ""))))).
    cbn [match_time]. now rewrite Hh1, Hh2, Hm1, Hm2.
Qed.

(** X16. On a host with a fixed offset of local time, a cell without
    display format whose raw string is a time [H:MM] or [HH:MM] before
    24:00, and which [new Date] does not parse, is decoded to the instant
    of the current local day at that local time, seconds 0; the
    milliseconds of the clock reading stay. *)
Theorem time_of_day_decoded
    (h : host) (x : cell) (hh mm : string) (off : Z) :
  (forall t b, LocalTZA h t b = off) ->
  -8600000000000000 <= Date_now h <= 8600000000000000 ->
  digits hh -> (String.length hh = 1 \/ String.length hh = 2)%nat ->
  digits mm -> String.length mm = 2%nat ->
  decimal hh <= 23 -> decimal mm <= 59 ->
  v x = Str (hh +:+ ":" +:+ mm) ->
  truthy (f x) = false ->
  Date_parse h (hh +:+ ":" +:+ mm) = None ->
  exists t,
    decode_cell h (Some x) = Ok (DateObj (Some t)) /\
    Day (t + off) = Day (Date_now h + off) /\
    HourFromTime (t + off) = decimal hh /\
    MinFromTime (t + off) = decimal mm /\
    SecFromTime (t + off) = 0 /\
    msFromTime (t + off) = msFromTime (Date_now h + off).
Proof.
  intros Htz Hnow Hh Hlen Hm Hlen2 Hh23 Hm59 Hv Hf Hparse.
  pose proof (digits_value_bounds hh 0 (proj2 Hh) ltac:(lia)) as Hh0.
  pose proof (digits_value_bounds mm 0 (proj2 Hm) ltac:(lia)) as Hm0.
  fold (decimal hh) in Hh0. fold (decimal mm) in Hm0.
  pose proof (time_parts_bounds (Date_now h + off)) as (_ & _ & _ & Hms & _).
  exists (at_day (Day (Date_now h + off)) (decimal hh) (decimal mm) 0
                 (msFromTime (Date_now h + off)) - off).
  split.
  - unfold decode_cell. rewrite Hv, Hf. unfold stage_b, stage_c, stage_d.
    rewrite match_Date_none, Hparse, (match_time_digits hh mm Hh Hlen Hm Hlen2).
    + cbn [mbind option_bind].
      rewrite !parseInt_digits_small by (apply Hh || apply Hm || lia).
      now rewrite (set_time_of_day (LocalTZA h) off Htz) by lia.
    + change (hh +:+ ":" +:+ mm) with (hh +:+ String ":" mm).
      rewrite all_chars_append. cbn [all_chars].
      rewrite !(digits_differ "D") by (reflexivity || apply Hh || apply Hm). reflexivity.
  - replace (at_day (Day (Date_now h + off)) (decimal hh) (decimal mm) 0
               (msFromTime (Date_now h + off)) - off + off)
      with (at_day (Day (Date_now h + off)) (decimal hh) (decimal mm) 0
               (msFromTime (Date_now h + off))) by lia.
    apply (fields_of_parts (Day (Date_now h + off)) (decimal hh) (decimal mm) 0
             (msFromTime (Date_now h + off))); lia.
Qed.

Lemma time_of_day_decoded_witness :
  exists t,
    decode_cell host_salvador (Some (cell_unformatted "20:30")) = Ok (DateObj (Some t)) /\
    Day (t + -10800000) = Day (Date_now host_salvador + -10800000) /\
    HourFromTime (t + -10800000) = decimal "20" /\
    MinFromTime (t + -10800000) = decimal "30" /\
    SecFromTime (t + -10800000) = 0 /\
    msFromTime (t + -10800000) = msFromTime (Date_now host_salvador + -10800000).
Proof.
  apply (time_of_day_decoded host_salvador (cell_unformatted "20:30") "20" "30" (-10800000));
    try (split; [discriminate | reflexivity]);
    try reflexivity;
    try (right; reflexivity);
    try (intros; reflexivity);
    vm_compute; intuition discriminate.
Defined.

End LabelExtras.

(** ** The pages: slugs, paths and images *)

Module PageExtras.
Import GoogleSheets StaticPaths EventPage IndexPage ImageSpec PageSpec SheetSpec
       SheetInvariants Fixtures PageFixtures.

Lemma alnum_not_hyphen (ch : ascii) : is_slug_alnum ch = true -> is_char ch "-" = false.
Proof.
  intros H. unfold is_char. destruct (Ascii.eqb_spec ch "-") as [-> | _]; [|reflexivity].
  discriminate H.
Qed.

Lemma replace_non_alnum_apart (s : string) :
  hyphens_apart true (replace_non_alnum true s) = true /\
  hyphens_apart false (replace_non_alnum false s) = true.
Proof.
  induction s as [|ch s [IHt IHf]]; [split; reflexivity|].
  cbn [replace_non_alnum]. destruct (is_slug_alnum ch) eqn:Hch.
  - cbn [hyphens_apart]. rewrite (alnum_not_hyphen _ Hch). split; exact IHf.
  - split; [exact IHt|]. cbn [hyphens_apart].
    replace (is_char "-" "-") with true by reflexivity. exact IHt.
Qed.

Lemma replace_non_alnum_chars (b : bool) (s : string) :
  all_chars slug_char (replace_non_alnum b s) = true.
Proof.
  revert b. induction s as [|ch s IH]; intros b; [reflexivity|].
  cbn [replace_non_alnum]. destruct (is_slug_alnum ch) eqn:Hch.
  - cbn [all_chars]. unfold slug_char at 1. rewrite Hch. apply IH.
  - destruct b; [apply IH|]. cbn [all_chars].
    replace (slug_char "-") with true by reflexivity. apply IH.
Qed.

Lemma strip_leading_apart (s : string) :
  hyphens_apart false s = true -> hyphens_apart true (strip_leading_hyphen s) = true.
Proof.
  destruct s as [|ch r]; [reflexivity|].
  cbn [strip_leading_hyphen hyphens_apart]. destruct (is_char ch "-") eqn:E.
  - intros H. exact H.
  - cbn [hyphens_apart]. now rewrite E.
Qed.

Lemma strip_leading_chars (p : ascii -> bool) (s : string) :
  all_chars p s = true -> all_chars p (strip_leading_hyphen s) = true.
Proof.
  destruct s as [|ch r]; [reflexivity|].
  cbn [strip_leading_hyphen]. destruct (is_char ch "-"); [|trivial].
  cbn [all_chars]. rewrite andb_true_iff. now intros [_ H].
Qed.

Lemma hyphens_apart_prefix (b : bool) (u x : string) :
  hyphens_apart b (u +:+ x) = true -> hyphens_apart b u = true.
Proof.
  revert b. induction u as [|a u IH]; intros b; [reflexivity|].
  rewrite append_cons. cbn [hyphens_apart]. destruct (is_char a "-").
  - rewrite !andb_true_iff. intros [H1 H2]. split; [exact H1 | now apply IH].
  - apply IH.
Qed.

Lemma hyphens_apart_no_double (b : bool) (a r : string) :
  hyphens_apart b (a +:+ String "-" (String "-" r)) = false.
Proof.
  revert b. induction a as [|ch a IH]; intros b.
  - rewrite append_nil. cbn [hyphens_apart].
    replace (is_char "-" "-") with true by reflexivity. cbn [negb andb].
    apply andb_false_r.
  - rewrite append_cons. cbn [hyphens_apart]. destruct (is_char ch "-").
    + rewrite IH. apply andb_false_r.
    + apply IH.
Qed.

Lemma string_snoc_cases (t : string) :
  t = EmptyString \/ exists u ch, t = u +:+ String ch EmptyString.
Proof.
  induction t as [|x t IH]; [now left|]. right.
  destruct IH as [-> | (u & ch & ->)].
  - exists EmptyString, x. reflexivity.
  - exists (String x u), ch. reflexivity.
Qed.

Lemma strip_trailing (u : string) (ch : ascii) :
  string_rev EmptyString
    (strip_leading_hyphen (string_rev EmptyString (u +:+ String ch EmptyString))) =
  if is_char ch "-" then u else u +:+ String ch EmptyString.
Proof.
  rewrite SheetFacts.string_rev_append. cbn [string_rev strip_leading_hyphen].
  destruct (is_char ch "-").
  - apply string_rev_involutive.
  - cbn [string_rev]. rewrite string_rev_rev. reflexivity.
Qed.

Lemma snoc_last_eq (u r : string) (x y : ascii) :
  u +:+ String x EmptyString = r +:+ String y EmptyString -> x = y.
Proof.
  intros H. apply (f_equal (string_rev EmptyString)) in H.
  rewrite !SheetFacts.string_rev_append in H. cbn [string_rev] in H. congruence.
Qed.

Lemma append_snoc (r : string) (x y : ascii) :
  (r +:+ String x EmptyString) +:+ String y EmptyString = r +:+ String x (String y EmptyString).
Proof.
  induction r as [|ch r IH]; [reflexivity|]. rewrite !append_cons. now rewrite IH.
Qed.

(** X17. The slug of an event name is safe in a path: it holds only the
    letters a to z, digits and hyphens, it neither starts nor ends with a
    hyphen, and no two hyphens are adjacent. *)
Theorem slugify_shape (s : string) :
  all_chars slug_char (slugify s) = true /\
  (forall r, slugify s <> String "-" r) /\
  (forall r, slugify s <> r +:+ String "-" EmptyString) /\
  (forall a b, slugify s <> a +:+ String "-" (String "-" b)).
Proof.
  unfold slugify, strip_edge_hyphens.
  pose proof (replace_non_alnum_chars false (toLowerCase s)) as Hchars.
  pose proof (proj2 (replace_non_alnum_apart (toLowerCase s))) as Hap.
  apply strip_leading_chars in Hchars. apply strip_leading_apart in Hap.
  destruct (string_snoc_cases (strip_leading_hyphen (replace_non_alnum false (toLowerCase s))))
    as [-> | (u & ch & Ht)].
  - cbn. split; [reflexivity|]. split; [discriminate|].
    split; [intros [|? ?]; discriminate | intros [|? ?] ?; discriminate].
  - rewrite Ht in Hchars, Hap |- *. rewrite strip_trailing.
    destruct (is_char ch "-") eqn:Hch.
    + apply Ascii.eqb_eq in Hch. subst ch.
      pose proof (hyphens_apart_prefix _ _ _ Hap) as Hu.
      rewrite LabelExtras.all_chars_append, andb_true_iff in Hchars.
      split; [apply Hchars|]. split; [intros r ->; discriminate Hu|].
      split.
      * intros r ->. rewrite append_snoc, hyphens_apart_no_double in Hap. discriminate.
      * intros a b ->. rewrite hyphens_apart_no_double in Hu. discriminate.
    + split; [exact Hchars|]. split.
      * intros r E. rewrite E in Hap. discriminate Hap.
      * split.
        -- intros r E. apply snoc_last_eq in E. subst ch. discriminate Hch.
        -- intros a b E. rewrite E, hyphens_apart_no_double in Hap. discriminate.
Qed.

(** *** Images on the two pages *)

Lemma includes_unfold (s sub : string) :
  includes s sub =
  String.prefix sub s ||
  match s with
  | String _ s' => includes s' sub
  | EmptyString => false
  end.
Proof. destruct s; reflexivity. Qed.

Lemma prefix_append (p r : string) : String.prefix p (p +:+ r) = true.
Proof.
  induction p as [|a p IH]; [destruct r; reflexivity|].
  rewrite append_cons. cbn [String.prefix].
  destruct (ascii_dec a a); [exact IH | congruence].
Qed.

Lemma includes_append (pre sub r : string) : includes (pre +:+ sub +:+ r) sub = true.
Proof.
  induction pre as [|a pre IH].
  - rewrite append_nil, includes_unfold, prefix_append. reflexivity.
  - rewrite append_cons, includes_unfold, IH. apply orb_true_r.
Qed.

Lemma startsWith_split (s p : string) :
  startsWith s p = true -> exists r, s = p +:+ r.
Proof.
  unfold startsWith. revert s. induction p as [|a p IH]; intros s H.
  - exists s. reflexivity.
  - destruct s as [|b s]; [discriminate|]. cbn [String.prefix] in H.
    destruct (ascii_dec a b) as [<-|]; [|discriminate].
    destruct (IH s H) as [r ->]. exists r. reflexivity.
Qed.

Lemma drive_prefix_includes (s : string) :
  startsWith s DRIVE_PREFIX = true -> includes s "drive.google.com" = true.
Proof.
  intros H. apply startsWith_split in H as [r ->].
  change (DRIVE_PREFIX +:+ r) with ("https://" +:+ "drive.google.com" +:+ r).
  apply includes_append.
Qed.

Lemma startsWith_nonempty (s p : string) :
  startsWith s p = true -> p <> EmptyString -> truthy (Str s) = true.
Proof.
  intros H Hp. destruct s; [|reflexivity]. destruct p; [congruence | discriminate].
Qed.

(** X18. Where the index page and the event page show the same image: for
    a drive reference that holds a file identifier both build the same
    content-delivery URL; another absolute reference without the drive
    host in it stays as it is on both; and without a reference both show
    the fallback image. *)
Theorem pages_agree_on_image :
  (forall s pre sep tok rest,
     startsWith s DRIVE_PREFIX = true -> token_at s pre sep tok rest ->
     exists tok', match_fileId s = Some tok' /\
                  image_src (Str s) = Ok (rewritten tok') /\
                  event_image (Str s) = Ok (rewritten tok')) /\
  (forall s,
     startsWith s "http" = true -> includes s "drive.google.com" = false ->
     image_src (Str s) = Ok s /\ event_image (Str s) = Ok s) /\
  (forall x,
     truthy x = false ->
     image_src x = Ok FALLBACK_IMAGE /\ event_image x = Ok FALLBACK_IMAGE).
Proof.
  split; [|split].
  - intros s pre sep tok rest Hdrive Hat.
    destruct (EventPageFacts.match_fileId_complete _ _ _ _ _ Hat) as [t Hm].
    exists t. split; [exact Hm|].
    pose proof (startsWith_nonempty _ _ Hdrive ltac:(discriminate)) as Ht.
    unfold image_src, event_image, or_else. rewrite Ht.
    rewrite (drive_prefix_includes _ Hdrive), Hm. fold DRIVE_PREFIX. rewrite Hdrive.
    split; reflexivity.
  - intros s Hhttp Hno.
    pose proof (startsWith_nonempty _ _ Hhttp ltac:(discriminate)) as Ht.
    unfold image_src, event_image, or_else. rewrite Ht, Hno. split; [reflexivity|].
    fold DRIVE_PREFIX. destruct (startsWith s DRIVE_PREFIX) eqn:Hdrive.
    + apply drive_prefix_includes in Hdrive. congruence.
    + now rewrite Hhttp.
  - intros x Hx. unfold image_src, event_image, or_else. rewrite Hx. split; reflexivity.
Qed.

Lemma pages_agree_on_image_witness :
  exists tok', match_fileId drive_link = Some tok' /\
               image_src (Str drive_link) = Ok (rewritten tok') /\
               event_image (Str drive_link) = Ok (rewritten tok').
Proof.
  apply (proj1 pages_agree_on_image drive_link "https://drive.google.com/file/d"
           "/"%char "16nUoGC6zbtfSiu5jqD0R-Hvh7PHWZdqA" "/view?usp=sharing").
  - reflexivity.
  - split; [reflexivity|]. split; [left; reflexivity|]. split; [reflexivity|].
    apply Nat.leb_le. reflexivity.
Defined.

(** X19. Where the two pages differ. A drive reference without a file
    identifier becomes, on the event page, the content-delivery URL of the
    text [undefined], while the index page keeps the reference; and a
    relative file name is put under [/images/] on the event page only. *)
Theorem pages_differ_on_image (s : string) :
  (startsWith s DRIVE_PREFIX = true -> token_free s ->
   event_image (Str s) = Ok UNDEFINED_IMAGE /\ image_src (Str s) = Ok s) /\
  (s <> EmptyString -> startsWith s "http" = false ->
   includes s "drive.google.com" = false ->
   event_image (Str s) = Ok ("/images/" +:+ s) /\ image_src (Str s) = Ok s).
Proof.
  split.
  - intros Hdrive Hfree.
    pose proof (startsWith_nonempty _ _ Hdrive ltac:(discriminate)) as Ht.
    pose proof (EventPageFacts.token_free_no_match _ Hfree) as Hm.
    unfold image_src, event_image, or_else. rewrite Ht.
    rewrite (drive_prefix_includes _ Hdrive), Hm. fold DRIVE_PREFIX. rewrite Hdrive.
    split; reflexivity.
  - intros Hs Hhttp Hno.
    assert (truthy (Str s) = true) as Ht by (destruct s; [congruence | reflexivity]).
    unfold image_src, event_image, or_else. rewrite Ht, Hno. split; [|reflexivity].
    fold DRIVE_PREFIX. destruct (startsWith s DRIVE_PREFIX) eqn:Hdrive.
    + apply drive_prefix_includes in Hdrive. congruence.
    + now rewrite Hhttp.
Qed.

Lemma pages_differ_on_image_witness :
  (event_image (Str drive_folder_link) = Ok UNDEFINED_IMAGE /\
   image_src (Str drive_folder_link) = Ok drive_folder_link) /\
  (event_image (Str "poster.jpg") = Ok "/images/poster.jpg" /\
   image_src (Str "poster.jpg") = Ok "poster.jpg").
Proof.
  split.
  - apply (proj1 (pages_differ_on_image drive_folder_link)); [reflexivity|].
    apply EventPageFacts.no_match_token_free. reflexivity.
  - apply (proj2 (pages_differ_on_image "poster.jpg")); [discriminate | reflexivity..].
Defined.

(** *** The paths of the event pages *)

Lemma event_image_throws (x : value) (e : JS.error) :
  event_image x = Throw e -> e = TypeError.
Proof.
  unfold event_image. destruct (truthy x); [|discriminate].
  destruct x; try (intros [= <-]; reflexivity).
  destruct (startsWith _ _); [discriminate|]. destruct (startsWith _ _); discriminate.
Qed.

Lemma path_of_row_throws (h : host) (r : event_row) (e : JS.error) :
  path_of_row h r = Throw e -> e = TypeError.
Proof.
  unfold path_of_row, slug_of.
  destruct (evento r); cbn [mbind result_bind]; try (intros [= <-]; reflexivity).
  destruct (event_image (flyer r)) as [img|e'] eqn:Himg; cbn [mbind result_bind];
    [discriminate|].
  intros [= <-]. exact (event_image_throws _ _ Himg).
Qed.

Lemma path_of_row_unnamed (h : host) (r : event_row) :
  (forall name, evento r <> Str name) -> path_of_row h r = Throw TypeError.
Proof.
  intros H. unfold path_of_row, slug_of.
  destruct (evento r); try reflexivity. now destruct (H s).
Qed.

Lemma path_of_row_named (h : host) (r : event_row) (p : static_path) :
  null_or_truthy (evento r) -> path_of_row h r = Ok p ->
  exists name, evento r = Str name /\ name <> EmptyString /\
               eventName (event p) = Str name /\ slug p = slugify name.
Proof.
  intros Hshape. unfold path_of_row, slug_of.
  destruct (evento r) as [| | | |name|] eqn:Hev; cbn [mbind result_bind]; try discriminate.
  destruct (event_image (flyer r)) as [img|e']; cbn [mbind result_bind]; [|discriminate].
  intros [= <-]. cbn [event eventName slug]. exists name.
  assert (name <> EmptyString) as Hne.
  { destruct Hshape as [? | Ht]; [discriminate|]. now destruct name. }
  split; [reflexivity|]. split; [exact Hne|]. split; [|reflexivity].
  unfold or_else. destruct name; [congruence | reflexivity].
Qed.

(** The type of a row never reaches its page. *)
Lemma path_of_row_tags (h : host) (r : event_row) (p : static_path) :
  path_of_row h r = Ok p -> tags (event p) = [].
Proof.
  unfold path_of_row. destruct (slug_of (evento r)); [|discriminate].
  destruct (event_image (flyer r)); [|discriminate].
  cbn [mbind result_bind]. now intros [= <-].
Qed.

Lemma fetched_rows_named (h : host) (sheetId gid : string) (rows : list event_row) :
  fetch_decode_transform h sheetId gid = Ok rows ->
  Forall (fun r => null_or_truthy (evento r)) rows.
Proof.
  unfold fetch_decode_transform.
  destruct (fetch_text h _) as [text|]; [|discriminate]. cbn [of_option mbind result_bind].
  destruct (JSON_parse h _) as [json|]; [|discriminate]. cbn [of_option mbind result_bind].
  intros H. apply Array_map_throwing_Ok in H.
  induction H as [|x y l l' Hxy _ IH]; constructor; [|exact IH].
  unfold normalize_row in Hxy.
  destruct (parse_date _); [|discriminate]. destruct (parse_time h _); [|discriminate].
  cbn [mbind result_bind] in Hxy. injection Hxy as <-. cbn [evento].
  apply SheetExtras.or_else_Null_shape.
Qed.

(** X20. The event pages need a name in every row. When the sheet is
    fetched and some row has no string as its name - an empty name cell
    gives [null] - [getStaticPaths] throws a TypeError and no path is
    built; when it returns, each path is made from its row, in order: the
    name is the row's non-empty name, never the default, and the slug is
    the slug of that name. *)
Theorem getStaticPaths_needs_names
    (h : host) (st : module_state) (rows : list event_row) :
  fetch_decode_transform h StaticPaths.SHEET_ID "0" = Ok rows ->
  ((exists r, r ∈ rows /\ forall name, evento r <> Str name) ->
   fst (getStaticPaths h st) = Throw TypeError) /\
  (forall paths, fst (getStaticPaths h st) = Ok paths ->
     Forall2 (fun r p => exists name,
                evento r = Str name /\ name <> EmptyString /\
                eventName (event p) = Str name /\ slug p = slugify name)
             rows paths).
Proof.
  intros Hfetch.
  pose proof (fetched_rows_named _ _ _ _ Hfetch) as Hnamed.
  unfold getStaticPaths, mbind, M_bind, lift.
  rewrite (SheetFacts.getGoogleSheetData_success _ _ _ st _ Hfetch). cbn [fst].
  split.
  - intros (r & Hr & Hno).
    destruct (Array_map_throwing (path_of_row h) rows) as [ys|e] eqn:Hm.
    + exfalso. apply Array_map_throwing_Ok in Hm.
      apply list_elem_of_lookup in Hr as [i Hi].
      destruct (Forall2_lookup_l _ _ _ _ _ Hm Hi) as (y & _ & Hy).
      rewrite (path_of_row_unnamed h r Hno) in Hy. discriminate.
    + apply Array_map_throwing_Throw in Hm as (l1 & x & l2 & ys & _ & _ & Hx).
      now rewrite (path_of_row_throws _ _ _ Hx).
  - intros paths Hp. apply Array_map_throwing_Ok in Hp.
    clear Hfetch. induction Hp as [|r p l l' Hrp _ IH]; [constructor|].
    inversion Hnamed as [|? ? Hr Hl]; subst.
    constructor; [now apply (path_of_row_named h) | now apply IH].
Qed.

Lemma getStaticPaths_needs_names_witness :
  fst (getStaticPaths (host_with_table nameless_table) (initial_state 0)) = Throw TypeError.
Proof.
  apply (proj1 (getStaticPaths_needs_names (host_with_table nameless_table)
                  (initial_state 0) [nameless_event] eq_refl)).
  exists nameless_event. split; [left | discriminate].
Defined.

End PageExtras.

(** ** The label-indexed client: headers, objects and the call *)

Module LabelTableExtras.
Import LabelIndexed LabelIndexedClient PageSpec Fixtures PageFixtures.

Lemma lowered_not_capital (ch : ascii) : in_range 65 90 (toLowerCase_char ch) = false.
Proof. destruct ch as [[] [] [] [] [] [] [] []]; reflexivity. Qed.

Lemma replace_spaces_chars (b : bool) (s : string) :
  all_chars (fun ch => negb (in_range 65 90 ch)) s = true ->
  all_chars header_char (replace_spaces b s) = true.
Proof.
  revert b. induction s as [|ch s IH]; intros b; [reflexivity|].
  cbn [all_chars replace_spaces]. rewrite andb_true_iff. intros [Hch Hs].
  destruct (is_space ch) eqn:Hsp.
  - destruct b; [now apply IH|]. cbn [all_chars].
    replace (header_char "_") with true by reflexivity. now apply IH.
  - cbn [all_chars]. unfold header_char at 1. rewrite Hsp, Hch. now apply IH.
Qed.

Lemma toLowerCase_chars (s : string) :
  all_chars (fun ch => negb (in_range 65 90 ch)) (toLowerCase s) = true.
Proof.
  induction s as [|ch s IH]; [reflexivity|].
  cbn [toLowerCase all_chars]. now rewrite lowered_not_capital, IH.
Qed.

(** X21. A header, the property name under which the cells of a column are
    stored, holds no white space and no capital letter A to Z, whatever
    the label of the column is. *)
Theorem header_of_col_chars (k : col) :
  all_chars header_char (header_of_col k) = true.
Proof.
  unfold header_of_col. destruct (label k) as [l|]; [|reflexivity].
  apply replace_spaces_chars, toLowerCase_chars.
Qed.

Lemma set_property_other (k k' : string) (y : value) (o : object) :
  k <> k' -> own (set_property k y o) !! k' = own o !! k'.
Proof.
  intros Hk. unfold set_property.
  destruct (String.eqb k "__proto__"); [destruct (proto o), y|]; cbn [own];
    try reflexivity; now apply lookup_insert_ne.
Qed.

Lemma set_property_plain (k : string) (y : value) (o : object) :
  k <> "__proto__" ->
  own (set_property k y o) !! k = Some y /\ proto (set_property k y o) = proto o.
Proof.
  intros Hk. unfold set_property. destruct (String.eqb_spec k "__proto__"); [congruence|].
  cbn [own proto]. split; [apply lookup_insert_eq | reflexivity].
Qed.

(** While [Object.prototype] is on the chain, an assignment to
    [__proto__] creates no property. *)
Lemma set_property_setter (y : value) (o : object) :
  proto o <> NullPrototype -> own (set_property "__proto__" y o) = own o.
Proof.
  intros Hp. unfold set_property. cbn [String.eqb Ascii.eqb Bool.eqb].
  destruct (proto o); [|congruence|]; destruct y; reflexivity.
Qed.

(** A name that is the header of no cell keeps what it had. *)
Lemma forEach_cells_other (h : host) (headers : list string) (cells : list (option cell)) :
  forall (index : nat) (obj0 obj : object) (k : string),
  forEach_cells h headers index cells obj0 = Ok obj ->
  (forall i, (i < length cells)%nat -> header_key headers (index + i) <> k) ->
  own obj !! k = own obj0 !! k.
Proof.
  induction cells as [|x rest IH]; intros index obj0 obj k.
  - cbn [forEach_cells]. now intros [= <-].
  - cbn [forEach_cells]. destruct (decode_cell h x) as [y0|e]; [|discriminate].
    cbn [mbind result_bind]. intros Hrest Hk.
    rewrite (IH _ _ _ k Hrest).
    + apply set_property_other. specialize (Hk 0%nat). rewrite Nat.add_0_r in Hk.
      apply Hk. cbn [length]. lia.
    + intros i Hi. specialize (Hk (S i)). rewrite Nat.add_succ_r in Hk.
      apply Hk. cbn [length]. lia.
Qed.

Lemma forEach_cells_lookup (h : host) (headers : list string) (cells : list (option cell)) :
  forall (index : nat) (obj0 obj : object),
  forEach_cells h headers index cells obj0 = Ok obj ->
  forall i x, cells !! i = Some x ->
    exists y, decode_cell h x = Ok y /\
      (header_key headers (index + i) <> "__proto__" ->
       (forall j, (i < j < length cells)%nat ->
          header_key headers (index + j) <> header_key headers (index + i)) ->
       own obj !! header_key headers (index + i) = Some y).
Proof.
  induction cells as [|x rest IH]; intros index obj0 obj.
  - intros _ i x Hx. discriminate Hx.
  - cbn [forEach_cells]. destruct (decode_cell h x) as [y0|e] eqn:Hx; [|discriminate].
    cbn [mbind result_bind]. intros Hrest [|i] x' Hx'.
    + injection Hx' as <-. exists y0. split; [exact Hx|]. intros Hplain Hlast.
      rewrite Nat.add_0_r in *.
      rewrite (forEach_cells_other _ _ _ _ _ _ _ Hrest).
      * now apply set_property_plain.
      * intros i Hi. specialize (Hlast (S i)). cbn [length] in Hlast.
        rewrite Nat.add_succ_r in Hlast. apply Hlast. lia.
    + destruct (IH _ _ _ Hrest i x' Hx') as (y & Hy & Hkey). exists y. split; [exact Hy|].
      intros Hplain Hlast. rewrite Nat.add_succ_r in *. apply Hkey; [exact Hplain|].
      intros j Hj. specialize (Hlast (S j)). cbn [length] in Hlast.
      rewrite !Nat.add_succ_r in Hlast. apply Hlast. lia.
Qed.

(** One cell under the header [__proto__] creates no property. *)
Lemma forEach_cells_proto (h : host) (headers : list string) (cells : list (option cell)) :
  forall (index : nat) (obj0 obj : object),
  forEach_cells h headers index cells obj0 = Ok obj ->
  proto obj0 <> NullPrototype ->
  (forall i j, (i < j < length cells)%nat ->
     header_key headers (index + i) = "__proto__" ->
     header_key headers (index + j) <> "__proto__") ->
  own obj !! "__proto__" = own obj0 !! "__proto__".
Proof.
  induction cells as [|x rest IH]; intros index obj0 obj.
  - cbn [forEach_cells]. now intros [= <-].
  - cbn [forEach_cells]. destruct (decode_cell h x) as [y0|e]; [|discriminate].
    cbn [mbind result_bind]. intros Hrest Hproto Honce.
    destruct (String.eqb_spec (header_key headers index) "__proto__") as [Hk|Hk].
    + rewrite (forEach_cells_other _ _ _ _ _ _ _ Hrest).
      * rewrite Hk. now rewrite set_property_setter.
      * intros i Hi. specialize (Honce 0%nat (S i)). rewrite Nat.add_0_r in Honce.
        rewrite Nat.add_succ_r in Honce. apply Honce; [cbn [length]; lia | exact Hk].
    + rewrite (IH _ _ _ Hrest).
      * now apply set_property_other.
      * now rewrite (proj2 (set_property_plain _ y0 obj0 Hk)).
      * intros i j Hij. specialize (Honce (S i) (S j)).
        rewrite !Nat.add_succ_r in Honce. apply Honce. cbn [length]. lia.
Qed.

(** X22. When the object of a row is returned, every cell of the row was
    decoded without exception. Under a header other than [__proto__] the
    object holds the decoded value of the last cell of the row stored
    under that header: the value of cell [i] when no later cell of the
    row has the same header (cells beyond the headers share the name
    [undefined]). A name that is the header of no cell of the row is not
    a property of the object. A cell under the header [__proto__] runs
    the setter of the prototype: when the row has at most one such cell,
    the object has no property of that name. *)
Theorem normalize_row_lookup
    (h : host) (headers : list string) (r : row) (obj : object) :
  LabelIndexed.normalize_row h headers r = Ok obj ->
  (forall i x, c r !! i = Some x ->
     exists y, decode_cell h x = Ok y /\
       (header_key headers i <> "__proto__" ->
        (forall j, (i < j < length (c r))%nat ->
           header_key headers j <> header_key headers i) ->
        own obj !! header_key headers i = Some y)) /\
  (forall k, (forall i, (i < length (c r))%nat -> header_key headers i <> k) ->
             own obj !! k = None) /\
  ((forall i j, (i < j < length (c r))%nat ->
      header_key headers i = "__proto__" -> header_key headers j <> "__proto__") ->
   own obj !! "__proto__" = None).
Proof.
  unfold LabelIndexed.normalize_row. intros H. split; [|split].
  - exact (forEach_cells_lookup h headers (c r) 0 empty_object obj H).
  - intros k Hk. rewrite (forEach_cells_other _ _ _ _ _ _ k H Hk). apply lookup_empty.
  - intros Honce. rewrite (forEach_cells_proto _ _ _ _ _ _ H); [apply lookup_empty | |exact Honce].
    discriminate.
Qed.

Lemma normalize_row_lookup_witness :
  exists obj,
    LabelIndexed.normalize_row host_salvador ["evento"; "__proto__"; "hora"]
      {| c := [text_cell "Show de Natal"; text_cell "x"; None] |} = Ok obj /\
    own obj !! "evento" = Some (Str "Show de Natal") /\
    own obj !! "hora" = Some Null /\
    own obj !! "local" = None /\
    own obj !! "__proto__" = None.
Proof.
  eexists. split; [reflexivity|].
  pose proof (normalize_row_lookup host_salvador ["evento"; "__proto__"; "hora"]
                {| c := [text_cell "Show de Natal"; text_cell "x"; None] |} _ eq_refl)
    as (Ha & Hb & Hc).
  split; [|split; [|split]].
  - destruct (Ha 0%nat _ eq_refl) as (y & Hy & Hkey). injection Hy as <-.
    apply Hkey; [discriminate|]. intros [|[|[|j]]] Hj; cbn in Hj; try lia; discriminate.
  - destruct (Ha 2%nat _ eq_refl) as (y & Hy & Hkey). injection Hy as <-.
    apply Hkey; [discriminate|]. intros j Hj. cbn in Hj. lia.
  - apply Hb. intros [|[|[|i]]] Hi; cbn in Hi; try lia; discriminate.
  - apply Hc. intros [|[|[|i]]] [|[|[|j]]] Hij; cbn in Hij; try lia; discriminate.
Defined.

Lemma decode_cell_returns (h : host) (x : option cell) :
  unformatted_cell x = true -> exists y, decode_cell h x = Ok y.
Proof.
  unfold unformatted_cell, decode_cell. destruct x as [y|]; [|eauto].
  destruct (v y); eauto. intros Hf. apply negb_true_iff in Hf. rewrite Hf.
  destruct (stage_b s); [eauto|]. destruct (stage_c h s); [eauto|].
  destruct (stage_d h s); eauto.
Qed.

Lemma forEach_cells_unformatted (h : host) (headers : list string)
    (cells : list (option cell)) :
  forallb unformatted_cell cells = true ->
  forall index obj0, exists obj, forEach_cells h headers index cells obj0 = Ok obj.
Proof.
  induction cells as [|x rest IH]; intros Hall index obj0; [cbn; eauto|].
  cbn [forallb] in Hall. apply andb_true_iff in Hall as [Hx Hrest].
  cbn [forEach_cells]. destruct (decode_cell_returns h x Hx) as [y ->].
  cbn [mbind result_bind]. now apply IH.
Qed.

Lemma transform_unformatted (h : host) (t : table) :
  unformatted t = true ->
  exists data, transform h t = Ok data /\ length data = length (rows t).
Proof.
  unfold unformatted, transform. intros Hall.
  destruct (Array_map_throwing _ (rows t)) as [data|e] eqn:Hm.
  - exists data. split; [reflexivity|]. exact (Array_map_throwing_length _ _ _ Hm).
  - exfalso. apply Array_map_throwing_Throw in Hm as (l1 & x & l2 & ys & Hl & _ & Hx).
    rewrite Hl, forallb_app in Hall. apply andb_true_iff in Hall as [_ Hall].
    cbn [forallb] in Hall. apply andb_true_iff in Hall as [Hcells _].
    destruct (forEach_cells_unformatted h (Array_map header_of_col (cols t)) (c x) Hcells
                0%nat empty_object) as [obj Hobj].
    unfold LabelIndexed.normalize_row in Hx. congruence.
Qed.

(** X23. The call of the label-indexed client never throws, and it makes
    no use of its cache: when the fetch, the decoding or a row fails it
    returns the empty array and leaves the state, whatever the cache
    holds. When the table is fetched and decoded and no string-valued cell
    has a display format, no row fails: the call returns one object per
    row, stores them under the key of the sheet with the next version and
    the clock reading, and advances the counter. *)
Theorem label_client_call
    (h : host) (sheetId gid : string) (st : module_state) :
  (exists data, fst (getGoogleSheetData h sheetId gid st) = Ok data) /\
  (forall e, fetch_decode_transform h sheetId gid = Throw e ->
     getGoogleSheetData h sheetId gid st = (Ok [], st)) /\
  (forall text t,
     fetch_text h (GoogleSheets.sheet_url sheetId gid) = Some text ->
     JSON_parse h (GoogleSheets.strip_framing text) = Some t ->
     unformatted t = true ->
     exists data,
       length data = length (rows t) /\
       getGoogleSheetData h sheetId gid st =
         (Ok data,
          {| cache := <[GoogleSheets.cacheKey sheetId gid :=
                          {| data := data; timestamp := Date_now h;
                             version := currentVersion st + 1 |}]> (cache st);
             currentVersion := currentVersion st + 1;
             lastModified := Date_now h |})).
Proof.
  split; [|split].
  - unfold getGoogleSheetData. destruct (fetch_decode_transform h sheetId gid); eauto.
  - intros e He. unfold getGoogleSheetData. now rewrite He.
  - intros text t Hfetch Hparse Hplain.
    destruct (transform_unformatted h t Hplain) as (data & Hdata & Hlen).
    exists data. split; [exact Hlen|].
    unfold getGoogleSheetData, fetch_decode_transform.
    rewrite Hfetch. cbn [GoogleSheets.of_option mbind result_bind].
    rewrite Hparse. cbn [GoogleSheets.of_option mbind result_bind].
    now rewrite Hdata.
Qed.

Lemma label_client_call_witness :
  exists data,
    length data = 2%nat /\
    getGoogleSheetData (host_with_table plain_table) "sheet" "0"
      {| cache := ∅; currentVersion := 0; lastModified := 0 |} =
      (Ok data,
       {| cache := <[GoogleSheets.cacheKey "sheet" "0" :=
                       {| data := data; timestamp := 1735156800000; version := 1 |}]> ∅;
          currentVersion := 1;
          lastModified := 1735156800000 |}).
Proof.
  apply (proj2 (proj2 (label_client_call (host_with_table plain_table) "sheet" "0"
                         {| cache := ∅; currentVersion := 0; lastModified := 0 |}))
           (RESPONSE_PREFIX +:+ "{...}" +:+ RESPONSE_SUFFIX) plain_table);
    reflexivity.
Defined.

End LabelTableExtras.
